(** * Verification of the contact book of [src/main.py]

    Shallow embedding of the classes [Phone], [Birthday], [Record] and
    [AddressBook] of [src/main.py], together with the parts of the Python
    standard library they use: [datetime.date] (proleptic Gregorian dates
    with years 1..9999, [replace], comparison, subtraction, [weekday],
    addition of a [timedelta]), [datetime.strptime] with the format
    ["%d.%m.%Y"] and [str.isdigit].

    Python strings are modelled as Rocq [string]s whose characters are the
    code points 0..255 (Latin-1); [len] is [String.length]. For
    [Birthday] and [strptime], whose [\d] accepts decimal digits of every
    script, a second model takes a string as the list of its code points
    ([ustring]); on Latin-1 strings the two agree. *)

From Stdlib Require Import ZArith Lia Bool Ascii String List.
From stdpp Require Import base list.
Import ListNotations.

Open Scope string_scope.
Open Scope Z_scope.

(* ------------------------------------------------------------------ *)
(** ** Exceptions and the error monad *)

(** The exception classes raised by the code ([ValueError], [KeyError]) and
    by [datetime] arithmetic ([OverflowError]). *)
Inductive exn :=
| ValueError (msg : string)
| KeyError (msg : string)
| OverflowError (msg : string).

(** Outcome of a Python call: a returned value or a raised exception. *)
Inductive outcome (A : Type) :=
| Ok (a : A)
| Err (e : exn).
Arguments Ok {A} a.
Arguments Err {A} e.

Definition obind {A B} (m : outcome A) (k : A -> outcome B) : outcome B :=
  match m with
  | Ok a => k a
  | Err e => Err e
  end.

Notation "x <- m ;; k" := (obind m (fun x => k))
  (at level 100, m at next level, right associativity).

(** [try: m except ValueError: h] *)
Definition except_value_error {A} (m : outcome A) (h : outcome A) : outcome A :=
  match m with
  | Err (ValueError _) => h
  | _ => m
  end.

(* ------------------------------------------------------------------ *)
(** ** Characters *)

Definition code (c : ascii) : Z := Z.of_N (N_of_ascii c).

(** Regular-expression [\d] on code points 0..255: only '0'..'9' are of
    Unicode category Nd in that range. *)
Definition is_ascii_digit (c : ascii) : bool := (48 <=? code c) && (code c <=? 57).

(** [str.isdigit] on one code point of 0..255: '0'..'9' and the
    superscript digits U+00B2, U+00B3, U+00B9 (Numeric_Type=Digit). *)
Definition py_isdigit_char (c : ascii) : bool :=
  is_ascii_digit c || (code c =? 178) || (code c =? 179) || (code c =? 185).

(** [str.isdigit()]: false on the empty string. *)
Definition py_isdigit (s : string) : bool :=
  match s with
  | EmptyString => false
  | _ => forallb py_isdigit_char (list_ascii_of_string s)
  end.

Definition digit_value (c : ascii) : Z := code c - 48.

(** [int(tok)] for the tokens produced by the [strptime] regexes: decimal
    digits, possibly after one leading space (which [int] strips). *)
Fixpoint py_int_acc (acc : Z) (s : string) : Z :=
  match s with
  | EmptyString => acc
  | String c r =>
      if is_ascii_digit c then py_int_acc (acc * 10 + digit_value c) r
      else py_int_acc acc r
  end.
Definition py_int (s : string) : Z := py_int_acc 0 s.

(* ------------------------------------------------------------------ *)
(** ** [datetime.date] *)

Record date := mkdate { year : Z; month : Z; day : Z }.

Definition MINYEAR : Z := 1.
Definition MAXYEAR : Z := 9999.

Definition _is_leap (y : Z) : bool :=
  (y mod 4 =? 0) && (negb (y mod 100 =? 0) || (y mod 400 =? 0)).

Definition _DAYS_IN_MONTH : list Z := [-1; 31; 28; 31; 30; 31; 30; 31; 31; 30; 31; 30; 31].
Definition _DAYS_BEFORE_MONTH : list Z := [-1; 0; 31; 59; 90; 120; 151; 181; 212; 243; 273; 304; 334].

Definition _days_in_month (y m : Z) : Z :=
  if (m =? 2) && _is_leap y then 29 else nth (Z.to_nat m) _DAYS_IN_MONTH 0.

Definition _days_before_year (y : Z) : Z :=
  let y' := y - 1 in y' * 365 + y' / 4 - y' / 100 + y' / 400.

Definition _days_before_month (y m : Z) : Z :=
  nth (Z.to_nat m) _DAYS_BEFORE_MONTH 0 + (if (m >? 2) && _is_leap y then 1 else 0).

Definition _ymd2ord (y m d : Z) : Z :=
  _days_before_year y + _days_before_month y m + d.

Definition _DI400Y : Z := 146097.
Definition _DI100Y : Z := 36524.
Definition _DI4Y : Z := 1461.

(** [_ord2ymd] of CPython's [datetime.py]. *)
Definition _ord2ymd (n0 : Z) : date :=
  let n := n0 - 1 in
  let n400 := n / _DI400Y in let n := n mod _DI400Y in
  let year := n400 * 400 + 1 in
  let n100 := n / _DI100Y in let n := n mod _DI100Y in
  let n4 := n / _DI4Y in let n := n mod _DI4Y in
  let n1 := n / 365 in let n := n mod 365 in
  let year := year + (n100 * 100 + n4 * 4 + n1) in
  if (n1 =? 4) || (n100 =? 4) then mkdate (year - 1) 12 31
  else
    let leapyear := (n1 =? 3) && (negb (n4 =? 24) || (n100 =? 3)) in
    let month := Z.shiftr (n + 50) 5 in
    let preceding := nth (Z.to_nat month) _DAYS_BEFORE_MONTH 0
                     + (if (month >? 2) && leapyear then 1 else 0) in
    let '(month, preceding) :=
      if preceding >? n then
        let month := month - 1 in
        (month, preceding - (nth (Z.to_nat month) _DAYS_IN_MONTH 0
                             + (if (month =? 2) && leapyear then 1 else 0)))
      else (month, preceding) in
    mkdate year month (n - preceding + 1).

Definition _MAXORDINAL : Z := 3652059.

(** [str(z)] of an integer: its decimal digits, after a minus sign when it
    is negative. The fuel, the number of binary digits of [|z|], bounds the
    number of decimal digits. *)
Fixpoint nat_digits (fuel : nat) (n : Z) (acc : string) : string :=
  match fuel with
  | O => acc
  | S f =>
      let acc' := String (ascii_of_N (Z.to_N (48 + n mod 10))) acc in
      if n <? 10 then acc' else nat_digits f (n / 10) acc'
  end.

Definition py_str_int (z : Z) : string :=
  let ds := nat_digits (Pos.size_nat (Z.to_pos (Z.abs z))) (Z.abs z) EmptyString in
  if z <? 0 then String "-" ds else ds.

(** [date(year, month, day)]: [check_date_args] of CPython's [_datetime]
    module raises [ValueError]. *)
Definition mk_date (y m d : Z) : outcome date :=
  if negb ((MINYEAR <=? y) && (y <=? MAXYEAR)) then
    Err (ValueError ("year " ++ py_str_int y ++ " is out of range"))
  else if negb ((1 <=? m) && (m <=? 12)) then
    Err (ValueError "month must be in 1..12")
  else if negb ((1 <=? d) && (d <=? _days_in_month y m)) then
    Err (ValueError "day is out of range for month")
  else Ok (mkdate y m d).

(** The invariant of a [date] object, established by [_check_date_fields]. *)
Definition valid_date (d : date) : Prop :=
  MINYEAR <= year d <= MAXYEAR /\ 1 <= month d <= 12 /\ 1 <= day d <= _days_in_month (year d) (month d).

Definition toordinal (d : date) : Z := _ymd2ord (year d) (month d) (day d).

Definition fromordinal (n : Z) : date := _ord2ymd n.

(** [d.weekday()]: 0 = Monday ... 6 = Sunday. *)
Definition weekday (d : date) : Z := (toordinal d + 6) mod 7.

(** [d.replace(year=y)] and [d.replace(year=y, day=dd)]. *)
Definition replace_year (d : date) (y : Z) : outcome date := mk_date y (month d) (day d).
Definition replace_year_day (d : date) (y dd : Z) : outcome date := mk_date y (month d) dd.

(** [d1 < d2]: comparison of the tuples (year, month, day). *)
Definition date_lt (d1 d2 : date) : bool :=
  (year d1 <? year d2)
  || ((year d1 =? year d2) && ((month d1 <? month d2)
                               || ((month d1 =? month d2) && (day d1 <? day d2)))).

(** [(d1 - d2).days] *)
Definition days_between (d1 d2 : date) : Z := toordinal d1 - toordinal d2.

(** [d + timedelta(days=n)]: a date outside years 1..9999 raises
    [OverflowError] ([normalize_date] of the [_datetime] module). *)
Definition add_days (d : date) (n : Z) : outcome date :=
  let o := toordinal d + n in
  if (0 <? o) && (o <=? _MAXORDINAL) then Ok (fromordinal o)
  else Err (OverflowError "date value out of range").

(** [d.strftime("%d.%m.%Y")]: day and month zero-padded to two digits; the
    year printed in decimal (glibc's [%Y], unpadded below 1000). *)
Definition digit_char (k : Z) : ascii := ascii_of_N (Z.to_N (48 + k)).

Definition pad2 (z : Z) : string :=
  String (digit_char ((z / 10) mod 10)) (String (digit_char (z mod 10)) EmptyString).

Definition year_str (y : Z) : string :=
  if y <? 10 then String (digit_char y) EmptyString
  else if y <? 100 then pad2 y
  else if y <? 1000 then String (digit_char (y / 100)) (pad2 y)
  else String (digit_char ((y / 1000) mod 10)) (String (digit_char ((y / 100) mod 10)) (pad2 y)).

Definition strftime_dmy (d : date) : string :=
  (pad2 (day d) ++ "." ++ pad2 (month d) ++ "." ++ year_str (year d))%string.

(* ------------------------------------------------------------------ *)
(** ** [datetime.strptime(value, "%d.%m.%Y")]

    [_strptime] compiles the format to the regular expression
    [(?P<d>3[0-1]|[1-2]\d|0[1-9]|[1-9]| [1-9])\.(?P<m>1[0-2]|0[1-9]|[1-9])\.(?P<Y>\d\d\d\d)],
    takes [format_regex.match(data_string)] (the first match in the
    regex's priority order), raises [ValueError] when there is none or when
    [len(data_string) != found.end()], and finally builds
    [datetime_date(year, month, day)], which raises [ValueError] for an
    impossible date. A regex piece is modelled as the list of
    (matched text, rest of input) in priority order. *)

Definition ch_in (lo hi : Z) (c : ascii) : bool := (lo <=? code c) && (code c <=? hi).
Definition ch_is (k : Z) (c : ascii) : bool := code c =? k.

Definition re1 (p : ascii -> bool) (s : string) : list (string * string) :=
  match s with
  | String c r => if p c then [(String c EmptyString, r)] else []
  | EmptyString => []
  end.

Definition re2 (p1 p2 : ascii -> bool) (s : string) : list (string * string) :=
  match s with
  | String c1 (String c2 r) =>
      if p1 c1 && p2 c2 then [(String c1 (String c2 EmptyString), r)] else []
  | _ => []
  end.

(** [3[0-1]|[1-2]\d|0[1-9]|[1-9]| [1-9]] on a Latin-1 string, where [\d]
    matches '0'..'9' only; [ure_d] below is the same pattern on any code
    points. *)
Definition re_d (s : string) : list (string * string) :=
  re2 (ch_is 51) (ch_in 48 49) s ++ re2 (ch_in 49 50) is_ascii_digit s
  ++ re2 (ch_is 48) (ch_in 49 57) s ++ re1 (ch_in 49 57) s
  ++ re2 (ch_is 32) (ch_in 49 57) s.

(** [1[0-2]|0[1-9]|[1-9]] *)
Definition re_m (s : string) : list (string * string) :=
  re2 (ch_is 49) (ch_in 48 50) s ++ re2 (ch_is 48) (ch_in 49 57) s
  ++ re1 (ch_in 49 57) s.

(** [\d\d\d\d] on a Latin-1 string, where [\d] matches '0'..'9' only;
    [ure_Y] below is the same pattern on any code points. *)
Definition re_Y (s : string) : list (string * string) :=
  match s with
  | String a (String b (String c (String d r))) =>
      if is_ascii_digit a && is_ascii_digit b && is_ascii_digit c && is_ascii_digit d
      then [(String a (String b (String c (String d EmptyString))), r)] else []
  | _ => []
  end.

(** the escaped literal [\.] *)
Definition re_dot (s : string) : list string :=
  match s with
  | String c r => if ch_is 46 c then [r] else []
  | EmptyString => []
  end.

(** All matches of the compiled pattern at the start of [s], in priority
    order: (day text, month text, year text, unmatched rest). *)
Definition dmy_matches (s : string) : list (string * string * string * string) :=
  flat_map (fun '(d, r1) =>
    flat_map (fun r2 =>
      flat_map (fun '(m, r3) =>
        flat_map (fun r4 =>
          map (fun '(y, r5) => (d, m, y, r5)) (re_Y r4))
        (re_dot r3))
      (re_m r2))
    (re_dot r1))
  (re_d s).

Definition strptime_dmy (data_string : string) : outcome date :=
  match dmy_matches data_string with
  | [] => Err (ValueError "time data does not match format")
  | (d, m, y, rest) :: _ =>
      match rest with
      | EmptyString => mk_date (py_int y) (py_int m) (py_int d)
      | _ => Err (ValueError "unconverted data remains")
      end
  end.

(* ------------------------------------------------------------------ *)
(** ** [datetime.strptime(value, "%d.%m.%Y")] on all of Unicode

    A Python [str] holds any code point. In a [str] pattern [\d] matches
    every Unicode decimal digit (category Nd), and [int()] reads such digits
    by their decimal value; the classes [[0-1]], [[1-2]], [[1-9]], [[0-2]]
    and the literals match only their ASCII characters, also under the
    [re.IGNORECASE] flag [_strptime] compiles with. Here a string is the
    list of its code points. Among the code points 0..255 the only decimal
    digits are '0'..'9', so the definitions of the previous section are
    this model on Latin-1 strings (lemma [strptime_dmy_codes]). *)
Definition ustring := list Z.

Definition ucodes (s : string) : ustring := map code (list_ascii_of_string s).

(** The decimal digits of Unicode 14.0.0, the database of Python 3.11
    ([unicodedata.decimal]): 66 runs of ten consecutive code points with the
    values 0..9; the list gives the first code point of each run. *)
Definition decimal_run_starts : list Z :=
  [48; 1632; 1776; 1984; 2406; 2534; 2662; 2790; 2918; 3046; 3174; 3302; 3430;
    3558; 3664; 3792; 3872; 4160; 4240; 6112; 6160; 6470; 6608; 6784; 6800;
    6992; 7088; 7232; 7248; 42528; 43216; 43264; 43472; 43504; 43600; 44016;
    65296; 66720; 68912; 69734; 69872; 69942; 70096; 70384; 70736; 70864; 71248;
    71360; 71472; 71904; 72016; 72784; 73040; 73120; 92768; 92864; 93008;
    120782; 120792; 120802; 120812; 120822; 123200; 123632; 125264; 130032].

Fixpoint decimal_in (runs : list Z) (c : Z) : option Z :=
  match runs with
  | [] => None
  | s0 :: t => if (s0 <=? c) && (c <=? s0 + 9) then Some (c - s0) else decimal_in t c
  end.

(** The decimal value of a code point, if it is a decimal digit. *)
Definition py_decimal (c : Z) : option Z := decimal_in decimal_run_starts c.

(** [\d] on one code point. *)
Definition is_decimal (c : Z) : bool :=
  match py_decimal c with Some _ => true | None => false end.

(** [int(tok)] for the tokens of the regex pieces: decimal digits, possibly
    after one leading space (which [int] strips). *)
Fixpoint u_int_acc (acc : Z) (s : ustring) : Z :=
  match s with
  | [] => acc
  | c :: r =>
      match py_decimal c with
      | Some v => u_int_acc (acc * 10 + v) r
      | None => u_int_acc acc r
      end
  end.
Definition u_int (s : ustring) : Z := u_int_acc 0 s.

Definition uch_in (lo hi c : Z) : bool := (lo <=? c) && (c <=? hi).
Definition uch_is (k c : Z) : bool := c =? k.

Definition ure1 (p : Z -> bool) (s : ustring) : list (ustring * ustring) :=
  match s with
  | c :: r => if p c then [([c], r)] else []
  | [] => []
  end.

Definition ure2 (p1 p2 : Z -> bool) (s : ustring) : list (ustring * ustring) :=
  match s with
  | c1 :: c2 :: r => if p1 c1 && p2 c2 then [([c1; c2], r)] else []
  | _ => []
  end.

(** [3[0-1]|[1-2]\d|0[1-9]|[1-9]| [1-9]] *)
Definition ure_d (s : ustring) : list (ustring * ustring) :=
  ure2 (uch_is 51) (uch_in 48 49) s ++ ure2 (uch_in 49 50) is_decimal s
  ++ ure2 (uch_is 48) (uch_in 49 57) s ++ ure1 (uch_in 49 57) s
  ++ ure2 (uch_is 32) (uch_in 49 57) s.

(** [1[0-2]|0[1-9]|[1-9]] *)
Definition ure_m (s : ustring) : list (ustring * ustring) :=
  ure2 (uch_is 49) (uch_in 48 50) s ++ ure2 (uch_is 48) (uch_in 49 57) s
  ++ ure1 (uch_in 49 57) s.

(** [\d\d\d\d] *)
Definition ure_Y (s : ustring) : list (ustring * ustring) :=
  match s with
  | a :: b :: c :: d :: r =>
      if is_decimal a && is_decimal b && is_decimal c && is_decimal d
      then [([a; b; c; d], r)] else []
  | _ => []
  end.

(** the escaped literal [\.] *)
Definition ure_dot (s : ustring) : list ustring :=
  match s with
  | c :: r => if uch_is 46 c then [r] else []
  | [] => []
  end.

Definition udmy_matches (s : ustring) : list (ustring * ustring * ustring * ustring) :=
  flat_map (fun '(d, r1) =>
    flat_map (fun r2 =>
      flat_map (fun '(m, r3) =>
        flat_map (fun r4 =>
          map (fun '(y, r5) => (d, m, y, r5)) (ure_Y r4))
        (ure_dot r3))
      (ure_m r2))
    (ure_dot r1))
  (ure_d s).

Definition ustrptime_dmy (data_string : ustring) : outcome date :=
  match udmy_matches data_string with
  | [] => Err (ValueError "time data does not match format")
  | (d, m, y, rest) :: _ =>
      match rest with
      | [] => mk_date (u_int y) (u_int m) (u_int d)
      | _ => Err (ValueError "unconverted data remains")
      end
  end.

(** [Birthday(value)] on a string of any code points: the field holds
    [value] once [strptime] accepted it. *)
Definition uBirthday_init (value : ustring) : outcome ustring :=
  match ustrptime_dmy value with
  | Err (ValueError _) => Err (ValueError "Invalid date format. Use DD.MM.YYYY")
  | Err e => Err e
  | Ok _ => Ok value
  end.

(* ------------------------------------------------------------------ *)
(** ** [Phone] and [Birthday] *)

(** [Phone(number)]: the field holds [validate_number(number)]. *)
Record Phone := mkPhone { phone_value : string }.

Definition validate_number (number : string) : outcome string :=
  if negb (Nat.eqb (String.length number) 10) then
    Err (ValueError "Phone number must contain 10 digits")
  else if negb (py_isdigit number) then
    Err (ValueError "Phone number must contain only numbers")
  else Ok number.

Definition Phone_init (number : string) : outcome Phone :=
  v <- validate_number number ;; Ok (mkPhone v).

(** [Birthday(value)]: the field holds [value] once [strptime] accepted it. *)
Record Birthday := mkBirthday { birthday_value : string }.

Definition Birthday_init (value : string) : outcome Birthday :=
  match strptime_dmy value with
  | Err (ValueError _) => Err (ValueError "Invalid date format. Use DD.MM.YYYY")
  | Err e => Err e
  | Ok _ => Ok (mkBirthday value)
  end.

(* ------------------------------------------------------------------ *)
(** ** [Record] *)

Record record := mkrecord {
  name : string;                 (* self.name.value *)
  phones : list Phone;           (* self.phones *)
  birthday : option Birthday     (* self.birthday, None at creation *)
}.

Definition Record_init (n : string) : record := mkrecord n [] None.

Definition set_phones (self : record) (ps : list Phone) : record :=
  mkrecord (name self) ps (birthday self).
Definition set_birthday (self : record) (b : Birthday) : record :=
  mkrecord (name self) (phones self) (Some b).

(** A method call on a record: the outcome of the call and the record
    afterwards (a raised exception leaves the mutations done before it). *)
Definition method (A : Type) := record -> outcome A * record.

Definition add_phone (number : string) : method unit := fun self =>
  if existsb (fun p => String.eqb (phone_value p) number) (phones self) then
    (Err (ValueError "Phone already exists."), self)
  else
    match Phone_init number with
    | Ok p => (Ok tt, set_phones self (phones self ++ [p]))
    | Err e => (Err e, self)
    end.

Definition remove_phone (number : string) : method unit := fun self =>
  (Ok tt, set_phones self (List.filter (fun p => negb (String.eqb (phone_value p) number)) (phones self))).

(** [for i, phone in enumerate(self.phones): if phone.value == old_phone]:
    the first index whose phone has value [old_phone]. *)
Fixpoint find_index (old_phone : string) (ps : list Phone) : option nat :=
  match ps with
  | [] => None
  | p :: t =>
      if String.eqb (phone_value p) old_phone then Some 0%nat
      else option_map S (find_index old_phone t)
  end.

Definition edit_phone (old_phone new_phone : string) : method unit := fun self =>
  match find_index old_phone (phones self) with
  | Some i =>
      match Phone_init new_phone with
      | Ok p => (Ok tt, set_phones self (<[i := p]> (phones self)))
      | Err e => (Err e, self)
      end
  | None =>
      (Err (ValueError ("Phone '" ++ old_phone ++ "' not found for contact '"
                        ++ name self ++ "'.")%string), self)
  end.

Definition find_phone (number : string) (self : record) : option Phone :=
  List.find (fun p => String.eqb (phone_value p) number) (phones self).

Definition add_birthday (date_str : string) : method unit := fun self =>
  match Birthday_init date_str with
  | Ok b => (Ok tt, set_birthday self b)
  | Err e => (Err e, self)
  end.

(** The record methods of the invariant claim, as a command language. *)
Inductive record_op :=
| OpAddPhone (number : string)
| OpRemovePhone (number : string)
| OpEditPhone (old_phone new_phone : string)
| OpAddBirthday (date_str : string).

Definition run_op (o : record_op) : method unit :=
  match o with
  | OpAddPhone n => add_phone n
  | OpRemovePhone n => remove_phone n
  | OpEditPhone o n => edit_phone o n
  | OpAddBirthday d => add_birthday d
  end.

(** A sequence of method calls; the caller catches every exception and
    goes on with the record as it was left (as the [input_error] wrapper
    does). *)
Fixpoint run_ops (os : list record_op) (self : record) : record :=
  match os with
  | [] => self
  | o :: t => run_ops t (snd (run_op o self))
  end.

Definition phone_values (self : record) : list string := map phone_value (phones self).

(* ------------------------------------------------------------------ *)
(** ** [AddressBook] *)

(** [self.data]: a Python dict from name to record, in insertion order. *)
Definition AddressBook := list (string * record).

(** [self.data[k] = v]: an existing key keeps its position. *)
Fixpoint dict_setitem (k : string) (v : record) (d : AddressBook) : AddressBook :=
  match d with
  | [] => [(k, v)]
  | (k', v') :: t => if String.eqb k' k then (k, v) :: t else (k', v') :: dict_setitem k v t
  end.

Definition add_record (r : record) (self : AddressBook) : AddressBook :=
  dict_setitem (name r) r self.

Fixpoint find (n : string) (self : AddressBook) : option record :=
  match self with
  | [] => None
  | (k, v) :: t => if String.eqb k n then Some v else find n t
  end.

Definition delete (n : string) (self : AddressBook) : outcome AddressBook :=
  match find n self with
  | Some _ => Ok (List.filter (fun kv => negb (String.eqb (fst kv) n)) self)
  | None => Err (KeyError "Contact not found.")
  end.

(** The process environment read by [datetime.today()]. *)
Record world := mkworld { clock_today : date }.

(** Lines 88-97: the occurrence of [original_bday] in [today]'s year, or in
    the next year when it is already past; the [except ValueError] branches
    retry with day 28. *)
Definition resolve (today original_bday : date) : outcome date :=
  bday_this_year <- except_value_error (replace_year original_bday (year today))
                      (replace_year_day original_bday (year today) 28) ;;
  if date_lt bday_this_year today then
    except_value_error (replace_year original_bday (year today + 1))
      (replace_year_day original_bday (year today + 1) 28)
  else Ok bday_this_year.

(** Lines 102-104: the weekend shift. *)
Definition greet_of (bday_this_year : date) : outcome date :=
  let greet_date := bday_this_year in
  if (weekday greet_date =? 5) || (weekday greet_date =? 6) then
    add_days greet_date (7 - weekday greet_date)
  else Ok greet_date.

(** The body of the loop of lines 84-108 for one record: the entries it
    appends to [upcoming]. *)
Definition upcoming_entries (today : date) (r : record) : outcome (list (string * string)) :=
  match birthday r with
  | None => Ok []
  | Some b =>
      original_bday <- strptime_dmy (birthday_value b) ;;
      bday_this_year <- resolve today original_bday ;;
      let delta := days_between bday_this_year today in
      if (0 <=? delta) && (delta <=? 7) then
        greet_date <- greet_of bday_this_year ;;
        Ok [(name r, strftime_dmy greet_date)]
      else Ok []
  end.

(** The loop over [self.data.values()]; an exception aborts the scan. *)
Fixpoint scan (today : date) (rs : list record) : outcome (list (string * string)) :=
  match rs with
  | [] => Ok []
  | r :: t =>
      e <- upcoming_entries today r ;;
      rest <- scan today t ;;
      Ok (e ++ rest)%list
  end.

(** [get_upcoming_birthdays(self)]: [today = datetime.today().date()]. *)
Definition get_upcoming_birthdays (w : world) (self : AddressBook) : outcome (list (string * string)) :=
  let today := clock_today w in
  scan today (map snd self).

(** A record as built by the command layer: [Record(name)] then
    [add_birthday]. *)
Definition rec_bday (n bd : string) : record := snd (add_birthday bd (Record_init n)).

Definition book_of (rs : list record) : AddressBook :=
  fold_left (fun ab r => add_record r ab) rs [].

Definition at_date (y m d : Z) : world := mkworld (mkdate y m d).

(* ------------------------------------------------------------------ *)
(** ** Auxiliary predicates *)

(** The texts matched by the regex pieces [%d], [%m] and [%Y]. *)
Definition d_tok (t : string) : bool :=
  match t with
  | String c EmptyString => ch_in 49 57 c
  | String c1 (String c2 EmptyString) =>
      (ch_is 51 c1 && ch_in 48 49 c2) || (ch_in 49 50 c1 && is_ascii_digit c2)
      || (ch_is 48 c1 && ch_in 49 57 c2) || (ch_is 32 c1 && ch_in 49 57 c2)
  | _ => false
  end.

(** Every character, for finite case analysis on single characters. *)
Definition all_ascii : list ascii := map ascii_of_nat (seq 0 256).

Definition m_tok (t : string) : bool :=
  match t with
  | String c EmptyString => ch_in 49 57 c
  | String c1 (String c2 EmptyString) =>
      (ch_is 49 c1 && ch_in 48 50 c2) || (ch_is 48 c1 && ch_in 49 57 c2)
  | _ => false
  end.

Definition Y_tok (t : string) : bool :=
  match t with
  | String a (String b (String c (String d EmptyString))) =>
      is_ascii_digit a && is_ascii_digit b && is_ascii_digit c && is_ascii_digit d
  | _ => false
  end.

Definition no_dot (t : string) : bool :=
  forallb (fun c => negb (ch_is 46 c)) (list_ascii_of_string t).

(** The texts matched by the regex pieces [%d], [%m] and [%Y] on strings
    of code points. *)
Definition ud_tok (t : ustring) : bool :=
  match t with
  | [c] => uch_in 49 57 c
  | [c1; c2] =>
      (uch_is 51 c1 && uch_in 48 49 c2) || (uch_in 49 50 c1 && is_decimal c2)
      || (uch_is 48 c1 && uch_in 49 57 c2) || (uch_is 32 c1 && uch_in 49 57 c2)
  | _ => false
  end.

Definition um_tok (t : ustring) : bool :=
  match t with
  | [c] => uch_in 49 57 c
  | [c1; c2] => (uch_is 49 c1 && uch_in 48 50 c2) || (uch_is 48 c1 && uch_in 49 57 c2)
  | _ => false
  end.

Definition uY_tok (t : ustring) : bool :=
  match t with
  | [a; b; c; d] => is_decimal a && is_decimal b && is_decimal c && is_decimal d
  | _ => false
  end.

(** The dict invariant of [AddressBook]: keys are unique and every entry is
    stored under its record's name ([add_record] keys by
    [record.name.value]). *)
Definition book_wf (ab : AddressBook) : Prop :=
  NoDup (map fst ab) /\ Forall (fun kv => fst kv = name (snd kv)) ab.

(** The date that lines 88-91 (and 94-97) compute for the target year [y]:
    [original_bday] with year [y], and day 28 when it is February 29 and [y]
    is not a leap year. *)
Definition occurrence (original_bday : date) (y : Z) : date :=
  mkdate y (month original_bday)
    (if (month original_bday =? 2) && (day original_bday =? 29) && negb (_is_leap y)
     then 28 else day original_bday).

(** Day and month fields in the forms [strptime] accepts on Latin-1
    strings: one digit, or two digits (a space and a digit for the day). *)
Definition day_form (t : string) : bool :=
  match t with
  | String c EmptyString => is_ascii_digit c
  | String c1 (String c2 EmptyString) => (is_ascii_digit c1 || ch_is 32 c1) && is_ascii_digit c2
  | _ => false
  end.

Definition month_form (t : string) : bool :=
  match t with
  | String c EmptyString => is_ascii_digit c
  | String c1 (String c2 EmptyString) => is_ascii_digit c1 && is_ascii_digit c2
  | _ => false
  end.

(* ------------------------------------------------------------------ *)
(** ** Readings of the specification

    Definitions that follow the words of the specification, to be
    compared with the definitions above. *)

(** The scan "relative to a supplied today": the birthday-window
    computation run on a date chosen by the caller. *)
Definition upcoming_relative_to (today : date) (ab : AddressBook) : outcome (list (string * string)) :=
  scan today (map snd ab).

Definition calendar_valid (y m d : Z) : bool :=
  (1 <=? y) && (1 <=? m) && (m <=? 12) && (1 <=? d) && (d <=? _days_in_month y m).

(** The strict [DD.MM.YYYY] layout as the specification words it: two
    digits, a dot, two digits, a dot, four digits. *)
Definition strict_dmy_layout (s : string) : bool :=
  match list_ascii_of_string s with
  | [d1; d2; p1; m1; m2; p2; y1; y2; y3; y4] =>
      is_ascii_digit d1 && is_ascii_digit d2 && ch_is 46 p1
      && is_ascii_digit m1 && is_ascii_digit m2 && ch_is 46 p2
      && is_ascii_digit y1 && is_ascii_digit y2 && is_ascii_digit y3 && is_ascii_digit y4
  | _ => false
  end.

(** The input forms of the corrected date-format claim on strings of any
    code points: a day, a dot, a month, a dot and a year, nothing more,
    naming a date of the calendar. The month is one or two ASCII digits; the
    year is four decimal digits of any script; the day is one ASCII digit, a
    space and one ASCII digit, or two digits of which the first is ASCII and
    the second is ASCII too unless the first is 1 or 2, when it may be any
    decimal digit. Values are read by [int()]. *)
Definition uday_form (t : ustring) : bool :=
  match t with
  | [c] => uch_in 48 57 c
  | [c1; c2] =>
      (uch_in 48 57 c1 && (if uch_in 49 50 c1 then is_decimal c2 else uch_in 48 57 c2))
      || (uch_is 32 c1 && uch_in 48 57 c2)
  | _ => false
  end.

Definition umonth_form (t : ustring) : bool :=
  match t with
  | [c] => uch_in 48 57 c
  | [c1; c2] => uch_in 48 57 c1 && uch_in 48 57 c2
  | _ => false
  end.

Definition uyear_form (t : ustring) : bool :=
  (length t =? 4)%nat && forallb is_decimal t.

Definition udmy_form (s : ustring) : Prop :=
  exists dt mt yt,
    s = (dt ++ [46] ++ mt ++ [46] ++ yt)%list
    /\ uday_form dt = true /\ umonth_form mt = true /\ uyear_form yt = true
    /\ calendar_valid (u_int yt) (u_int mt) (u_int dt) = true.

(* ------------------------------------------------------------------ *)
(** ** [Record.__str__] *)

(** [', '.join(...)] and ['\n'.join(...)]. *)
Definition py_join (sep : string) (xs : list string) : string := String.concat sep xs.

Definition NL : string := String (ascii_of_nat 10) EmptyString.

Definition Record_str (self : record) : string :=
  let phones := py_join ", " (phone_values self) in
  let birthday := match birthday self with
                  | Some b => birthday_value b
                  | None => "Not set"
                  end in
  ("Name: " ++ name self ++ ", Phones: " ++ phones ++ ", Birthday: " ++ birthday)%string.

(* ------------------------------------------------------------------ *)
(** ** The command handlers (lines 111-181)

    A handler receives the argument list and the book and returns what it
    returns or raises, with the book afterwards. [book.find(name)] returns
    the record object stored under the key [name]; a method called on it
    mutates that object, which is modelled by writing the record back under
    the same key ([dict_setitem] keeps the key's position). The command
    layer stores every record object under one key only, so this write-back
    is the only place the mutation is visible. *)

(** What a handler raises: the exceptions of the model and the
    [IndexError] of [args[0]]. *)
Inductive raised :=
| Raise (e : exn)
| RaiseIndexError (msg : string).

Inductive hresult :=
| Return (s : string)
| Raised (r : raised).

Definition handler := list string -> AddressBook -> hresult * AddressBook.

(** [str(KeyError(msg))] is [repr(msg)]; for the messages the code raises
    (no quote, no backslash, printable) that is [msg] between single
    quotes. *)
Definition key_error_str (msg : string) : string := ("'" ++ msg ++ "'")%string.

(** [input_error]: [except (KeyError, ValueError, IndexError) as e: return
    str(e)]. *)
Definition input_error (r : hresult) : hresult :=
  match r with
  | Raised (Raise (ValueError msg)) => Return msg
  | Raised (Raise (KeyError msg)) => Return (key_error_str msg)
  | Raised (RaiseIndexError msg) => Return msg
  | _ => r
  end.

Definition wrap (h : hresult * AddressBook) : hresult * AddressBook :=
  (input_error (fst h), snd h).

(** The decimal form of a small count, for the unpacking messages. *)
Definition small_nat_str (k : nat) : string := String (digit_char (Z.of_nat k)) EmptyString.

(** [a, b, *_ = args] with fewer than two items. *)
Definition unpack_at_least_2 (args : list string) : exn :=
  ValueError ("not enough values to unpack (expected at least 2, got "
              ++ small_nat_str (length args) ++ ")")%string.

(** [a, b, ... = args] ([n] targets) with the wrong number of items. *)
Definition unpack_exact (n : nat) (args : list string) : exn :=
  if (length args <? n)%nat then
    ValueError ("not enough values to unpack (expected " ++ small_nat_str n ++ ", got "
                ++ small_nat_str (length args) ++ ")")%string
  else ValueError ("too many values to unpack (expected " ++ small_nat_str n ++ ")")%string.

Definition raise_outcome (o : outcome unit) (ret : string) : hresult :=
  match o with
  | Ok _ => Return ret
  | Err e => Raised (Raise e)
  end.

Module Handlers.

(** [add_contact(args, book)], before [@input_error]. *)
Definition add_contact : handler := fun args book =>
  match args with
  | name :: phone :: _ =>
      let '(record, book, message) :=
        match find name book with
        | Some r => (r, book, "Contact updated.")
        | None => let r := Record_init name in (r, add_record r book, "Contact added.")
        end in
      if negb (String.eqb phone "") then
        let '(res, record') := add_phone phone record in
        let book := dict_setitem name record' book in
        match res with
        | Ok _ => (Return message, book)
        | Err (ValueError msg) => (Return msg, book)
        | Err e => (Raised (Raise e), book)
        end
      else (Return message, book)
  | _ => (Raised (Raise (unpack_at_least_2 args)), book)
  end.

(** [change_phone(args, book)]; a [Record] is always true, so [not record]
    holds only for [None]. *)
Definition change_phone : handler := fun args book =>
  match args with
  | [name; old_phone; new_phone] =>
      match find name book with
      | None => (Raised (Raise (KeyError "Contact not found.")), book)
      | Some record =>
          let '(res, record') := edit_phone old_phone new_phone record in
          (raise_outcome res "Phone number updated.", dict_setitem name record' book)
      end
  | _ => (Raised (Raise (unpack_exact 3 args)), book)
  end.

Definition show_phones : handler := fun args book =>
  match args with
  | [] => (Raised (RaiseIndexError "list index out of range"), book)
  | name :: _ =>
      match find name book with
      | None => (Raised (Raise (KeyError "Contact not found.")), book)
      | Some record => (Return ("Phones: " ++ py_join ", " (phone_values record))%string, book)
      end
  end.

Definition show_all (book : AddressBook) : hresult * AddressBook :=
  match book with
  | [] => (Return "Address book is empty.", book)
  | _ => (Return (py_join NL (map (fun kv => Record_str (snd kv)) book)), book)
  end.

(** [add_birthday(args, book)] (the handler; it calls the method
    [Record.add_birthday]). *)
Definition add_birthday : handler := fun args book =>
  match args with
  | [name; date_str] =>
      match find name book with
      | None => (Raised (Raise (KeyError "Contact not found.")), book)
      | Some record =>
          let '(res, record') := add_birthday date_str record in
          (raise_outcome res "Birthday added.", dict_setitem name record' book)
      end
  | _ => (Raised (Raise (unpack_exact 2 args)), book)
  end.

Definition show_birthday : handler := fun args book =>
  match args with
  | [] => (Raised (RaiseIndexError "list index out of range"), book)
  | name :: _ =>
      match find name book with
      | None => (Raised (Raise (ValueError "Birthday not found.")), book)
      | Some record =>
          match birthday record with
          | None => (Raised (Raise (ValueError "Birthday not found.")), book)
          | Some b =>
              match strptime_dmy (birthday_value b) with
              | Ok birthday_date =>
                  (Return ("Birthday: " ++ strftime_dmy birthday_date)%string, book)
              | Err e => (Raised (Raise e), book)
              end
          end
      end
  end.

Definition birthdays (w : world) : handler := fun args book =>
  match get_upcoming_birthdays w book with
  | Err e => (Raised (Raise e), book)
  | Ok [] => (Return "No birthdays in the next 7 days.", book)
  | Ok upcoming =>
      (Return (py_join NL (map (fun b => (fst b ++ ": " ++ snd b)%string) upcoming)), book)
  end.

End Handlers.

(* ------------------------------------------------------------------ *)
(** ** [parse_input] (lines 183-189) *)

(** [str.isspace] on code points 0..255. *)
Definition py_isspace (c : ascii) : bool :=
  ((9 <=? code c) && (code c <=? 13)) || ((28 <=? code c) && (code c <=? 32))
  || (code c =? 133) || (code c =? 160).

Fixpoint lstrip (s : string) : string :=
  match s with
  | String c r => if py_isspace c then lstrip r else s
  | EmptyString => EmptyString
  end.

(** [str.strip()]: [lstrip] and the same on the reversed string. *)
Definition py_strip (s : string) : string :=
  string_of_list_ascii (rev (list_ascii_of_string
    (lstrip (string_of_list_ascii (rev (list_ascii_of_string (lstrip s))))))).

(** [str.split()]: the maximal runs of non-whitespace characters; [cur] is
    the run being read. *)
Fixpoint split_run (s cur : string) : list string :=
  match s with
  | EmptyString => if String.eqb cur "" then [] else [cur]
  | String c r =>
      if py_isspace c then
        (if String.eqb cur "" then split_run r "" else cur :: split_run r "")
      else split_run r (cur ++ String c EmptyString)
  end.

Definition py_split (s : string) : list string := split_run s "".

(** [str.lower()] on code points 0..255: A-Z and U+00C0-U+00DE except
    U+00D7 move up by 32; the others are their own lower case. *)
Definition py_lower_char (c : ascii) : ascii :=
  if ((65 <=? code c) && (code c <=? 90))
     || ((192 <=? code c) && (code c <=? 222) && negb (code c =? 215))
  then ascii_of_N (Z.to_N (code c + 32)) else c.

Fixpoint py_lower (s : string) : string :=
  match s with
  | EmptyString => EmptyString
  | String c r => String (py_lower_char c) (py_lower r)
  end.

Definition parse_input (user_input : string) : string * list string :=
  let parts := py_split (py_strip user_input) in
  match parts with
  | [] => ("", [])
  | p :: args => (py_lower p, args)
  end.

(* ------------------------------------------------------------------ *)
(** ** [main] (lines 191-232)

    Each line typed comes with the [world] at the moment its command runs
    (read by [datetime.today()] in [birthdays]). The model gives the lines
    written by [print] (the prompt of [input] is not a printed line) and
    how the loop ends: [close]/[exit], [EOFError] from [input()] when the
    input runs out, or an exception that [input_error] does not catch. *)
Inductive ending :=
| Exited
  (** [break] after [close]/[exit]: the program ends normally *)
| UncaughtEOFError
  (** [input()] raised [EOFError] at the end of the input; nothing catches
      it, so the program stops with a traceback and exit status 1 *)
| Crashed (r : raised)
  (** an exception of a command that [input_error] lets through *).

(** One command: the printed line, the book afterwards, and whether the
    loop breaks. An uncaught exception is returned as [inr]. *)
Definition main_step (w : world) (user_input : string) (book : AddressBook)
  : (string * AddressBook * bool) + raised :=
  let '(command, args) := parse_input user_input in
  let call (h : hresult * AddressBook) :=
    match wrap h with
    | (Return s, book') => inl (s, book', false)
    | (Raised r, _) => inr r
    end in
  if String.eqb command "" then inl ("Please enter a command.", book, false)
  else if String.eqb command "close" || String.eqb command "exit" then inl ("Good bye!", book, true)
  else if String.eqb command "hello" then inl ("How can I help you?", book, false)
  else if String.eqb command "add" then call (Handlers.add_contact args book)
  else if String.eqb command "change" then call (Handlers.change_phone args book)
  else if String.eqb command "phone" then call (Handlers.show_phones args book)
  else if String.eqb command "all" then call (Handlers.show_all book)
  else if String.eqb command "add-birthday" then call (Handlers.add_birthday args book)
  else if String.eqb command "show-birthday" then call (Handlers.show_birthday args book)
  else if String.eqb command "birthdays" then call (Handlers.birthdays w args book)
  else inl ("Invalid command.", book, false).

Fixpoint main_loop (inputs : list (world * string)) (book : AddressBook)
  : list string * ending * AddressBook :=
  match inputs with
  | [] => ([], UncaughtEOFError, book)
  | (w, line) :: rest =>
      match main_step w line book with
      | inr r => ([], Crashed r, book)
      | inl (out, book', true) => ([out], Exited, book')
      | inl (out, book', false) =>
          let '(outs, e, book'') := main_loop rest book' in (out :: outs, e, book'')
      end
  end.

Definition main (inputs : list (world * string)) : list string * ending :=
  let book := [] in
  let '(outs, e, _) := main_loop inputs book in
  ("Welcome to the assistant bot!" :: outs, e).

(* ------------------------------------------------------------------ *)
(** ** Invariant of the book built by the commands *)

(** A phone as [Phone.__init__] leaves it: its value passes
    [validate_number]. *)
Definition phone_ok (p : Phone) : Prop :=
  validate_number (phone_value p) = Ok (phone_value p).

(** Every phone passes [validate_number] and a set birthday parses with
    [strptime]. *)
Definition record_ok (r : record) : Prop :=
  Forall phone_ok (phones r)
  /\ (forall b, birthday r = Some b -> exists d, strptime_dmy (birthday_value b) = Ok d).

Definition cli_inv (ab : AddressBook) : Prop :=
  book_wf ab /\ Forall (fun kv => record_ok (snd kv)) ab.

(** A word as [str.split()] produces it: no whitespace character. *)
Definition no_space (w : string) : bool :=
  forallb (fun c => negb (py_isspace c)) (list_ascii_of_string w).

(* ------------------------------------------------------------------ *)
(** ** Tests: the model on concrete inputs *)

Example weekday_2024_06_15 : weekday (mkdate 2024 6 15) = 5.
Proof. reflexivity. Qed.

Example add_days_2024_06_15 : add_days (mkdate 2024 6 15) 2 = Ok (mkdate 2024 6 17).
Proof. reflexivity. Qed.

Example add_days_leap : add_days (mkdate 2024 2 28) 1 = Ok (mkdate 2024 2 29).
Proof. reflexivity. Qed.

Example add_days_year_end : add_days (mkdate 2000 12 31) 1 = Ok (mkdate 2001 1 1).
Proof. reflexivity. Qed.

Example weekday_max : weekday (mkdate 9999 12 31) = 4.
Proof. reflexivity. Qed.

Example toordinal_min : toordinal (mkdate 1 1 1) = 1.
Proof. reflexivity. Qed.

Example toordinal_max : toordinal (mkdate 9999 12 31) = _MAXORDINAL.
Proof. reflexivity. Qed.

Example strftime_2024_06_17 : strftime_dmy (mkdate 2024 6 17) = "17.06.2024".
Proof. reflexivity. Qed.

Example strptime_strict : strptime_dmy "15.06.1990" = Ok (mkdate 1990 6 15).
Proof. reflexivity. Qed.

Example strptime_space : strptime_dmy " 1.1.2000" = Ok (mkdate 2000 1 1).
Proof. reflexivity. Qed.

Example strptime_month13 : exists e, strptime_dmy "01.13.2020" = Err e.
Proof. eexists. reflexivity. Qed.

Example strptime_trailing : exists e, strptime_dmy "01.01.20001" = Err e.
Proof. eexists. reflexivity. Qed.

Example upcoming_spec_examples :
  get_upcoming_birthdays (at_date 2024 6 10)
    (book_of [rec_bday "A" "10.06.1990"; rec_bday "B" "17.06.1990";
              rec_bday "C" "18.06.1990"; rec_bday "D" "15.06.1990"])
  = Ok [("A", "10.06.2024"); ("B", "17.06.2024"); ("D", "17.06.2024")].
Proof. reflexivity. Qed.

Example upcoming_leap_day :
  get_upcoming_birthdays (at_date 2025 6 10) (book_of [rec_bday "E" "29.02.2000"]) = Ok [].
Proof. reflexivity. Qed.

Example resolve_leap_day :
  resolve (mkdate 2025 6 10) (mkdate 2000 2 29) = Ok (mkdate 2026 2 28).
Proof. reflexivity. Qed.

Example strptime_short : strptime_dmy "1.1.2000" = Ok (mkdate 2000 1 1).
Proof. reflexivity. Qed.
Example strptime_feb31 : exists e, strptime_dmy "31.02.2020" = Err e.
Proof. eexists. reflexivity. Qed.
Example strptime_year0 : exists e, strptime_dmy "01.01.0000" = Err e.
Proof. eexists. reflexivity. Qed.

(* ------------------------------------------------------------------ *)
(** ** Lemmas on [Phone] and [Record] *)

Lemma phone_init_validate (number : string) (p : Phone) :
  Phone_init number = Ok p <-> validate_number number = Ok (phone_value p).
Proof.
  unfold Phone_init, validate_number.
  destruct (negb _); [split; discriminate|].
  destruct (negb _); [split; discriminate|].
  destruct p as [v]; simpl; split; congruence.
Qed.

Lemma validate_number_ok (number v : string) :
  validate_number number = Ok v -> v = number.
Proof.
  unfold validate_number.
  destruct (negb _); [discriminate|]. destruct (negb _); [discriminate|]. congruence.
Qed.

Lemma validate_number_err (number : string) (e : exn) :
  validate_number number = Err e -> exists msg, e = ValueError msg.
Proof.
  unfold validate_number.
  destruct (negb _); [intros H; inversion H; eauto|].
  destruct (negb _); [intros H; inversion H; eauto|]. discriminate.
Qed.

Lemma phone_ten_ascii_digits (s : string) :
  String.length s = 10%nat -> forallb is_ascii_digit (list_ascii_of_string s) = true ->
  Phone_init s = Ok (mkPhone s).
Proof.
  intros Hl Hd. apply phone_init_validate; simpl.
  unfold validate_number. rewrite Hl. simpl.
  assert (py_isdigit s = true) as ->; [|reflexivity].
  destruct s as [|c t]; [discriminate|].
  unfold py_isdigit. apply forallb_forall. intros x Hx.
  apply (proj1 (forallb_forall _ _) Hd) in Hx.
  unfold py_isdigit_char. rewrite Hx. reflexivity.
Qed.

Lemma phone_bad_length (s : string) :
  String.length s <> 10%nat ->
  Phone_init s = Err (ValueError "Phone number must contain 10 digits").
Proof.
  intros Hl. unfold Phone_init, validate_number.
  apply Nat.eqb_neq in Hl. rewrite Hl. reflexivity.
Qed.

Lemma find_index_none (old : string) (ps : list Phone) :
  Forall (fun p => phone_value p <> old) ps -> find_index old ps = None.
Proof.
  induction 1 as [|p t Hp Ht IH]; simpl; [reflexivity|].
  apply String.eqb_neq in Hp. rewrite Hp, IH. reflexivity.
Qed.

Lemma find_index_some (old : string) (pre post : list Phone) (p : Phone) :
  Forall (fun q => phone_value q <> old) pre -> phone_value p = old ->
  find_index old (pre ++ p :: post) = Some (length pre).
Proof.
  intros Hpre Hp. induction Hpre as [|q t Hq Ht IH]; simpl.
  - apply String.eqb_eq in Hp. rewrite Hp. reflexivity.
  - apply String.eqb_neq in Hq. rewrite Hq, IH. reflexivity.
Qed.

Lemma find_index_exists (old : string) (ps : list Phone) :
  Exists (fun p => phone_value p = old) ps -> exists i, find_index old ps = Some i.
Proof.
  induction 1 as [p t Hp|p t Ht IH]; simpl.
  - apply String.eqb_eq in Hp. rewrite Hp. eauto.
  - destruct (String.eqb (phone_value p) old); [eauto|].
    destruct IH as [i ->]. simpl. eauto.
Qed.

Lemma map_value_filter (f : string -> bool) (ps : list Phone) :
  map phone_value (List.filter (fun p => f (phone_value p)) ps)
  = List.filter f (map phone_value ps).
Proof.
  induction ps as [|p t IH]; simpl; [reflexivity|].
  destruct (f (phone_value p)); simpl; rewrite IH; reflexivity.
Qed.

(** The three record methods other than [edit_phone] keep the phone values
    pairwise distinct, whether they return or raise. *)
Lemma add_phone_nodup (number : string) (self : record) :
  NoDup (phone_values self) -> NoDup (phone_values (snd (add_phone number self))).
Proof.
  intros Hnd. unfold add_phone.
  destruct (existsb _ _) eqn:Hex; [exact Hnd|].
  destruct (Phone_init number) as [p|e] eqn:Hp; [|exact Hnd].
  unfold phone_values; simpl. rewrite map_app. simpl.
  apply phone_init_validate, validate_number_ok in Hp.
  apply NoDup_app. split; [exact Hnd|]. split; [|constructor; [intros Hc; inversion Hc|constructor]].
  intros x Hx Hin. apply list_elem_of_singleton in Hin. subst x.
  apply list_elem_of_In, in_map_iff in Hx. destruct Hx as [q [Hq Hin]].
  assert (existsb (fun p => String.eqb (phone_value p) number) (phones self) = true) as Hc.
  { apply existsb_exists. exists q. split; [exact Hin|]. apply String.eqb_eq. congruence. }
  congruence.
Qed.

Lemma remove_phone_nodup (number : string) (self : record) :
  NoDup (phone_values self) -> NoDup (phone_values (snd (remove_phone number self))).
Proof.
  intros Hnd. unfold remove_phone, phone_values; simpl.
  rewrite (map_value_filter (fun v => negb (String.eqb v number))).
  apply NoDup_ListNoDup, List.NoDup_filter, NoDup_ListNoDup. exact Hnd.
Qed.

Lemma add_birthday_nodup (date_str : string) (self : record) :
  NoDup (phone_values self) -> NoDup (phone_values (snd (add_birthday date_str self))).
Proof.
  intros Hnd. unfold add_birthday.
  destruct (Birthday_init date_str); exact Hnd.
Qed.

(* ------------------------------------------------------------------ *)
(** ** Claims on [Phone], [Birthday] and [Record] *)

(** C10 (code_bug): [validate_number] checks the characters with
    [str.isdigit], which also holds for the superscript digits U+00B2,
    U+00B3 and U+00B9. The ten-character string "123456789" followed by
    U+00B2 contains a character that is not a decimal digit, yet [Phone]
    accepts it and stores it. *)
Theorem phone_accepts_superscript_digit :
  let number := ("123456789" ++ String (ascii_of_N 178) EmptyString)%string in
  String.length number = 10%nat
  /\ is_ascii_digit (ascii_of_N 178) = false
  /\ Phone_init number = Ok (mkPhone number).
Proof. split; [reflexivity|split; reflexivity]. Qed.

(** C8: [add_phone] raises "Phone already exists." and leaves the record as
    it was when a phone of the same value is present; otherwise, for a
    valid number, it appends the new phone after the existing ones. *)
Theorem add_phone_duplicate_or_append :
  forall (self : record) (number : string),
    (Exists (fun p => phone_value p = number) (phones self) ->
       add_phone number self = (Err (ValueError "Phone already exists."), self))
    /\ (Forall (fun p => phone_value p <> number) (phones self) ->
        validate_number number = Ok number ->
        add_phone number self
        = (Ok tt, mkrecord (name self) (phones self ++ [mkPhone number])%list (birthday self))).
Proof.
  intros self number. split.
  - intros Hex. unfold add_phone.
    assert (existsb (fun p => String.eqb (phone_value p) number) (phones self) = true) as ->;
      [|reflexivity].
    apply existsb_exists. apply List.Exists_exists in Hex.
    destruct Hex as [p [Hin Hp]]. exists p. split; [exact Hin|]. apply String.eqb_eq, Hp.
  - intros Hall Hv. unfold add_phone.
    assert (existsb (fun p => String.eqb (phone_value p) number) (phones self) = false) as ->.
    { apply not_true_iff_false. intros Hc. apply existsb_exists in Hc.
      destruct Hc as [p [Hin Hp]]. apply String.eqb_eq in Hp.
      rewrite List.Forall_forall in Hall. exact (Hall p Hin Hp). }
    assert (Phone_init number = Ok (mkPhone number)) as ->
      by (apply phone_init_validate; exact Hv).
    reflexivity.
Qed.

Lemma add_phone_duplicate_or_append_witness :
  add_phone "1234567890" (mkrecord "Vitalii" [mkPhone "1234567890"] None)
    = (Err (ValueError "Phone already exists."), mkrecord "Vitalii" [mkPhone "1234567890"] None)
  /\ add_phone "0987654321" (mkrecord "Vitalii" [mkPhone "1234567890"] None)
    = (Ok tt, mkrecord "Vitalii" [mkPhone "1234567890"; mkPhone "0987654321"] None).
Proof.
  split.
  - apply (proj1 (add_phone_duplicate_or_append (mkrecord "Vitalii" [mkPhone "1234567890"] None)
                                                "1234567890")).
    simpl. constructor. reflexivity.
  - apply (proj2 (add_phone_duplicate_or_append (mkrecord "Vitalii" [mkPhone "1234567890"] None)
                                                "0987654321")).
    + simpl. constructor; [discriminate|constructor].
    + reflexivity.
Defined.

(** C9: [edit_phone old new] raises the not-found [ValueError] and leaves
    the record unchanged when no phone has value [old]; when the first such
    phone sits between [pre] and [post] and [new] is valid, that phone is
    replaced in place; when [new] is invalid, the validation error
    propagates and the record is unchanged. *)
Theorem edit_phone_spec :
  forall (self : record) (old_phone new_phone : string),
    (Forall (fun p => phone_value p <> old_phone) (phones self) ->
       edit_phone old_phone new_phone self
       = (Err (ValueError ("Phone '" ++ old_phone ++ "' not found for contact '"
                           ++ name self ++ "'.")%string), self))
    /\ (forall (pre post : list Phone) (p : Phone),
          phones self = (pre ++ p :: post)%list ->
          Forall (fun q => phone_value q <> old_phone) pre ->
          phone_value p = old_phone ->
          validate_number new_phone = Ok new_phone ->
          edit_phone old_phone new_phone self
          = (Ok tt, mkrecord (name self) (pre ++ mkPhone new_phone :: post)%list (birthday self)))
    /\ (forall (e : exn),
          Exists (fun p => phone_value p = old_phone) (phones self) ->
          validate_number new_phone = Err e ->
          (exists msg, e = ValueError msg)
          /\ edit_phone old_phone new_phone self = (Err e, self)).
Proof.
  intros self old_phone new_phone. split; [|split].
  - intros Hall. unfold edit_phone. rewrite (find_index_none _ _ Hall). reflexivity.
  - intros pre post p Hps Hpre Hp Hv. unfold edit_phone.
    rewrite Hps, (find_index_some _ _ _ _ Hpre Hp).
    assert (Phone_init new_phone = Ok (mkPhone new_phone)) as ->
      by (apply phone_init_validate; exact Hv).
    unfold set_phones. f_equal. f_equal.
    pose proof (insert_app_r pre (p :: post) 0 (mkPhone new_phone)) as Hi.
    rewrite Nat.add_0_r in Hi. rewrite Hi. reflexivity.
  - intros e Hex Hv. split; [exact (validate_number_err _ _ Hv)|].
    unfold edit_phone. destruct (find_index_exists _ _ Hex) as [i ->].
    unfold Phone_init. rewrite Hv. reflexivity.
Qed.

Lemma edit_phone_spec_witness :
  let r := mkrecord "Vitalii" [mkPhone "1234567890"; mkPhone "0987654321"] None in
  edit_phone "5555555555" "1111111111" r
    = (Err (ValueError "Phone '5555555555' not found for contact 'Vitalii'."), r)
  /\ edit_phone "0987654321" "1111111111" r
    = (Ok tt, mkrecord "Vitalii" [mkPhone "1234567890"; mkPhone "1111111111"] None)
  /\ ((exists msg, ValueError "Phone number must contain 10 digits" = ValueError msg)
      /\ edit_phone "0987654321" "11" r
         = (Err (ValueError "Phone number must contain 10 digits"), r)).
Proof.
  intros r. split; [|split].
  - apply (proj1 (edit_phone_spec r "5555555555" "1111111111")).
    simpl. repeat constructor; discriminate.
  - apply (proj1 (proj2 (edit_phone_spec r "0987654321" "1111111111"))
             [mkPhone "1234567890"] [] (mkPhone "0987654321")).
    + reflexivity.
    + repeat constructor. simpl. discriminate.
    + reflexivity.
    + reflexivity.
  - apply (proj2 (proj2 (edit_phone_spec r "0987654321" "11"))).
    + simpl. apply Exists_cons_tl. constructor. reflexivity.
    + reflexivity.
Defined.

(** C4 (code_bug): [edit_phone] does not check the new number against the
    other phones of the record, as [add_phone] does. From the record with
    the distinct phones 1234567890 and 0987654321 (built by two
    [add_phone] calls), [edit_phone("1234567890", "0987654321")] succeeds and
    leaves two equal phones. *)
Theorem edit_phone_breaks_distinct_phones :
  let r0 := run_ops [OpAddPhone "1234567890"; OpAddPhone "0987654321"] (Record_init "Vitalii") in
  phone_values r0 = ["1234567890"; "0987654321"]
  /\ NoDup (phone_values r0)
  /\ edit_phone "1234567890" "0987654321" r0
     = (Ok tt, mkrecord "Vitalii" [mkPhone "0987654321"; mkPhone "0987654321"] None)
  /\ ~ NoDup (phone_values (run_ops [OpEditPhone "1234567890" "0987654321"] r0)).
Proof.
  intros r0. split; [reflexivity|]. split; [|split].
  - vm_compute. constructor; [|constructor; [intros Hc; inversion Hc|constructor]].
    intros Hc. apply list_elem_of_singleton in Hc. discriminate.
  - reflexivity.
  - vm_compute. intros Hnd. inversion Hnd as [|x l Hx Hl]. apply Hx. left.
Qed.

(** C5 (corrected): [Birthday.__init__] only checks the string with
    [strptime] and stores the string itself: "01.01.2000" and "1.1.2000"
    parse to the same date but give different [Birthday] values. *)
Lemma birthday_stores_string_cex :
  strptime_dmy "01.01.2000" = Ok (mkdate 2000 1 1)
  /\ strptime_dmy "1.1.2000" = Ok (mkdate 2000 1 1)
  /\ Birthday_init "01.01.2000" = Ok (mkBirthday "01.01.2000")
  /\ Birthday_init "1.1.2000" = Ok (mkBirthday "1.1.2000")
  /\ mkBirthday "01.01.2000" <> mkBirthday "1.1.2000".
Proof.
  split; [reflexivity|]. split; [reflexivity|]. split; [reflexivity|].
  split; [reflexivity|]. discriminate.
Qed.

(** C5 (amended): a [Birthday] built from [s] holds [s] itself, a string
    that [strptime(s, "%d.%m.%Y")] parses; [get_upcoming_birthdays]
    re-parses it to get the date. *)
Theorem birthday_holds_raw_string :
  forall (s : string) (b : Birthday),
    Birthday_init s = Ok b ->
    birthday_value b = s /\ exists d, strptime_dmy s = Ok d.
Proof.
  intros s b. unfold Birthday_init.
  destruct (strptime_dmy s) as [d|[m|m|m]]; intros H; inversion H; subst; eauto.
Qed.

Lemma birthday_holds_raw_string_witness :
  "1.1.2000" = "1.1.2000" /\ exists d, strptime_dmy "1.1.2000" = Ok d.
Proof. apply (birthday_holds_raw_string "1.1.2000" (mkBirthday "1.1.2000")). reflexivity. Defined.

(* ------------------------------------------------------------------ *)
(** ** Claims on [AddressBook.get_upcoming_birthdays] *)

(** C1 (corrected): [get_upcoming_birthdays] has no [today] parameter; it
    reads [datetime.today()]. A caller for whom today is 10.06.2024 gets
    the result of the wall clock's date (here 17.10.2026), not the result
    relative to 10.06.2024; so no supplied date determines the result. *)
Lemma upcoming_ignores_caller_today_cex :
  let ab := book_of [rec_bday "A" "10.06.1990"] in
  upcoming_relative_to (mkdate 2024 6 10) ab = Ok [("A", "10.06.2024")]
  /\ get_upcoming_birthdays (at_date 2026 10 17) ab = Ok []
  /\ ~ (forall (today : date) (w : world) (ab' : AddressBook),
          get_upcoming_birthdays w ab' = upcoming_relative_to today ab').
Proof.
  intros ab. split; [reflexivity|]. split; [reflexivity|].
  intros H. specialize (H (mkdate 2024 6 10) (at_date 2026 10 17) ab).
  vm_compute in H. discriminate.
Qed.

(** C1 (amended): the result is the birthday-window scan relative to the
    wall-clock date [datetime.today().date()]. *)
Theorem upcoming_uses_wall_clock :
  forall (w : world) (ab : AddressBook),
    get_upcoming_birthdays w ab = upcoming_relative_to (clock_today w) ab.
Proof. intros w ab. reflexivity. Qed.

(* ------------------------------------------------------------------ *)
(** ** Lemmas on dates *)

Ltac zbool :=
  repeat match goal with
  | H : (_ && _) = true |- _ => apply andb_true_iff in H; destruct H
  | H : (_ || _) = false |- _ => apply orb_false_iff in H; destruct H
  | H : (_ <=? _) = true |- _ => apply Z.leb_le in H
  | H : (_ <=? _) = false |- _ => apply Z.leb_gt in H
  | H : (_ <? _) = true |- _ => apply Z.ltb_lt in H
  | H : (_ <? _) = false |- _ => apply Z.ltb_ge in H
  | H : (_ =? _) = true |- _ => apply Z.eqb_eq in H
  | H : (_ =? _) = false |- _ => apply Z.eqb_neq in H
  end.

Lemma mk_date_ok (y m d : Z) (x : date) :
  mk_date y m d = Ok x -> x = mkdate y m d /\ valid_date x.
Proof.
  unfold mk_date, valid_date, MINYEAR, MAXYEAR.
  destruct (1 <=? y) eqn:E1, (y <=? 9999) eqn:E2; simpl; try discriminate.
  destruct (1 <=? m) eqn:E3, (m <=? 12) eqn:E4; simpl; try discriminate.
  destruct (1 <=? d) eqn:E5, (d <=? _days_in_month y m) eqn:E6; simpl; try discriminate.
  intros H. inversion H; subst. simpl. zbool. repeat split; lia.
Qed.

Lemma mk_date_intro (y m d : Z) :
  valid_date (mkdate y m d) -> mk_date y m d = Ok (mkdate y m d).
Proof.
  unfold valid_date, mk_date, MINYEAR, MAXYEAR; simpl. intros (Hy & Hm & Hd).
  rewrite (proj2 (Z.leb_le 1 y)), (proj2 (Z.leb_le y 9999)) by lia.
  rewrite (proj2 (Z.leb_le 1 m)), (proj2 (Z.leb_le m 12)) by lia.
  rewrite (proj2 (Z.leb_le 1 d)), (proj2 (Z.leb_le d (_days_in_month y m))) by lia.
  reflexivity.
Qed.

Lemma mk_date_err (y m d : Z) (e : exn) :
  mk_date y m d = Err e -> exists msg, e = ValueError msg.
Proof.
  unfold mk_date. repeat destruct (negb _); intros H; inversion H; eauto.
Qed.

Lemma month_cases (m : Z) :
  1 <= m <= 12 ->
  m = 1 \/ m = 2 \/ m = 3 \/ m = 4 \/ m = 5 \/ m = 6 \/ m = 7 \/ m = 8
  \/ m = 9 \/ m = 10 \/ m = 11 \/ m = 12.
Proof. lia. Qed.

Lemma days_in_month_cases (y m : Z) :
  1 <= m <= 12 ->
  (m = 2 /\ _days_in_month y m = if _is_leap y then 29 else 28)
  \/ (m <> 2 /\ 30 <= _days_in_month y m <= 31
      /\ forall y', _days_in_month y' m = _days_in_month y m).
Proof.
  intros Hm. unfold _days_in_month.
  destruct (month_cases m Hm) as [->|[->|[->|[->|[->|[->|[->|[->|[->|[->|[->| ->]]]]]]]]]]];
    simpl; try (left; split; [reflexivity|destruct (_is_leap y); reflexivity]);
    right; (split; [lia|split; [lia|reflexivity]]).
Qed.

Lemma days_before_month_bound (y m : Z) :
  1 <= m <= 12 ->
  0 <= _days_before_month y m
  /\ _days_before_month y m + _days_in_month y m <= 365 + (if _is_leap y then 1 else 0).
Proof.
  intros Hm. unfold _days_before_month, _days_in_month.
  destruct (month_cases m Hm) as [->|[->|[->|[->|[->|[->|[->|[->|[->|[->|[->| ->]]]]]]]]]]];
    simpl; destruct (_is_leap y); simpl; lia.
Qed.

Lemma days_before_year_bound (y : Z) :
  1 <= y <= 9998 -> 0 <= _days_before_year y <= 3651428.
Proof.
  intros Hy. unfold _days_before_year.
  assert (0 <= (y - 1) / 4) by (apply Z.div_pos; lia).
  assert (0 <= (y - 1) / 100) by (apply Z.div_pos; lia).
  assert (0 <= (y - 1) / 400) by (apply Z.div_pos; lia).
  assert (100 * ((y - 1) / 100) <= y - 1) by (apply Z.mul_div_le; lia).
  assert ((y - 1) / 4 <= 9997 / 4) by (apply Z.div_le_mono; lia).
  assert ((y - 1) / 400 <= 9997 / 400) by (apply Z.div_le_mono; lia).
  replace (9997 / 4) with 2499 in * by reflexivity.
  replace (9997 / 400) with 24 in * by reflexivity.
  lia.
Qed.

Lemma toordinal_range (d : date) :
  valid_date d -> 1 <= toordinal d <= _MAXORDINAL.
Proof.
  destruct d as [y m dd]. unfold valid_date, toordinal, _ymd2ord, MINYEAR, MAXYEAR, _MAXORDINAL; simpl.
  intros (Hy & Hm & Hd). pose proof (days_before_month_bound y m Hm) as [Hb1 Hb2].
  destruct (Z.eq_dec y 9999) as [->|Hne].
  - replace (_days_before_year 9999) with 3651694 by reflexivity.
    replace (_is_leap 9999) with false in Hb2 by reflexivity. lia.
  - pose proof (days_before_year_bound y ltac:(lia)).
    destruct (_is_leap y); lia.
Qed.

Lemma weekend_not_last_days (d : date) :
  valid_date d -> (weekday d = 5 \/ weekday d = 6) -> toordinal d <= _MAXORDINAL - 2.
Proof.
  intros Hv Hw. pose proof (toordinal_range d Hv) as Hr.
  destruct (Z_le_gt_dec (toordinal d) (_MAXORDINAL - 2)) as [|Hgt]; [assumption|].
  exfalso. unfold weekday in Hw.
  assert (toordinal d = _MAXORDINAL - 1 \/ toordinal d = _MAXORDINAL) as [He|He] by lia;
    rewrite He in Hw; vm_compute in Hw; destruct Hw; discriminate.
Qed.

Lemma add_days_ok (d : date) (n : Z) :
  0 < toordinal d + n <= _MAXORDINAL -> add_days d n = Ok (fromordinal (toordinal d + n)).
Proof.
  intros H. unfold add_days.
  rewrite (proj2 (Z.ltb_lt 0 _)), (proj2 (Z.leb_le _ _MAXORDINAL)) by lia. reflexivity.
Qed.

(** The weekend shift of a valid date never overflows. *)
Lemma greet_of_spec (rd : date) :
  valid_date rd ->
  exists g, greet_of rd = Ok g
    /\ (weekday rd = 5 -> add_days rd 2 = Ok g)
    /\ (weekday rd = 6 -> add_days rd 1 = Ok g)
    /\ (weekday rd <> 5 -> weekday rd <> 6 -> g = rd).
Proof.
  intros Hv. pose proof (toordinal_range rd Hv) as Hr. unfold greet_of.
  destruct (weekday rd =? 5) eqn:E5; [|destruct (weekday rd =? 6) eqn:E6]; simpl; zbool.
  - pose proof (weekend_not_last_days rd Hv (or_introl E5)).
    rewrite E5. exists (fromordinal (toordinal rd + 2)).
    split; [rewrite add_days_ok by lia; reflexivity|].
    split; [intros; rewrite add_days_ok by lia; reflexivity|].
    split; intros; lia.
  - pose proof (weekend_not_last_days rd Hv (or_intror E6)).
    rewrite E6. exists (fromordinal (toordinal rd + 1)).
    split; [rewrite add_days_ok by lia; reflexivity|].
    split; [intros; lia|].
    split; [intros; rewrite add_days_ok by lia; reflexivity|intros; lia].
  - exists rd. repeat split; intros; try reflexivity; lia.
Qed.

Lemma days_in_february (y : Z) : _days_in_month y 2 = if _is_leap y then 29 else 28.
Proof. unfold _days_in_month. simpl. destruct (_is_leap y); reflexivity. Qed.

(** One [try: replace(year=y) except ValueError: replace(year=y, day=28)]
    step, for a target year in range. *)
Lemma occurrence_step (bd : date) (y : Z) :
  valid_date bd -> MINYEAR <= y <= MAXYEAR ->
  except_value_error (replace_year bd y) (replace_year_day bd y 28) = Ok (occurrence bd y)
  /\ valid_date (occurrence bd y).
Proof.
  destruct bd as [by0 bm bdd].
  unfold valid_date, occurrence, replace_year, replace_year_day; simpl.
  intros (Hy & Hm & Hd) Hy'.
  destruct (days_in_month_cases by0 bm Hm) as [[-> Hdim] | [Hne [Hdim Hall]]].
  - rewrite Hdim in Hd. pose proof (days_in_february y) as Hf. simpl.
    destruct (Z.eq_dec bdd 29) as [->|Hne29].
    + destruct (_is_leap y) eqn:Ly; simpl.
      * assert (valid_date (mkdate y 2 29)) as Hv
          by (unfold valid_date; simpl; rewrite Hf; lia).
        rewrite (mk_date_intro _ _ _ Hv). split; [reflexivity|exact Hv].
      * assert (mk_date y 2 29 = Err (ValueError "day is out of range for month")) as ->.
        { unfold mk_date, MINYEAR, MAXYEAR in *.
          rewrite (proj2 (Z.leb_le 1 y)), (proj2 (Z.leb_le y 9999)) by lia.
          simpl. rewrite Hf. reflexivity. }
        assert (valid_date (mkdate y 2 28)) as Hv
          by (unfold valid_date; simpl; rewrite Hf; lia).
        simpl. rewrite (mk_date_intro _ _ _ Hv). split; [reflexivity|exact Hv].
    + rewrite (proj2 (Z.eqb_neq bdd 29) Hne29). simpl.
      assert (valid_date (mkdate y 2 bdd)) as Hv
        by (unfold valid_date; simpl; rewrite Hf; destruct (_is_leap y), (_is_leap by0); lia).
      rewrite (mk_date_intro _ _ _ Hv). split; [reflexivity|exact Hv].
  - rewrite (proj2 (Z.eqb_neq bm 2) Hne). simpl.
    assert (valid_date (mkdate y bm bdd)) as Hv
      by (unfold valid_date; simpl; rewrite (Hall y); lia).
    rewrite (mk_date_intro _ _ _ Hv). split; [reflexivity|exact Hv].
Qed.

Lemma resolve_spec (today bd : date) :
  valid_date bd -> MINYEAR <= year today -> year today + 1 <= MAXYEAR ->
  resolve today bd
  = Ok (if date_lt (occurrence bd (year today)) today
        then occurrence bd (year today + 1) else occurrence bd (year today)).
Proof.
  intros Hv Hlo Hhi. unfold resolve.
  rewrite (proj1 (occurrence_step bd (year today) Hv ltac:(unfold MAXYEAR in *; lia))).
  simpl. destruct (date_lt _ _); [|reflexivity].
  apply (occurrence_step bd (year today + 1) Hv). unfold MINYEAR in *; lia.
Qed.

Lemma except_mk_date_valid (a b c a' b' c' : Z) (x : date) :
  except_value_error (mk_date a b c) (mk_date a' b' c') = Ok x -> valid_date x.
Proof.
  destruct (mk_date a b c) as [y|e] eqn:E; simpl.
  - intros H. inversion H; subst. exact (proj2 (mk_date_ok _ _ _ _ E)).
  - destruct e; try discriminate. intros H. exact (proj2 (mk_date_ok _ _ _ _ H)).
Qed.

Lemma resolve_valid (today bd rd : date) :
  resolve today bd = Ok rd -> valid_date rd.
Proof.
  unfold resolve, replace_year, replace_year_day.
  destruct (except_value_error (mk_date _ _ _) _) as [b1|e] eqn:E1; simpl; [|discriminate].
  destruct (date_lt b1 today).
  - apply except_mk_date_valid.
  - intros H. inversion H; subst. exact (except_mk_date_valid _ _ _ _ _ _ _ E1).
Qed.

Lemma strptime_valid (s : string) (d : date) :
  strptime_dmy s = Ok d -> valid_date d.
Proof.
  unfold strptime_dmy.
  destruct (dmy_matches s) as [|[[[dt mt] yt] rest] t]; [discriminate|].
  destruct rest; [|discriminate]. intros H. exact (proj2 (mk_date_ok _ _ _ _ H)).
Qed.

Lemma birthday_init_parses (s : string) (b : Birthday) :
  Birthday_init s = Ok b -> birthday_value b = s /\ exists d, strptime_dmy s = Ok d.
Proof.
  unfold Birthday_init.
  destruct (strptime_dmy s) as [d|[m|m|m]]; intros H; inversion H; subst; eauto.
Qed.

(* ------------------------------------------------------------------ *)
(** ** Lemmas on the scan *)

Lemma scan_entries_in (today : date) (rs : list record) (res : list (string * string)) (r : record) :
  scan today rs = Ok res -> In r rs ->
  exists e, upcoming_entries today r = Ok e /\ (forall x, In x e -> In x res).
Proof.
  revert res. induction rs as [|r' t IH]; simpl; intros res Hs Hin; [contradiction|].
  destruct (upcoming_entries today r') as [e|ex] eqn:E; simpl in Hs; [|discriminate].
  destruct (scan today t) as [rest|ex] eqn:Et; simpl in Hs; [|discriminate].
  inversion Hs; subst. destruct Hin as [->|Hin].
  - exists e. split; [exact E|]. intros x Hx. apply in_or_app. left. exact Hx.
  - destruct (IH rest eq_refl Hin) as [e' [He' Hsub]].
    exists e'. split; [exact He'|]. intros x Hx. apply in_or_app. right. auto.
Qed.

Lemma scan_in_entries (today : date) (rs : list record) (res : list (string * string)) x :
  scan today rs = Ok res -> In x res ->
  exists r e, In r rs /\ upcoming_entries today r = Ok e /\ In x e.
Proof.
  revert res. induction rs as [|r' t IH]; simpl; intros res Hs Hin.
  - inversion Hs; subst. contradiction.
  - destruct (upcoming_entries today r') as [e|ex] eqn:E; simpl in Hs; [|discriminate].
    destruct (scan today t) as [rest|ex] eqn:Et; simpl in Hs; [|discriminate].
    inversion Hs; subst. apply in_app_or in Hin. destruct Hin as [Hin|Hin].
    + exists r', e. auto.
    + destruct (IH rest eq_refl Hin) as [r [e' [H1 [H2 H3]]]]. exists r, e'. auto.
Qed.

Lemma scan_ok_intro (today : date) (rs : list record) :
  (forall r, In r rs -> exists e, upcoming_entries today r = Ok e) ->
  exists res, scan today rs = Ok res.
Proof.
  induction rs as [|r t IH]; simpl; intros H; [eauto|].
  destruct (H r (or_introl eq_refl)) as [e ->]. simpl.
  destruct IH as [rest ->]; [intros r' Hr'; apply H; auto|]. simpl. eauto.
Qed.

Lemma upcoming_entries_names (today : date) (r : record) e x :
  upcoming_entries today r = Ok e -> In x e -> fst x = name r.
Proof.
  unfold upcoming_entries. destruct (birthday r) as [b|].
  - destruct (strptime_dmy _) as [bd|ex]; simpl; [|discriminate].
    destruct (resolve today bd) as [rd|ex]; simpl; [|discriminate].
    destruct (_ && _).
    + destruct (greet_of rd) as [g|ex]; simpl; [|discriminate].
      intros H; inversion H; subst. intros [<-|[]]. reflexivity.
    + intros H; inversion H; subst. intros [].
  - intros H; inversion H; subst. intros [].
Qed.

Lemma nodup_map_inj {A B} (f : A -> B) (l : list A) (x y : A) :
  List.NoDup (map f l) -> In x l -> In y l -> f x = f y -> x = y.
Proof.
  induction l as [|a t IH]; simpl; intros Hnd Hx Hy Hf; [contradiction|].
  inversion Hnd as [|b m Hb Hm]; subst.
  destruct Hx as [->|Hx], Hy as [->|Hy]; auto.
  - exfalso. apply Hb. rewrite Hf. apply in_map. exact Hy.
  - exfalso. apply Hb. rewrite <- Hf. apply in_map. exact Hx.
Qed.

Lemma book_wf_names (ab : AddressBook) :
  book_wf ab -> List.NoDup (map name (map snd ab)).
Proof.
  intros [Hnd Hall]. rewrite map_map.
  replace (map (fun kv => name (snd kv)) ab) with (map fst ab).
  - apply NoDup_ListNoDup. exact Hnd.
  - apply map_ext_in. intros kv Hkv. rewrite List.Forall_forall in Hall. apply Hall. exact Hkv.
Qed.

(* ------------------------------------------------------------------ *)
(** ** Claims on the birthday window *)

(** C2: for a record of the book with a birthday, whose occurrence the scan
    resolved to [rd] (this year's, or next year's when this year's is
    before today), the record has an entry in the returned list iff
    [0 <= (rd - today).days <= 7]. *)
Theorem upcoming_window_iff :
  forall (w : world) (ab : AddressBook) (res : list (string * string))
         (r : record) (b : Birthday) (bd rd : date),
    book_wf ab ->
    get_upcoming_birthdays w ab = Ok res ->
    In r (map snd ab) -> birthday r = Some b ->
    strptime_dmy (birthday_value b) = Ok bd ->
    resolve (clock_today w) bd = Ok rd ->
    ((exists g, In (name r, g) res) <-> 0 <= days_between rd (clock_today w) <= 7).
Proof.
  intros w ab res r b bd rd Hwf Hs Hr Hb Hbd Hrd.
  unfold get_upcoming_birthdays in Hs. split.
  - intros [g Hg].
    destruct (scan_in_entries _ _ _ _ Hs Hg) as [r' [e [Hr' [He Hx]]]].
    pose proof (upcoming_entries_names _ _ _ _ He Hx) as Hn. simpl in Hn.
    assert (r = r') as <- by exact (nodup_map_inj name _ r r' (book_wf_names ab Hwf) Hr Hr' Hn).
    unfold upcoming_entries in He. rewrite Hb, Hbd in He. simpl in He. rewrite Hrd in He.
    simpl in He.
    destruct ((0 <=? days_between rd (clock_today w)) && (days_between rd (clock_today w) <=? 7))
      eqn:Ew.
    + zbool. lia.
    + inversion He; subst. contradiction.
  - intros Hw.
    destruct (greet_of_spec rd (resolve_valid _ _ _ Hrd)) as [g [Hg _]].
    destruct (scan_entries_in _ _ _ _ Hs Hr) as [e [He Hsub]].
    unfold upcoming_entries in He. rewrite Hb, Hbd in He. simpl in He. rewrite Hrd in He.
    simpl in He.
    replace ((0 <=? days_between rd (clock_today w)) && (days_between rd (clock_today w) <=? 7))
      with true in He by (symmetry; apply andb_true_iff; split; apply Z.leb_le; lia).
    rewrite Hg in He. simpl in He. inversion He; subst.
    exists (strftime_dmy g). apply Hsub. left. reflexivity.
Qed.

Lemma upcoming_window_iff_witness :
  ((exists g, In ("B", g) [("B", "17.06.2024")])
   <-> 0 <= days_between (mkdate 2024 6 17) (mkdate 2024 6 10) <= 7).
Proof.
  apply (upcoming_window_iff (at_date 2024 6 10) (book_of [rec_bday "B" "17.06.1990"])
           [("B", "17.06.2024")] (rec_bday "B" "17.06.1990") (mkBirthday "17.06.1990")
           (mkdate 1990 6 17) (mkdate 2024 6 17)).
  - split; vm_compute; repeat constructor. intros Hc. inversion Hc.
  - reflexivity.
  - vm_compute. left. reflexivity.
  - reflexivity.
  - reflexivity.
  - reflexivity.
Defined.

(** C3: for a record whose resolved occurrence [rd] lies in the window, the
    returned list has an entry for it with the greet date [g], where [g] is
    [rd + 2 days] when [rd] is a Saturday, [rd + 1 day] when it is a Sunday,
    and [rd] itself otherwise; nothing bounds [g] by the window. *)
Theorem upcoming_weekend_shift :
  forall (w : world) (ab : AddressBook) (res : list (string * string))
         (r : record) (b : Birthday) (bd rd : date),
    get_upcoming_birthdays w ab = Ok res ->
    In r (map snd ab) -> birthday r = Some b ->
    strptime_dmy (birthday_value b) = Ok bd ->
    resolve (clock_today w) bd = Ok rd ->
    0 <= days_between rd (clock_today w) <= 7 ->
    exists g, In (name r, strftime_dmy g) res
      /\ (weekday rd = 5 -> add_days rd 2 = Ok g)
      /\ (weekday rd = 6 -> add_days rd 1 = Ok g)
      /\ (weekday rd <> 5 -> weekday rd <> 6 -> g = rd).
Proof.
  intros w ab res r b bd rd Hs Hr Hb Hbd Hrd Hw.
  unfold get_upcoming_birthdays in Hs.
  destruct (greet_of_spec rd (resolve_valid _ _ _ Hrd)) as [g [Hg Hshift]].
  destruct (scan_entries_in _ _ _ _ Hs Hr) as [e [He Hsub]].
  unfold upcoming_entries in He. rewrite Hb, Hbd in He. simpl in He. rewrite Hrd in He.
  simpl in He.
  replace ((0 <=? days_between rd (clock_today w)) && (days_between rd (clock_today w) <=? 7))
    with true in He by (symmetry; apply andb_true_iff; split; apply Z.leb_le; lia).
  rewrite Hg in He. simpl in He. inversion He; subst.
  exists g. split; [apply Hsub; left; reflexivity|exact Hshift].
Qed.

(** Sunday 09.06.2024: the Saturday 15.06 (six days ahead) is reported as
    Monday 17.06, eight days ahead. *)
Lemma upcoming_weekend_shift_witness :
  exists g, In ("D", strftime_dmy g) [("D", "17.06.2024")]
    /\ (weekday (mkdate 2024 6 15) = 5 -> add_days (mkdate 2024 6 15) 2 = Ok g)
    /\ (weekday (mkdate 2024 6 15) = 6 -> add_days (mkdate 2024 6 15) 1 = Ok g)
    /\ (weekday (mkdate 2024 6 15) <> 5 -> weekday (mkdate 2024 6 15) <> 6 -> g = mkdate 2024 6 15).
Proof.
  apply (upcoming_weekend_shift (at_date 2024 6 9) (book_of [rec_bday "D" "15.06.1990"])
           [("D", "17.06.2024")] (rec_bday "D" "15.06.1990") (mkBirthday "15.06.1990")
           (mkdate 1990 6 15) (mkdate 2024 6 15)).
  - reflexivity.
  - vm_compute. left. reflexivity.
  - reflexivity.
  - reflexivity.
  - reflexivity.
  - vm_compute. split; discriminate.
Defined.

Lemma occurrence_month_day (bd bd' : date) (y : Z) :
  month bd = month bd' -> day bd = day bd' -> occurrence bd y = occurrence bd' y.
Proof. intros Hm Hd. unfold occurrence. rewrite Hm, Hd. reflexivity. Qed.

(** Lines 88-97 for a February 29 birthday whose target year [y] is not a
    leap year. *)
Lemma leap_day_resolve (today bd : date) (y : Z) :
  valid_date today -> valid_date bd -> month bd = 2 -> day bd = 29 ->
  y = (if date_lt (occurrence bd (year today)) today then year today + 1 else year today) ->
  _is_leap y = false ->
  resolve today bd = Ok (mkdate y 2 28).
Proof.
  intros Ht Hv Hm Hd Hy Hl. destruct Ht as [Hty _]. unfold resolve.
  rewrite (proj1 (occurrence_step bd (year today) Hv Hty)). simpl.
  destruct (date_lt (occurrence bd (year today)) today); subst y.
  - assert (year today + 1 <= MAXYEAR).
    { destruct (Z.eq_dec (year today) MAXYEAR) as [E|E].
      - rewrite E in Hl. discriminate Hl.
      - unfold MINYEAR, MAXYEAR in *. lia. }
    rewrite (proj1 (occurrence_step bd (year today + 1) Hv ltac:(unfold MINYEAR in *; lia))).
    unfold occurrence. rewrite Hm, Hd, Hl. reflexivity.
  - unfold occurrence. rewrite Hm, Hd, Hl. reflexivity.
Qed.

Lemma leap_day_entries (today bd : date) (y : Z) (r : record) (b : Birthday) :
  valid_date today -> valid_date bd -> month bd = 2 -> day bd = 29 ->
  y = (if date_lt (occurrence bd (year today)) today then year today + 1 else year today) ->
  _is_leap y = false ->
  birthday r = Some b -> strptime_dmy (birthday_value b) = Ok bd ->
  exists e, upcoming_entries today r = Ok e.
Proof.
  intros Ht Hv Hm Hd Hy Hl Hb Hs.
  pose proof (leap_day_resolve today bd y Ht Hv Hm Hd Hy Hl) as Hr.
  unfold upcoming_entries. rewrite Hb, Hs. simpl. rewrite Hr. simpl.
  destruct (greet_of_spec _ (resolve_valid _ _ _ Hr)) as [g [Hg _]].
  destruct (_ && _); [rewrite Hg; simpl|]; eauto.
Qed.

(** C7: for a February 29 birthday (the date [strptime] gives for the stored
    string) and any today, let [y] be the target year of lines 88-97:
    today's year, or today's year + 1 when this year's occurrence is already
    past. When [y] is not a leap year, the occurrence resolves without error
    to February 28 of [y]; the record's part of the scan completes without
    error; and so does the whole scan of a book whose birthdays are all
    February 29. (Year 10000, the only target year outside [date]'s range,
    is a leap year.) *)
Theorem leap_day_fallback_no_error :
  forall (today bd : date) (y : Z),
    valid_date today -> valid_date bd -> month bd = 2 -> day bd = 29 ->
    y = (if date_lt (occurrence bd (year today)) today then year today + 1 else year today) ->
    _is_leap y = false ->
    resolve today bd = Ok (mkdate y 2 28)
    /\ (forall (r : record) (b : Birthday),
          birthday r = Some b -> strptime_dmy (birthday_value b) = Ok bd ->
          exists e, upcoming_entries today r = Ok e)
    /\ (forall ab : AddressBook,
          (forall r b, In r (map snd ab) -> birthday r = Some b ->
             exists bd', strptime_dmy (birthday_value b) = Ok bd' /\ month bd' = 2 /\ day bd' = 29) ->
          exists res, get_upcoming_birthdays (mkworld today) ab = Ok res).
Proof.
  intros today bd y Ht Hv Hm Hd Hy Hl. split; [|split].
  - exact (leap_day_resolve today bd y Ht Hv Hm Hd Hy Hl).
  - intros r b. exact (leap_day_entries today bd y r b Ht Hv Hm Hd Hy Hl).
  - intros ab Hab. unfold get_upcoming_birthdays. simpl. apply scan_ok_intro.
    intros r Hr. destruct (birthday r) as [b|] eqn:Hb.
    + destruct (Hab r b Hr Hb) as (bd' & Hs & Hm' & Hd').
      apply (leap_day_entries today bd' y r b Ht (strptime_valid _ _ Hs) Hm' Hd'); [|exact Hl|exact Hb|exact Hs].
      rewrite (occurrence_month_day bd' bd); congruence.
    + unfold upcoming_entries. rewrite Hb. eauto.
Qed.

Lemma leap_day_fallback_no_error_witness :
  (resolve (mkdate 2025 6 10) (mkdate 2000 2 29) = Ok (mkdate 2026 2 28)
   /\ (exists e, upcoming_entries (mkdate 2025 6 10) (rec_bday "E" "29.02.2000") = Ok e)
   /\ (exists res, get_upcoming_birthdays (mkworld (mkdate 2025 6 10))
                     (book_of [rec_bday "E" "29.02.2000"; rec_bday "F" "29.02.1996"]) = Ok res))
  /\ resolve (mkdate 9999 1 10) (mkdate 2000 2 29) = Ok (mkdate 9999 2 28).
Proof.
  split.
  - destruct (leap_day_fallback_no_error (mkdate 2025 6 10) (mkdate 2000 2 29) 2026)
      as (H1 & H2 & H3).
    + vm_compute. repeat split; discriminate.
    + vm_compute. repeat split; discriminate.
    + reflexivity.
    + reflexivity.
    + reflexivity.
    + reflexivity.
    + split; [exact H1|split].
      * apply (H2 (rec_bday "E" "29.02.2000") (mkBirthday "29.02.2000")); reflexivity.
      * apply H3. intros r b Hr Hb. vm_compute in Hr.
        destruct Hr as [<-|[<-|[]]]; vm_compute in Hb; inversion Hb; subst;
          eexists; (split; [reflexivity|split; reflexivity]).
  - apply (leap_day_fallback_no_error (mkdate 9999 1 10) (mkdate 2000 2 29) 9999).
    + vm_compute. repeat split; discriminate.
    + vm_compute. repeat split; discriminate.
    + reflexivity.
    + reflexivity.
    + reflexivity.
    + reflexivity.
Defined.

Lemma resolve_year_10000 (today bd : date) :
  year today = 9999 -> valid_date bd -> date_lt (occurrence bd 9999) today = true ->
  resolve today bd = Err (ValueError "year 10000 is out of range").
Proof.
  intros Hy Hv Hlt. unfold resolve. rewrite Hy.
  rewrite (proj1 (occurrence_step bd 9999 Hv ltac:(unfold MINYEAR, MAXYEAR; lia))). simpl obind.
  rewrite Hlt. reflexivity.
Qed.

Lemma scan_err_in (today : date) (rs : list record) (r : record) (e : exn) :
  In r rs -> upcoming_entries today r = Err e -> exists e', scan today rs = Err e'.
Proof.
  induction rs as [|r0 t IH]; simpl; [contradiction|]. intros Hin He.
  destruct (upcoming_entries today r0) as [x|e0] eqn:E0; simpl; [|eauto].
  destruct Hin as [->|Hin]; [congruence|].
  destruct (IH Hin He) as [e' ->]. simpl. eauto.
Qed.

(** A birthday whose occurrence in year 9999 is already past when today is
    in year 9999: the retry in year 10000 fails on the year check of
    [date], with and without day 28, so the [ValueError] escapes lines
    88-97; the record's part of the scan raises it, and
    [get_upcoming_birthdays] of any book holding the record raises. *)
Theorem upcoming_year_9999_overflow :
  forall (today bd : date) (r : record) (b : Birthday),
    year today = 9999 -> valid_date bd ->
    birthday r = Some b -> strptime_dmy (birthday_value b) = Ok bd ->
    date_lt (occurrence bd 9999) today = true ->
    upcoming_entries today r = Err (ValueError "year 10000 is out of range")
    /\ (forall ab : AddressBook, In r (map snd ab) ->
          exists e, get_upcoming_birthdays (mkworld today) ab = Err e).
Proof.
  intros today bd r b Hy Hv Hb Hs Hlt.
  assert (He : upcoming_entries today r = Err (ValueError "year 10000 is out of range")).
  { unfold upcoming_entries. rewrite Hb, Hs. simpl obind.
    rewrite (resolve_year_10000 today bd Hy Hv Hlt). reflexivity. }
  split; [exact He|]. intros ab Hin. exact (scan_err_in today _ r _ Hin He).
Qed.

Lemma upcoming_year_9999_overflow_witness :
  upcoming_entries (mkdate 9999 6 10) (rec_bday "G" "01.03.2000")
    = Err (ValueError "year 10000 is out of range")
  /\ exists e, get_upcoming_birthdays (at_date 9999 6 10)
                 (book_of [rec_bday "A" "20.06.1990"; rec_bday "G" "01.03.2000"]) = Err e.
Proof.
  assert (Hv : valid_date (mkdate 2000 3 1))
    by (unfold valid_date, MINYEAR, MAXYEAR; simpl;
        replace (_days_in_month 2000 3) with 31 by reflexivity; lia).
  destruct (upcoming_year_9999_overflow (mkdate 9999 6 10) (mkdate 2000 3 1)
              (rec_bday "G" "01.03.2000") (mkBirthday "01.03.2000")
              eq_refl Hv ltac:(vm_compute; reflexivity) ltac:(vm_compute; reflexivity)
              ltac:(vm_compute; reflexivity)) as [H1 H2].
  split; [exact H1|].
  apply H2. vm_compute. right. left. reflexivity.
Defined.

(* ------------------------------------------------------------------ *)
(** ** Lemmas on [strptime] *)

Ltac zcases :=
  repeat match goal with
  | H : (_ && _) = true |- _ => apply andb_true_iff in H; destruct H
  | H : (_ || _) = true |- _ => apply orb_true_iff in H; destruct H
  | H : (_ || _) = false |- _ => apply orb_false_iff in H; destruct H
  | H : negb _ = true |- _ => apply negb_true_iff in H
  | H : negb _ = false |- _ => apply negb_false_iff in H
  | H : (_ <=? _) = true |- _ => apply Z.leb_le in H
  | H : (_ <=? _) = false |- _ => apply Z.leb_gt in H
  | H : (_ <? _) = true |- _ => apply Z.ltb_lt in H
  | H : (_ <? _) = false |- _ => apply Z.ltb_ge in H
  | H : (_ =? _) = true |- _ => apply Z.eqb_eq in H
  | H : (_ =? _) = false |- _ => apply Z.eqb_neq in H
  end.

Ltac zsolve :=
  match goal with
  | |- true = true => reflexivity
  | |- (_ && _) = true => apply andb_true_iff; split; zsolve
  | |- (_ || _) = true => apply orb_true_iff; first [left; zsolve | right; zsolve]
  | |- negb _ = true => apply negb_true_iff; zsolve
  | |- (_ =? _) = false => apply Z.eqb_neq; lia
  | |- (_ =? _) = true => apply Z.eqb_eq; lia
  | |- (_ <=? _) = true => apply Z.leb_le; lia
  | |- (_ <? _) = true => apply Z.ltb_lt; lia
  | |- (_ <=? _) = false => apply Z.leb_gt; lia
  end.

Lemma in_re1 (p : ascii -> bool) (s t r : string) :
  In (t, r) (re1 p s) <-> exists c, t = String c EmptyString /\ s = String c r /\ p c = true.
Proof.
  destruct s as [|c s']; simpl.
  - split; [intros []|intros (c & _ & H & _); discriminate].
  - destruct (p c) eqn:E; simpl.
    + split.
      * intros [H|[]]. inversion H; subst. eauto.
      * intros (c' & -> & H & _). inversion H; subst. auto.
    + split; [intros []|]. intros (c' & -> & H & Hp). inversion H; subst. congruence.
Qed.

Lemma in_re2 (p1 p2 : ascii -> bool) (s t r : string) :
  In (t, r) (re2 p1 p2 s)
  <-> exists c1 c2, t = String c1 (String c2 EmptyString) /\ s = String c1 (String c2 r)
                    /\ p1 c1 && p2 c2 = true.
Proof.
  destruct s as [|c1 [|c2 s']]; simpl.
  - split; [intros []|intros (c1 & c2 & _ & H & _); discriminate].
  - split; [intros []|intros (c1' & c2 & _ & H & _); discriminate].
  - destruct (p1 c1 && p2 c2) eqn:E; simpl.
    + split.
      * intros [H|[]]. inversion H; subst. eauto 6.
      * intros (c1' & c2' & -> & H & _). inversion H; subst. auto.
    + split; [intros []|]. intros (c1' & c2' & -> & H & Hp). inversion H; subst. congruence.
Qed.

Lemma re_d_spec (s t r : string) :
  In (t, r) (re_d s) <-> s = (t ++ r)%string /\ d_tok t = true.
Proof.
  unfold re_d. rewrite !in_app_iff, !in_re2, in_re1. split.
  - intros [(c1&c2&->&->&H)|[(c1&c2&->&->&H)|[(c1&c2&->&->&H)|[(c&->&->&H)|(c1&c2&->&->&H)]]]];
      simpl; (split; [reflexivity|]); rewrite ?H; now rewrite ?orb_true_r, ?orb_true_l.
  - intros [-> Ht]. destruct t as [|c1 [|c2 [|c3 t]]]; simpl in Ht; try discriminate.
    + right; right; right; left. eauto.
    + apply orb_true_iff in Ht as [Ht|Ht]; [apply orb_true_iff in Ht as [Ht|Ht]|];
        [apply orb_true_iff in Ht as [Ht|Ht]| |].
      * left. eauto 6.
      * right; left. eauto 6.
      * right; right; left. eauto 6.
      * right; right; right; right. eauto 6.
Qed.

Lemma re_m_spec (s t r : string) :
  In (t, r) (re_m s) <-> s = (t ++ r)%string /\ m_tok t = true.
Proof.
  unfold re_m. rewrite !in_app_iff, !in_re2, in_re1. split.
  - intros [(c1&c2&->&->&H)|[(c1&c2&->&->&H)|(c&->&->&H)]];
      simpl; (split; [reflexivity|]); rewrite ?H; now rewrite ?orb_true_r, ?orb_true_l.
  - intros [-> Ht]. destruct t as [|c1 [|c2 [|c3 t]]]; simpl in Ht; try discriminate.
    + right; right. eauto.
    + apply orb_true_iff in Ht as [Ht|Ht].
      * left. eauto 6.
      * right; left. eauto 6.
Qed.

Lemma re_Y_spec (s t r : string) :
  In (t, r) (re_Y s) <-> s = (t ++ r)%string /\ Y_tok t = true.
Proof.
  split.
  - destruct s as [|a [|b [|c [|d s']]]]; simpl; try (intros []).
    destruct (_ && _) eqn:E; simpl; [|intros []].
    intros [H|[]]. inversion H; subst. simpl. auto.
  - intros [-> Ht]. destruct t as [|a [|b [|c [|d [|e t]]]]]; simpl in Ht; try discriminate.
    simpl. rewrite Ht. left. reflexivity.
Qed.

Lemma re_dot_spec (s r : string) :
  In r (re_dot s) <-> s = String "." r.
Proof.
  destruct s as [|c s']; simpl.
  - split; [intros []|discriminate].
  - unfold ch_is, code. destruct (Z.of_N (N_of_ascii c) =? 46) eqn:E; simpl.
    + apply Z.eqb_eq in E.
      assert (c = "."%char) as ->.
      { rewrite <- (ascii_N_embedding c). replace (N_of_ascii c) with 46%N by lia. reflexivity. }
      split; [intros [<-|[]]; reflexivity|intros H; inversion H; auto].
    + split; [intros []|intros H; inversion H; subst; discriminate].
Qed.

Lemma dmy_matches_spec (s d m y r : string) :
  In (d, m, y, r) (dmy_matches s)
  <-> s = (d ++ String "." (m ++ String "." (y ++ r)))%string
      /\ d_tok d = true /\ m_tok m = true /\ Y_tok y = true.
Proof.
  unfold dmy_matches. rewrite in_flat_map. split.
  - intros [[d0 r1] [H1 H]]. apply re_d_spec in H1 as [-> Hd].
    apply in_flat_map in H as [r2 [H2 H]]. apply re_dot_spec in H2 as ->.
    apply in_flat_map in H as [[m0 r3] [H3 H]]. apply re_m_spec in H3 as [-> Hm].
    apply in_flat_map in H as [r4 [H4 H]]. apply re_dot_spec in H4 as ->.
    apply in_map_iff in H as [[y0 r5] [He H5]]. inversion He; subst.
    apply re_Y_spec in H5 as [-> Hy]. auto.
  - intros (-> & Hd & Hm & Hy).
    exists (d, String "." (m ++ String "." (y ++ r))). split; [apply re_d_spec; auto|].
    apply in_flat_map. exists (m ++ String "." (y ++ r))%string.
    split; [apply re_dot_spec; reflexivity|].
    apply in_flat_map. exists (m, String "." (y ++ r)). split; [apply re_m_spec; auto|].
    apply in_flat_map. exists (y ++ r)%string. split; [apply re_dot_spec; reflexivity|].
    apply in_map_iff. exists (y, r). split; [reflexivity|]. apply re_Y_spec. auto.
Qed.

Ltac chars :=
  unfold py_int in *; simpl in *;
  repeat match goal with
  | |- context [is_ascii_digit ?c] => destruct (is_ascii_digit c) eqn:?
  | H : context [is_ascii_digit ?c] |- _ =>
      lazymatch type of H with
      | is_ascii_digit _ = _ => fail
      | _ => destruct (is_ascii_digit c) eqn:?
      end
  end;
  unfold is_ascii_digit, ch_in, ch_is, digit_value in *;
  repeat match goal with
  | H : (_ && _) = false |- _ => apply andb_false_iff in H; destruct H
  end;
  zcases;
  try discriminate; try (exfalso; lia); try reflexivity; try zsolve.

Lemma str_app_nil (s : string) : (s ++ "")%string = s.
Proof. induction s as [|c s IH]; simpl; [reflexivity|rewrite IH; reflexivity]. Qed.

Lemma all_ascii_spec (c : ascii) : In c all_ascii.
Proof.
  unfold all_ascii. apply in_map_iff. exists (nat_of_ascii c). split.
  - apply ascii_nat_embedding.
  - apply in_seq. pose proof (nat_ascii_bounded c). lia.
Qed.

Lemma all_ascii_1 (P : ascii -> bool) :
  forallb P all_ascii = true -> forall c, P c = true.
Proof. intros H c. rewrite forallb_forall in H. apply H, all_ascii_spec. Qed.

Lemma all_ascii_2 (P : ascii -> ascii -> bool) :
  forallb (fun c1 => forallb (P c1) all_ascii) all_ascii = true -> forall c1 c2, P c1 c2 = true.
Proof. intros H c1. apply all_ascii_1. revert c1. apply (all_ascii_1 (fun c1 => forallb (P c1) all_ascii)), H. Qed.

Lemma implb_mp (a b : bool) : implb a b = true -> a = true -> b = true.
Proof. destruct a, b; simpl; auto. Qed.

Lemma short_strings (f : string -> bool) :
  f EmptyString = true ->
  forallb (fun c => f (String c EmptyString)) all_ascii = true ->
  forallb (fun c1 => forallb (fun c2 => f (String c1 (String c2 EmptyString))) all_ascii) all_ascii
    = true ->
  (forall c1 c2 c3 t, f (String c1 (String c2 (String c3 t))) = true) ->
  forall t, f t = true.
Proof.
  intros H0 H1 H2 H3 [|c1 [|c2 [|c3 t]]]; auto.
  - apply (all_ascii_1 (fun c => f (String c EmptyString))), H1.
  - apply (all_ascii_2 (fun a b => f (String a (String b EmptyString)))), H2.
Qed.

Ltac short_strings :=
  intros t; match goal with |- ?b = true =>
    let P := eval pattern t in b in
    lazymatch P with ?f t => apply (short_strings f) end; [reflexivity | vm_compute; reflexivity | vm_compute; reflexivity
                             | intros; reflexivity] end.

Lemma form_d_tok_b (t : string) :
  implb (day_form t && (1 <=? py_int t) && (py_int t <=? 31)) (d_tok t) = true.
Proof. revert t. short_strings. Qed.

Lemma form_m_tok_b (t : string) :
  implb (month_form t && (1 <=? py_int t) && (py_int t <=? 12)) (m_tok t) = true.
Proof. revert t. short_strings. Qed.

Lemma d_tok_no_dot (t : string) : d_tok t = true -> no_dot t = true.
Proof. destruct t as [|c1 [|c2 [|c3 t]]]; unfold no_dot; simpl; intros H; try discriminate; chars. Qed.

Lemma m_tok_no_dot (t : string) : m_tok t = true -> no_dot t = true.
Proof. destruct t as [|c1 [|c2 [|c3 t]]]; unfold no_dot; simpl; intros H; try discriminate; chars. Qed.

Lemma Y_tok_length (t : string) : Y_tok t = true -> String.length t = 4%nat.
Proof. destruct t as [|a [|b [|c [|d [|e t]]]]]; simpl; intros H; try discriminate; reflexivity. Qed.

Lemma no_dot_split (d d' x x' : string) :
  no_dot d = true -> no_dot d' = true ->
  (d ++ String "." x)%string = (d' ++ String "." x')%string -> d = d' /\ x = x'.
Proof.
  revert d'. induction d as [|c d IH]; intros [|c' d']; simpl; intros Hd Hd' H.
  - inversion H; auto.
  - inversion H; subst. unfold no_dot in Hd'. simpl in Hd'. discriminate.
  - inversion H; subst. unfold no_dot in Hd. simpl in Hd. discriminate.
  - inversion H as [[Hc Hr]]; subst. unfold no_dot in Hd, Hd'. simpl in Hd, Hd'.
    apply andb_true_iff in Hd as [_ Hd]. apply andb_true_iff in Hd' as [_ Hd'].
    destruct (IH d' Hd Hd' Hr) as [-> ->]. auto.
Qed.

Lemma app_same_length (y y' r r' : string) :
  String.length y = String.length y' -> (y ++ r)%string = (y' ++ r')%string -> y = y' /\ r = r'.
Proof.
  revert y'. induction y as [|c y IH]; intros [|c' y']; simpl; intros Hl H;
    try discriminate; [auto|].
  inversion H; subst. destruct (IH y' ltac:(lia) H2) as [-> ->]. auto.
Qed.

Lemma dmy_matches_unique (s : string) a b :
  In a (dmy_matches s) -> In b (dmy_matches s) -> a = b.
Proof.
  destruct a as [[[d m] y] r], b as [[[d' m'] y'] r'].
  rewrite !dmy_matches_spec. intros (-> & Hd & Hm & Hy) (H & Hd' & Hm' & Hy').
  destruct (no_dot_split _ _ _ _ (d_tok_no_dot _ Hd) (d_tok_no_dot _ Hd') H) as [-> H1].
  destruct (no_dot_split _ _ _ _ (m_tok_no_dot _ Hm) (m_tok_no_dot _ Hm') H1) as [-> H2].
  destruct (app_same_length _ _ _ _ (eq_trans (Y_tok_length _ Hy) (eq_sym (Y_tok_length _ Hy'))) H2)
    as [-> ->].
  reflexivity.
Qed.

Lemma strptime_ok_iff (s : string) (x : date) :
  strptime_dmy s = Ok x
  <-> exists d m y, In (d, m, y, EmptyString) (dmy_matches s)
                    /\ mk_date (py_int y) (py_int m) (py_int d) = Ok x.
Proof.
  unfold strptime_dmy. split.
  - destruct (dmy_matches s) as [|[[[d m] y] rest] t] eqn:E; [discriminate|].
    destruct rest; [|discriminate]. intros H. exists d, m, y. split; [left; reflexivity|exact H].
  - intros (d & m & y & Hin & Hmk).
    assert (Hin' := Hin).
    destruct (dmy_matches s) as [|h t] eqn:E; [contradiction|].
    assert (h = (d, m, y, EmptyString)) as ->.
    { apply (dmy_matches_unique s); rewrite E; [left; reflexivity|exact Hin']. }
    exact Hmk.
Qed.

Lemma strptime_err (s : string) (e : exn) :
  strptime_dmy s = Err e -> exists msg, e = ValueError msg.
Proof.
  unfold strptime_dmy.
  destruct (dmy_matches s) as [|[[[d m] y] rest] t]; [intros H; inversion H; eauto|].
  destruct rest; [apply mk_date_err|intros H; inversion H; eauto].
Qed.

Lemma form_d_tok (t : string) : day_form t = true -> 1 <= py_int t <= 31 -> d_tok t = true.
Proof.
  intros H Hr. apply (implb_mp _ _ (form_d_tok_b t)). rewrite H. simpl.
  apply andb_true_iff; split; apply Z.leb_le; lia.
Qed.

Lemma form_m_tok (t : string) : month_form t = true -> 1 <= py_int t <= 12 -> m_tok t = true.
Proof.
  intros H Hr. apply (implb_mp _ _ (form_m_tok_b t)). rewrite H. simpl.
  apply andb_true_iff; split; apply Z.leb_le; lia.
Qed.

Lemma mk_date_calendar (y m d : Z) :
  (exists x, mk_date y m d = Ok x) <-> calendar_valid y m d = true /\ y <= 9999.
Proof.
  split.
  - intros [x Hx]. destruct (mk_date_ok _ _ _ _ Hx) as [-> (Hy & Hm & Hd)].
    unfold MINYEAR, MAXYEAR in *; simpl in *. unfold calendar_valid. split; [zsolve|lia].
  - intros [Hc Hy]. unfold calendar_valid in Hc. zcases.
    exists (mkdate y m d). apply mk_date_intro. unfold valid_date, MINYEAR, MAXYEAR; simpl. lia.
Qed.

Lemma days_in_month_le_31 (y m : Z) : 1 <= m <= 12 -> _days_in_month y m <= 31.
Proof.
  intros Hm. destruct (days_in_month_cases y m Hm) as [[_ ->]|[_ [H _]]];
    [destruct (_is_leap y); lia|lia].
Qed.

(* ------------------------------------------------------------------ *)
(** ** Lemmas on [strptime] over code points *)

Lemma decimal_in_cons (s0 : Z) (t : list Z) (c : Z) :
  decimal_in (s0 :: t) c = if (s0 <=? c) && (c <=? s0 + 9) then Some (c - s0) else decimal_in t c.
Proof. reflexivity. Qed.

Lemma decimal_in_range (runs : list Z) (c v : Z) :
  decimal_in runs c = Some v -> 0 <= v <= 9.
Proof.
  induction runs as [|s0 t IH]; [discriminate|]. rewrite decimal_in_cons.
  destruct ((s0 <=? c) && (c <=? s0 + 9)) eqn:E; [|exact IH].
  intros H. inversion H; subst. zcases. lia.
Qed.

Lemma py_decimal_range (c v : Z) : py_decimal c = Some v -> 0 <= v <= 9.
Proof. apply decimal_in_range. Qed.

Lemma py_decimal_ascii (c : Z) : 48 <= c <= 57 -> py_decimal c = Some (c - 48).
Proof.
  intros H. unfold py_decimal, decimal_run_starts. rewrite decimal_in_cons.
  replace ((48 <=? c) && (c <=? 48 + 9)) with true by (symmetry; zsolve). reflexivity.
Qed.

Lemma is_decimal_value (c : Z) : is_decimal c = true -> exists v, py_decimal c = Some v /\ 0 <= v <= 9.
Proof.
  unfold is_decimal. destruct (py_decimal c) as [v|] eqn:E; [|discriminate].
  intros _. exists v. split; [reflexivity|exact (py_decimal_range _ _ E)].
Qed.

Lemma is_decimal_ascii (c : Z) : 48 <= c <= 57 -> is_decimal c = true.
Proof. intros H. unfold is_decimal. rewrite (py_decimal_ascii c H). reflexivity. Qed.

Lemma is_decimal_dot : is_decimal 46 = false.
Proof. reflexivity. Qed.

Lemma py_decimal_space : py_decimal 32 = None.
Proof. reflexivity. Qed.

Ltac uzsolve :=
  match goal with
  | |- true = true => reflexivity
  | |- is_decimal _ = true => assumption
  | |- (_ && _) = true => apply andb_true_iff; split; uzsolve
  | |- (_ || _) = true => apply orb_true_iff; first [left; uzsolve | right; uzsolve]
  | |- (_ =? _) = true => apply Z.eqb_eq; lia
  | |- (_ <=? _) = true => apply Z.leb_le; lia
  end.

Lemma in_ure1 (p : Z -> bool) (s t r : ustring) :
  In (t, r) (ure1 p s) <-> exists c, t = [c] /\ s = c :: r /\ p c = true.
Proof.
  destruct s as [|c s']; simpl.
  - split; [intros []|intros (c & _ & H & _); discriminate].
  - destruct (p c) eqn:E; simpl.
    + split.
      * intros [H|[]]. inversion H; subst. eauto.
      * intros (c' & -> & H & _). inversion H; subst. auto.
    + split; [intros []|]. intros (c' & -> & H & Hp). inversion H; subst. congruence.
Qed.

Lemma in_ure2 (p1 p2 : Z -> bool) (s t r : ustring) :
  In (t, r) (ure2 p1 p2 s)
  <-> exists c1 c2, t = [c1; c2] /\ s = c1 :: c2 :: r /\ p1 c1 && p2 c2 = true.
Proof.
  destruct s as [|c1 [|c2 s']]; simpl.
  - split; [intros []|intros (c1 & c2 & _ & H & _); discriminate].
  - split; [intros []|intros (c1' & c2 & _ & H & _); discriminate].
  - destruct (p1 c1 && p2 c2) eqn:E; simpl.
    + split.
      * intros [H|[]]. inversion H; subst. eauto 6.
      * intros (c1' & c2' & -> & H & _). inversion H; subst. auto.
    + split; [intros []|]. intros (c1' & c2' & -> & H & Hp). inversion H; subst. congruence.
Qed.

Lemma ure_d_spec (s t r : ustring) :
  In (t, r) (ure_d s) <-> s = (t ++ r)%list /\ ud_tok t = true.
Proof.
  unfold ure_d. rewrite !in_app_iff, !in_ure2, in_ure1. split.
  - intros [(c1&c2&->&->&H)|[(c1&c2&->&->&H)|[(c1&c2&->&->&H)|[(c&->&->&H)|(c1&c2&->&->&H)]]]];
      simpl; (split; [reflexivity|]); rewrite ?H; now rewrite ?orb_true_r, ?orb_true_l.
  - intros [-> Ht]. destruct t as [|c1 [|c2 [|c3 t]]]; simpl in Ht; try discriminate.
    + right; right; right; left. eauto.
    + apply orb_true_iff in Ht as [Ht|Ht]; [apply orb_true_iff in Ht as [Ht|Ht]|];
        [apply orb_true_iff in Ht as [Ht|Ht]| |].
      * left. eauto 6.
      * right; left. eauto 6.
      * right; right; left. eauto 6.
      * right; right; right; right. eauto 6.
Qed.

Lemma ure_m_spec (s t r : ustring) :
  In (t, r) (ure_m s) <-> s = (t ++ r)%list /\ um_tok t = true.
Proof.
  unfold ure_m. rewrite !in_app_iff, !in_ure2, in_ure1. split.
  - intros [(c1&c2&->&->&H)|[(c1&c2&->&->&H)|(c&->&->&H)]];
      simpl; (split; [reflexivity|]); rewrite ?H; now rewrite ?orb_true_r, ?orb_true_l.
  - intros [-> Ht]. destruct t as [|c1 [|c2 [|c3 t]]]; simpl in Ht; try discriminate.
    + right; right. eauto.
    + apply orb_true_iff in Ht as [Ht|Ht].
      * left. eauto 6.
      * right; left. eauto 6.
Qed.

Lemma ure_Y_spec (s t r : ustring) :
  In (t, r) (ure_Y s) <-> s = (t ++ r)%list /\ uY_tok t = true.
Proof.
  split.
  - destruct s as [|a [|b [|c [|d s']]]]; simpl; try (intros []).
    destruct (_ && _) eqn:E; simpl; [|intros []].
    intros [H|[]]. inversion H; subst. simpl. auto.
  - intros [-> Ht]. destruct t as [|a [|b [|c [|d [|e t]]]]]; simpl in Ht; try discriminate.
    simpl. rewrite Ht. left. reflexivity.
Qed.

Lemma ure_dot_spec (s r : ustring) :
  In r (ure_dot s) <-> s = 46 :: r.
Proof.
  destruct s as [|c s']; simpl.
  - split; [intros []|discriminate].
  - unfold uch_is. destruct (c =? 46) eqn:E; simpl.
    + apply Z.eqb_eq in E. subst c.
      split; [intros [<-|[]]; reflexivity|intros H; inversion H; auto].
    + apply Z.eqb_neq in E.
      split; [intros []|intros H; inversion H; subst; congruence].
Qed.

Lemma udmy_matches_spec (s d m y r : ustring) :
  In (d, m, y, r) (udmy_matches s)
  <-> s = (d ++ 46 :: m ++ 46 :: y ++ r)%list
      /\ ud_tok d = true /\ um_tok m = true /\ uY_tok y = true.
Proof.
  unfold udmy_matches. rewrite in_flat_map. split.
  - intros [[d0 r1] [H1 H]]. apply ure_d_spec in H1 as [-> Hd].
    apply in_flat_map in H as [r2 [H2 H]]. apply ure_dot_spec in H2 as ->.
    apply in_flat_map in H as [[m0 r3] [H3 H]]. apply ure_m_spec in H3 as [-> Hm].
    apply in_flat_map in H as [r4 [H4 H]]. apply ure_dot_spec in H4 as ->.
    apply in_map_iff in H as [[y0 r5] [He H5]]. inversion He; subst.
    apply ure_Y_spec in H5 as [-> Hy]. auto.
  - intros (-> & Hd & Hm & Hy).
    exists (d, 46 :: m ++ 46 :: y ++ r). split; [apply ure_d_spec; auto|].
    apply in_flat_map. exists (m ++ 46 :: y ++ r)%list.
    split; [apply ure_dot_spec; reflexivity|].
    apply in_flat_map. exists (m, 46 :: y ++ r). split; [apply ure_m_spec; auto|].
    apply in_flat_map. exists (y ++ r)%list. split; [apply ure_dot_spec; reflexivity|].
    apply in_map_iff. exists (y, r). split; [reflexivity|]. apply ure_Y_spec. auto.
Qed.

Lemma ud_tok_no_dot (t : ustring) : ud_tok t = true -> ~ In 46 t.
Proof.
  destruct t as [|c1 [|c2 [|c3 t]]]; simpl; intros H; try discriminate.
  - unfold uch_in in H. zcases. intros [E|[]]. lia.
  - intros Hin. assert (c1 = 46 \/ c2 = 46) as [->| ->] by (destruct Hin as [|[|[]]]; auto);
      unfold uch_in, uch_is in H; zcases; try lia.
    all: rewrite is_decimal_dot in *; discriminate.
Qed.

Lemma um_tok_no_dot (t : ustring) : um_tok t = true -> ~ In 46 t.
Proof.
  destruct t as [|c1 [|c2 [|c3 t]]]; simpl; intros H; try discriminate.
  - unfold uch_in in H. zcases. intros [E|[]]. lia.
  - intros Hin. assert (c1 = 46 \/ c2 = 46) as [->| ->] by (destruct Hin as [|[|[]]]; auto);
      unfold uch_in, uch_is in H; zcases; lia.
Qed.

Lemma uY_tok_length (t : ustring) : uY_tok t = true -> length t = 4%nat.
Proof. destruct t as [|a [|b [|c [|d [|e t]]]]]; simpl; intros H; try discriminate; reflexivity. Qed.

Lemma sep_split (d d' x x' : ustring) :
  ~ In 46 d -> ~ In 46 d' -> (d ++ 46 :: x)%list = (d' ++ 46 :: x')%list -> d = d' /\ x = x'.
Proof.
  revert d'. induction d as [|c d IH]; intros [|c' d']; simpl; intros Hd Hd' H.
  - inversion H; auto.
  - inversion H; subst. exfalso. apply Hd'. left. reflexivity.
  - inversion H; subst. exfalso. apply Hd. left. reflexivity.
  - inversion H as [[Hc Hr]]; subst.
    destruct (IH d' (fun h => Hd (or_intror h)) (fun h => Hd' (or_intror h)) Hr) as [-> ->]. auto.
Qed.

Lemma list_app_same_length (y y' r r' : ustring) :
  length y = length y' -> (y ++ r)%list = (y' ++ r')%list -> y = y' /\ r = r'.
Proof.
  revert y'. induction y as [|c y IH]; intros [|c' y']; simpl; intros Hl H;
    try discriminate; [auto|].
  inversion H; subst. destruct (IH y' ltac:(lia) H2) as [-> ->]. auto.
Qed.

Lemma udmy_matches_unique (s : ustring) a b :
  In a (udmy_matches s) -> In b (udmy_matches s) -> a = b.
Proof.
  destruct a as [[[d m] y] r], b as [[[d' m'] y'] r'].
  rewrite !udmy_matches_spec. intros (-> & Hd & Hm & Hy) (H & Hd' & Hm' & Hy').
  destruct (sep_split _ _ _ _ (ud_tok_no_dot _ Hd) (ud_tok_no_dot _ Hd') H) as [-> H1].
  destruct (sep_split _ _ _ _ (um_tok_no_dot _ Hm) (um_tok_no_dot _ Hm') H1) as [-> H2].
  destruct (list_app_same_length _ _ _ _
              (eq_trans (uY_tok_length _ Hy) (eq_sym (uY_tok_length _ Hy'))) H2) as [-> ->].
  reflexivity.
Qed.

Lemma ustrptime_ok_iff (s : ustring) (x : date) :
  ustrptime_dmy s = Ok x
  <-> exists d m y, In (d, m, y, []) (udmy_matches s)
                    /\ mk_date (u_int y) (u_int m) (u_int d) = Ok x.
Proof.
  unfold ustrptime_dmy. split.
  - destruct (udmy_matches s) as [|[[[d m] y] rest] t] eqn:E; [discriminate|].
    destruct rest; [|discriminate]. intros H. exists d, m, y. split; [left; reflexivity|exact H].
  - intros (d & m & y & Hin & Hmk).
    assert (Hin' := Hin).
    destruct (udmy_matches s) as [|h t] eqn:E; [contradiction|].
    assert (h = (d, m, y, [])) as ->.
    { apply (udmy_matches_unique s); rewrite E; [left; reflexivity|exact Hin']. }
    exact Hmk.
Qed.

Lemma ustrptime_err (s : ustring) (e : exn) :
  ustrptime_dmy s = Err e -> exists msg, e = ValueError msg.
Proof.
  unfold ustrptime_dmy.
  destruct (udmy_matches s) as [|[[[d m] y] rest] t]; [intros H; inversion H; eauto|].
  destruct rest; [apply mk_date_err|intros H; inversion H; eauto].
Qed.

Lemma ud_tok_form (t : ustring) : ud_tok t = true -> uday_form t = true.
Proof.
  destruct t as [|c1 [|c2 [|c3 t]]]; simpl; intros H; try discriminate.
  - unfold uch_in in *. zcases. uzsolve.
  - unfold uch_in, uch_is in *. zcases; subst.
    + cbn. uzsolve.
    + assert (Ht : ((49 <=? c1) && (c1 <=? 50)) = true) by uzsolve. rewrite Ht. uzsolve.
    + cbn. uzsolve.
    + cbn. uzsolve.
Qed.

Lemma form_ud_tok (t : ustring) : uday_form t = true -> 1 <= u_int t <= 31 -> ud_tok t = true.
Proof.
  destruct t as [|c1 [|c2 [|c3 t]]]; simpl; intros H Hr; try discriminate.
  - unfold uch_in in *. zcases. unfold u_int in Hr. simpl in Hr.
    rewrite py_decimal_ascii in Hr by lia. uzsolve.
  - apply orb_true_iff in H as [H|H]; apply andb_true_iff in H as [H1 H2].
    + unfold uch_in at 1 in H1. zcases.
      destruct (uch_in 49 50 c1) eqn:E.
      * unfold uch_in in E |- *. unfold uch_is. zcases. uzsolve.
      * unfold uch_in in E, H2 |- *. unfold uch_is. zcases.
        unfold u_int in Hr. simpl in Hr.
        rewrite (py_decimal_ascii c1), (py_decimal_ascii c2) in Hr by lia.
        assert (c1 = 48 \/ c1 = 51) as [->| ->] by lia; uzsolve.
    + unfold uch_in, uch_is in H1, H2 |- *. zcases. subst c1.
      unfold u_int in Hr. cbn [u_int_acc] in Hr. rewrite py_decimal_space in Hr.
      rewrite (py_decimal_ascii c2) in Hr by lia. uzsolve.
Qed.

Lemma um_tok_form (t : ustring) : um_tok t = true -> umonth_form t = true.
Proof.
  destruct t as [|c1 [|c2 [|c3 t]]]; simpl; intros H; try discriminate;
    unfold uch_in, uch_is in *; zcases; uzsolve.
Qed.

Lemma form_um_tok (t : ustring) : umonth_form t = true -> 1 <= u_int t <= 12 -> um_tok t = true.
Proof.
  destruct t as [|c1 [|c2 [|c3 t]]]; simpl; intros H Hr; try discriminate;
    unfold uch_in, uch_is in *; zcases; unfold u_int in Hr; simpl in Hr.
  - rewrite py_decimal_ascii in Hr by lia. uzsolve.
  - rewrite (py_decimal_ascii c1), (py_decimal_ascii c2) in Hr by lia.
    assert (c1 = 48 \/ c1 = 49) as [->| ->] by lia; uzsolve.
Qed.

Lemma uY_tok_form (t : ustring) : uY_tok t = true <-> uyear_form t = true.
Proof.
  unfold uyear_form.
  destruct t as [|a [|b [|c [|d [|e t]]]]]; simpl; try (split; discriminate).
  rewrite !andb_true_r, !andb_assoc. reflexivity.
Qed.

Lemma uY_tok_range (t : ustring) : uY_tok t = true -> 0 <= u_int t <= 9999.
Proof.
  destruct t as [|a [|b [|c [|d [|e t]]]]]; simpl; intros H; try discriminate.
  zcases.
  destruct (is_decimal_value a H) as (va & Ha & Ra).
  destruct (is_decimal_value b H2) as (vb & Hb & Rb).
  destruct (is_decimal_value c H1) as (vc & Hc & Rc).
  destruct (is_decimal_value d H0) as (vd & Hd & Rd).
  unfold u_int. simpl. rewrite Ha, Hb, Hc, Hd. lia.
Qed.

Lemma ubirthday_init_ok_iff (s : ustring) :
  (exists v, uBirthday_init s = Ok v) <-> exists x, ustrptime_dmy s = Ok x.
Proof.
  unfold uBirthday_init. split.
  - destruct (ustrptime_dmy s) as [x|[m|m|m]]; intros [b H]; inversion H; eauto.
  - intros [x ->]. eauto.
Qed.

(* ------------------------------------------------------------------ *)
(** ** The model on Latin-1 strings *)

Lemma py_decimal_code_b (c : ascii) :
  match py_decimal (code c) with
  | Some v => is_ascii_digit c && (v =? digit_value c)
  | None => negb (is_ascii_digit c)
  end = true.
Proof.
  revert c. apply (all_ascii_1 (fun c => match py_decimal (code c) with
    | Some v => is_ascii_digit c && (v =? digit_value c)
    | None => negb (is_ascii_digit c) end)). vm_compute. reflexivity.
Qed.

Lemma py_decimal_code (c : ascii) :
  py_decimal (code c) = if is_ascii_digit c then Some (digit_value c) else None.
Proof.
  pose proof (py_decimal_code_b c) as H.
  destruct (py_decimal (code c)) as [v|]; destruct (is_ascii_digit c); simpl in H;
    try discriminate; [apply Z.eqb_eq in H; subst; reflexivity|reflexivity].
Qed.

Lemma is_decimal_code (c : ascii) : is_decimal (code c) = is_ascii_digit c.
Proof. unfold is_decimal. rewrite py_decimal_code. destruct (is_ascii_digit c); reflexivity. Qed.

Lemma u_int_codes (t : string) (acc : Z) : u_int_acc acc (ucodes t) = py_int_acc acc t.
Proof.
  revert acc. induction t as [|c t IH]; intros acc; [reflexivity|].
  change (ucodes (String c t)) with (code c :: ucodes t). simpl.
  rewrite py_decimal_code. destruct (is_ascii_digit c); apply IH.
Qed.

Lemma ure1_codes (q : Z -> bool) (p : ascii -> bool) (s : string) :
  (forall c, q (code c) = p c) ->
  ure1 q (ucodes s) = map (fun '(t, r) => (ucodes t, ucodes r)) (re1 p s).
Proof.
  intros Hq. destruct s as [|c s]; [reflexivity|].
  change (ucodes (String c s)) with (code c :: ucodes s). simpl. rewrite Hq.
  destruct (p c); reflexivity.
Qed.

Lemma ure2_codes (q1 q2 : Z -> bool) (p1 p2 : ascii -> bool) (s : string) :
  (forall c, q1 (code c) = p1 c) -> (forall c, q2 (code c) = p2 c) ->
  ure2 q1 q2 (ucodes s) = map (fun '(t, r) => (ucodes t, ucodes r)) (re2 p1 p2 s).
Proof.
  intros Hq1 Hq2. destruct s as [|c1 [|c2 s]]; [reflexivity|reflexivity|].
  change (ucodes (String c1 (String c2 s))) with (code c1 :: code c2 :: ucodes s). simpl.
  rewrite Hq1, Hq2. destruct (p1 c1 && p2 c2); reflexivity.
Qed.

Lemma ure_d_codes (s : string) :
  ure_d (ucodes s) = map (fun '(t, r) => (ucodes t, ucodes r)) (re_d s).
Proof.
  unfold ure_d, re_d. rewrite !map_app.
  rewrite (ure2_codes _ _ (ch_is 51) (ch_in 48 49)), (ure2_codes _ _ (ch_in 49 50) is_ascii_digit),
    (ure2_codes _ _ (ch_is 48) (ch_in 49 57)), (ure1_codes _ (ch_in 49 57)),
    (ure2_codes _ _ (ch_is 32) (ch_in 49 57));
    try reflexivity; exact is_decimal_code.
Qed.

Lemma ure_m_codes (s : string) :
  ure_m (ucodes s) = map (fun '(t, r) => (ucodes t, ucodes r)) (re_m s).
Proof.
  unfold ure_m, re_m. rewrite !map_app.
  rewrite (ure2_codes _ _ (ch_is 49) (ch_in 48 50)), (ure2_codes _ _ (ch_is 48) (ch_in 49 57)),
    (ure1_codes _ (ch_in 49 57)); reflexivity.
Qed.

Lemma ure_Y_codes (s : string) :
  ure_Y (ucodes s) = map (fun '(t, r) => (ucodes t, ucodes r)) (re_Y s).
Proof.
  destruct s as [|a [|b [|c [|d s]]]]; try reflexivity.
  change (ucodes (String a (String b (String c (String d s)))))
    with (code a :: code b :: code c :: code d :: ucodes s).
  simpl. rewrite !is_decimal_code.
  destruct (is_ascii_digit a && is_ascii_digit b && is_ascii_digit c && is_ascii_digit d); reflexivity.
Qed.

Lemma ure_dot_codes (s : string) : ure_dot (ucodes s) = map ucodes (re_dot s).
Proof.
  destruct s as [|c s]; [reflexivity|].
  change (ucodes (String c s)) with (code c :: ucodes s). simpl.
  unfold uch_is, ch_is. destruct (code c =? 46); reflexivity.
Qed.

Lemma flat_map_map' {A B C} (F : B -> list C) (g : A -> B) (l : list A) :
  flat_map F (map g l) = flat_map (fun x => F (g x)) l.
Proof. induction l as [|x l IH]; simpl; [reflexivity|rewrite IH; reflexivity]. Qed.

Lemma map_flat_map' {A B C} (h : B -> C) (F : A -> list B) (l : list A) :
  map h (flat_map F l) = flat_map (fun x => map h (F x)) l.
Proof. induction l as [|x l IH]; simpl; [reflexivity|rewrite map_app, IH; reflexivity]. Qed.

Lemma flat_map_ext' {A B} (F G : A -> list B) (l : list A) :
  (forall x, F x = G x) -> flat_map F l = flat_map G l.
Proof. intros H. induction l as [|x l IH]; simpl; [reflexivity|rewrite H, IH; reflexivity]. Qed.

Lemma udmy_matches_codes (s : string) :
  udmy_matches (ucodes s)
  = map (fun '(d, m, y, r) => (ucodes d, ucodes m, ucodes y, ucodes r)) (dmy_matches s).
Proof.
  unfold udmy_matches, dmy_matches.
  rewrite ure_d_codes, flat_map_map', map_flat_map'. apply flat_map_ext'. intros [d r1].
  cbv beta iota. rewrite ure_dot_codes, flat_map_map', map_flat_map'. apply flat_map_ext'. intros r2.
  rewrite ure_m_codes, flat_map_map', map_flat_map'. apply flat_map_ext'. intros [m r3].
  cbv beta iota. rewrite ure_dot_codes, flat_map_map', map_flat_map'. apply flat_map_ext'. intros r4.
  rewrite ure_Y_codes, !map_map. apply map_ext. intros [y r5]. reflexivity.
Qed.

(** On Latin-1 strings, the model of [strptime] of the section on
    Latin-1 strings is the model on all of Unicode. *)
Lemma strptime_dmy_codes (s : string) : ustrptime_dmy (ucodes s) = strptime_dmy s.
Proof.
  unfold ustrptime_dmy, strptime_dmy. rewrite udmy_matches_codes.
  destruct (dmy_matches s) as [|[[[d m] y] rest] t]; [reflexivity|]. simpl.
  destruct rest as [|c rest]; [|reflexivity].
  unfold u_int, py_int. rewrite !u_int_codes. reflexivity.
Qed.

Lemma birthday_init_codes (s : string) :
  uBirthday_init (ucodes s)
  = match Birthday_init s with Ok b => Ok (ucodes (birthday_value b)) | Err e => Err e end.
Proof.
  unfold uBirthday_init, Birthday_init. rewrite strptime_dmy_codes.
  destruct (strptime_dmy s) as [x|[m|m|m]]; reflexivity.
Qed.

(* ------------------------------------------------------------------ *)
(** ** Claim on the accepted birthday strings *)

(** C6 (corrected): [strptime] with ["%d.%m.%Y"] is not strict: it takes a
    one-digit day and month, and a day written with a leading space, so
    ["1.1.2000"] and [" 1.1.2000"] do not have the [DD.MM.YYYY] layout and
    still make a [Birthday]. *)
Lemma birthday_format_not_strict_cex :
  strict_dmy_layout "1.1.2000" = false
  /\ Birthday_init "1.1.2000" = Ok (mkBirthday "1.1.2000")
  /\ strict_dmy_layout " 1.1.2000" = false
  /\ Birthday_init " 1.1.2000" = Ok (mkBirthday " 1.1.2000").
Proof. vm_compute. repeat split. Qed.

(** C6 (amended): on strings of any code points, [Birthday s] succeeds
    exactly when [s] is a day, a dot, a month, a dot and a year, nothing
    more, naming a date of the calendar (year at least 1, month in 1..12,
    day in 1..days of that month); the month is one or two ASCII digits, the
    year four decimal digits of any script, and the day one ASCII digit, a
    space and an ASCII digit, or two digits whose first is ASCII and whose
    second is ASCII unless the first is 1 or 2, when it may be any decimal
    digit. In every other case it fails with [ValueError "Invalid date
    format. Use DD.MM.YYYY"]. *)
Theorem birthday_format_unicode_iff :
  forall s : ustring,
    ((exists v, uBirthday_init s = Ok v) <-> udmy_form s)
    /\ (forall e, uBirthday_init s = Err e -> e = ValueError "Invalid date format. Use DD.MM.YYYY").
Proof.
  intros s. split.
  - rewrite ubirthday_init_ok_iff. split.
    + intros [x Hx]. apply ustrptime_ok_iff in Hx as (d & m & y & Hin & Hmk).
      apply udmy_matches_spec in Hin as (Hs & Hd & Hm & Hy).
      rewrite app_nil_r in Hs.
      destruct (proj1 (mk_date_calendar _ _ _) (ex_intro _ x Hmk)) as [Hc _].
      exists d, m, y. repeat split; auto using ud_tok_form, um_tok_form.
      apply uY_tok_form, Hy.
    + intros (d & m & y & Hs & Hd & Hm & Hy & Hc).
      assert (Hc' := Hc). unfold calendar_valid in Hc'. zcases.
      assert (Hdm := days_in_month_le_31 (u_int y) (u_int m) ltac:(lia)).
      apply uY_tok_form in Hy.
      destruct (proj2 (mk_date_calendar (u_int y) (u_int m) (u_int d)))
        as [x Hx]; [split; [exact Hc|apply uY_tok_range, Hy]|].
      exists x. apply ustrptime_ok_iff. exists d, m, y. split; [|exact Hx].
      apply udmy_matches_spec. rewrite app_nil_r. repeat split; auto.
      * apply form_ud_tok; [exact Hd|lia].
      * apply form_um_tok; [exact Hm|lia].
  - intros e. unfold uBirthday_init.
    destruct (ustrptime_dmy s) as [x|e'] eqn:E; [discriminate|].
    destruct (ustrptime_err s e' E) as [msg ->]. intros H. inversion H. reflexivity.
Qed.

Lemma birthday_format_unicode_iff_witness :
  (exists v, uBirthday_init (ucodes "01.01." ++ [65298; 65296; 65296; 65296])%list = Ok v)
  /\ (exists v, uBirthday_init ([49; 1635] ++ ucodes ".01.2000")%list = Ok v)
  /\ ~ udmy_form (1635 :: ucodes ".01.2000")
  /\ uBirthday_init (1635 :: ucodes ".01.2000")
     = Err (ValueError "Invalid date format. Use DD.MM.YYYY").
Proof.
  split; [|split; [|split]].
  - apply (proj1 (birthday_format_unicode_iff _)).
    exists [48; 49], [48; 49], [65298; 65296; 65296; 65296].
    split; [reflexivity|]. vm_compute. repeat split.
  - apply (proj1 (birthday_format_unicode_iff _)).
    exists [49; 1635], [48; 49], (ucodes "2000").
    split; [reflexivity|]. vm_compute. repeat split.
  - intros H. apply (proj1 (birthday_format_unicode_iff _)) in H as [v Hv].
    vm_compute in Hv. discriminate.
  - destruct (uBirthday_init (1635 :: ucodes ".01.2000")) as [v|e] eqn:E.
    + vm_compute in E. discriminate.
    + f_equal. exact (proj2 (birthday_format_unicode_iff _) e E).
Defined.

(* ------------------------------------------------------------------ *)
(** ** Lemmas on the dict of [AddressBook] *)

Lemma find_setitem (k k' : string) (v : record) (d : AddressBook) :
  find k' (dict_setitem k v d) = if String.eqb k' k then Some v else find k' d.
Proof.
  induction d as [|[k0 v0] t IH]; simpl.
  - rewrite String.eqb_sym. destruct (String.eqb k k'); reflexivity.
  - destruct (String.eqb k0 k) eqn:E; simpl.
    + apply String.eqb_eq in E. rewrite E.
      rewrite (String.eqb_sym k' k). destruct (String.eqb k k'); reflexivity.
    + rewrite IH. destruct (String.eqb k0 k') eqn:E'; [|reflexivity].
      destruct (String.eqb k' k) eqn:E''; [|reflexivity].
      apply String.eqb_eq in E', E''. apply String.eqb_neq in E. congruence.
Qed.

Lemma setitem_keys (k : string) (v : record) (d : AddressBook) :
  map fst (dict_setitem k v d) = if existsb (String.eqb k) (map fst d) then map fst d
                                 else (map fst d ++ [k])%list.
Proof.
  induction d as [|[k0 v0] t IH]; simpl; [reflexivity|].
  destruct (String.eqb k0 k) eqn:E.
  - apply String.eqb_eq in E; subst. rewrite String.eqb_refl. reflexivity.
  - rewrite (String.eqb_sym k k0), E. simpl. rewrite IH. destruct (existsb _ _); reflexivity.
Qed.

Lemma find_in (n : string) (v : record) (d : AddressBook) :
  find n d = Some v -> In (n, v) d.
Proof.
  induction d as [|[k0 v0] t IH]; simpl; [discriminate|].
  destruct (String.eqb k0 n) eqn:E.
  - apply String.eqb_eq in E; subst. intros H; inversion H; subst. left; reflexivity.
  - intros H. right. apply IH, H.
Qed.

Lemma find_none_keys (n : string) (d : AddressBook) :
  find n d = None <-> ~ In n (map fst d).
Proof.
  induction d as [|[k0 v0] t IH]; simpl; [tauto|].
  destruct (String.eqb k0 n) eqn:E.
  - apply String.eqb_eq in E; subst. split; [discriminate|tauto].
  - apply String.eqb_neq in E. rewrite IH. intuition.
Qed.

Lemma existsb_eqb_in (k : string) (l : list string) :
  existsb (String.eqb k) l = true <-> In k l.
Proof.
  rewrite existsb_exists. split.
  - intros (x & Hx & E). apply String.eqb_eq in E; subst. exact Hx.
  - intros H. exists k. split; [exact H|apply String.eqb_refl].
Qed.

(** Writing back the record just read under the same key changes nothing. *)
Lemma setitem_found (k : string) (v : record) (d : AddressBook) :
  find k d = Some v -> dict_setitem k v d = d.
Proof.
  induction d as [|[k0 v0] t IH]; simpl; [discriminate|].
  destruct (String.eqb k0 k) eqn:E.
  - apply String.eqb_eq in E; subst. intros H; inversion H; subst. reflexivity.
  - intros H. rewrite (IH H). reflexivity.
Qed.

Lemma find_filter_key (n k : string) (d : AddressBook) :
  find k (List.filter (fun kv => negb (String.eqb (fst kv) n)) d)
  = if String.eqb k n then None else find k d.
Proof.
  induction d as [|[k0 v0] t IH]; simpl.
  - destruct (String.eqb k n); reflexivity.
  - destruct (String.eqb k0 n) eqn:E; simpl.
    + apply String.eqb_eq in E. rewrite E. rewrite IH.
      destruct (String.eqb k n) eqn:E'; [reflexivity|].
      rewrite String.eqb_sym, E'. reflexivity.
    + rewrite IH. destruct (String.eqb k0 k) eqn:E'; [|reflexivity].
      destruct (String.eqb k n) eqn:E''; [|reflexivity].
      apply String.eqb_eq in E', E''. apply String.eqb_neq in E. congruence.
Qed.

Lemma find_app_existsb_false {A} (f : A -> bool) (l1 l2 : list A) :
  existsb f l1 = false -> List.find f (l1 ++ l2) = List.find f l2.
Proof.
  induction l1 as [|x t IH]; simpl; [reflexivity|].
  destruct (f x); simpl; [discriminate|exact IH].
Qed.

Lemma set_phones_same (self : record) : set_phones self (phones self) = self.
Proof. destruct self; reflexivity. Qed.

(* ------------------------------------------------------------------ *)
(** ** Properties of [AddressBook] and [Record] beyond the claims *)

(** [add_record] then [find]: the name of the added record now gives that
    record, and every other name gives what it gave before. *)
Theorem add_record_find :
  forall (r : record) (ab : AddressBook) (k : string),
    find k (add_record r ab) = if String.eqb k (name r) then Some r else find k ab.
Proof. intros r ab k. apply find_setitem. Qed.

(** [add_record] keeps the dict's insertion order: a record whose name is
    already a key replaces the old one in its position; a new name goes at
    the end. *)
Theorem add_record_order :
  forall (r : record) (ab : AddressBook),
    map fst (add_record r ab)
    = if existsb (String.eqb (name r)) (map fst ab) then map fst ab else (map fst ab ++ [name r])%list.
Proof. intros r ab. apply setitem_keys. Qed.

(** [delete]: an absent name raises [KeyError("Contact not found.")]; a
    name that is present is deleted: [delete] succeeds, the name is gone
    and every other name keeps its record. *)
Theorem delete_spec :
  forall (n : string) (ab : AddressBook),
    (find n ab = None -> delete n ab = Err (KeyError "Contact not found."))
    /\ (forall r, find n ab = Some r ->
          exists ab', delete n ab = Ok ab'
            /\ find n ab' = None /\ forall k, k <> n -> find k ab' = find k ab).
Proof.
  intros n ab. unfold delete. split.
  - intros ->. reflexivity.
  - intros r ->. eexists. split; [reflexivity|]. split.
    + rewrite find_filter_key, String.eqb_refl. reflexivity.
    + intros k Hk. rewrite find_filter_key. apply String.eqb_neq in Hk. rewrite Hk. reflexivity.
Qed.

Lemma delete_spec_witness :
  delete "Bob" [] = Err (KeyError "Contact not found.")
  /\ exists ab', delete "Bob" (book_of [Record_init "Ann"; Record_init "Bob"]) = Ok ab'
       /\ find "Bob" ab' = None
       /\ find "Ann" ab' = Some (Record_init "Ann").
Proof.
  split; [apply (proj1 (delete_spec "Bob" [])); reflexivity|].
  destruct (proj2 (delete_spec "Bob" (book_of [Record_init "Ann"; Record_init "Bob"]))
              (Record_init "Bob") eq_refl) as (ab' & Hd & Hb & Hk).
  exists ab'. split; [exact Hd|]. split; [exact Hb|].
  rewrite (Hk "Ann" ltac:(discriminate)). reflexivity.
Defined.

(** [find_phone] after the phone methods: once [add_phone number]
    succeeded it finds a phone holding [number]; after [remove_phone number]
    it finds nothing; and [remove_phone] of a number the record does not
    have is a silent no-op. *)
Theorem find_phone_after_methods :
  forall (number : string) (self : record),
    (fst (add_phone number self) = Ok tt ->
       find_phone number (snd (add_phone number self)) = Some (mkPhone number))
    /\ find_phone number (snd (remove_phone number self)) = None
    /\ (find_phone number self = None -> remove_phone number self = (Ok tt, self)).
Proof.
  intros number self. unfold find_phone. split; [|split].
  - unfold add_phone. destruct (existsb _ (phones self)) eqn:Ex; [discriminate|].
    destruct (Phone_init number) as [p|e] eqn:Hp; simpl; [|discriminate]. intros _.
    apply phone_init_validate, validate_number_ok in Hp.
    rewrite (find_app_existsb_false _ _ _ Ex). simpl. rewrite <- Hp, String.eqb_refl. destruct p; reflexivity.
  - simpl. induction (phones self) as [|p t IH]; simpl; [reflexivity|].
    destruct (String.eqb (phone_value p) number) eqn:E; simpl; [exact IH|].
    rewrite E. exact IH.
  - intros H. unfold remove_phone. f_equal.
    assert (List.filter (fun p => negb (String.eqb (phone_value p) number)) (phones self) = phones self)
      as ->; [|apply set_phones_same].
    revert H. induction (phones self) as [|p t IH]; simpl; [reflexivity|].
    destruct (String.eqb (phone_value p) number); simpl; [discriminate|].
    intros H. rewrite (IH H). reflexivity.
Qed.

Lemma find_phone_after_methods_witness :
  find_phone "0987654321"
    (snd (add_phone "0987654321" (snd (add_phone "1234567890" (Record_init "Ann")))))
    = Some (mkPhone "0987654321")
  /\ find_phone "1234567890"
       (snd (remove_phone "1234567890" (snd (add_phone "1234567890" (Record_init "Ann")))))
     = None
  /\ remove_phone "0987654321" (snd (add_phone "1234567890" (Record_init "Ann")))
     = (Ok tt, snd (add_phone "1234567890" (Record_init "Ann"))).
Proof.
  split; [|split].
  - apply (proj1 (find_phone_after_methods "0987654321"
                    (snd (add_phone "1234567890" (Record_init "Ann"))))).
    vm_compute. reflexivity.
  - exact (proj1 (proj2 (find_phone_after_methods "1234567890"
                           (snd (add_phone "1234567890" (Record_init "Ann")))))).
  - apply (proj2 (proj2 (find_phone_after_methods "0987654321"
                           (snd (add_phone "1234567890" (Record_init "Ann")))))).
    vm_compute. reflexivity.
Defined.

(* ------------------------------------------------------------------ *)
(** ** Lemmas on the errors of the methods *)

Lemma phone_init_err (number : string) (e : exn) :
  Phone_init number = Err e -> exists msg, e = ValueError msg.
Proof.
  unfold Phone_init. destruct (validate_number number) eqn:E; simpl; [discriminate|].
  intros H; inversion H; subst. exact (validate_number_err _ _ E).
Qed.

Lemma add_phone_err (number : string) (self : record) (e : exn) :
  fst (add_phone number self) = Err e -> exists msg, e = ValueError msg.
Proof.
  unfold add_phone. destruct (existsb _ _); simpl; [intros H; inversion H; eauto|].
  destruct (Phone_init number) eqn:E; simpl; [discriminate|].
  intros H; inversion H; subst. exact (phone_init_err _ _ E).
Qed.

Lemma edit_phone_err (old_phone new_phone : string) (self : record) (e : exn) :
  fst (edit_phone old_phone new_phone self) = Err e -> exists msg, e = ValueError msg.
Proof.
  unfold edit_phone. destruct (find_index _ _); simpl; [|intros H; inversion H; eauto].
  destruct (Phone_init new_phone) eqn:E; simpl; [discriminate|].
  intros H; inversion H; subst. exact (phone_init_err _ _ E).
Qed.

Lemma birthday_init_err (s : string) (e : exn) :
  Birthday_init s = Err e -> exists msg, e = ValueError msg.
Proof.
  unfold Birthday_init. destruct (strptime_dmy s) as [d|e'] eqn:E; [discriminate|].
  destruct (strptime_err s e' E) as [m ->]. intros H; inversion H; eauto.
Qed.

Lemma add_birthday_err (date_str : string) (self : record) (e : exn) :
  fst (add_birthday date_str self) = Err e -> exists msg, e = ValueError msg.
Proof.
  unfold add_birthday. destruct (Birthday_init date_str) eqn:E; simpl; [discriminate|].
  intros H; inversion H; subst. exact (birthday_init_err _ _ E).
Qed.

Lemma except_mk_date_err (a b c a' b' c' : Z) (e : exn) :
  except_value_error (mk_date a b c) (mk_date a' b' c') = Err e -> exists msg, e = ValueError msg.
Proof.
  destruct (mk_date a b c) as [x|e0] eqn:E; simpl; [discriminate|].
  destruct e0; [apply mk_date_err|intros H; inversion H; subst; exact (mk_date_err _ _ _ _ E)..].
Qed.

Lemma resolve_err (today bd : date) (e : exn) :
  resolve today bd = Err e -> exists msg, e = ValueError msg.
Proof.
  unfold resolve, replace_year, replace_year_day.
  destruct (except_value_error (mk_date _ _ _) _) as [b1|e1] eqn:E1; simpl.
  - destruct (date_lt b1 today); [apply except_mk_date_err|discriminate].
  - intros H; inversion H; subst. exact (except_mk_date_err _ _ _ _ _ _ _ E1).
Qed.

(** Only [ValueError] can abort the birthday scan: the weekend shift never
    overflows. *)
Lemma upcoming_entries_err (today : date) (r : record) (e : exn) :
  upcoming_entries today r = Err e -> exists msg, e = ValueError msg.
Proof.
  unfold upcoming_entries. destruct (birthday r) as [b|]; [|discriminate].
  destruct (strptime_dmy (birthday_value b)) as [bd|e1] eqn:E1; simpl;
    [|intros H; inversion H; subst; exact (strptime_err _ _ E1)].
  destruct (resolve today bd) as [rd|e2] eqn:E2; simpl;
    [|intros H; inversion H; subst; exact (resolve_err _ _ _ E2)].
  destruct (_ && _); [|discriminate].
  destruct (greet_of_spec rd (resolve_valid _ _ _ E2)) as (g & -> & _). discriminate.
Qed.

Lemma scan_err (today : date) (rs : list record) (e : exn) :
  scan today rs = Err e -> exists msg, e = ValueError msg.
Proof.
  induction rs as [|r t IH]; simpl; [discriminate|].
  destruct (upcoming_entries today r) as [x|e1] eqn:E1; simpl;
    [|intros H; inversion H; subst; exact (upcoming_entries_err _ _ _ E1)].
  destruct (scan today t) as [y|e2]; simpl; [discriminate|].
  intros H; inversion H; subst. apply IH. reflexivity.
Qed.

(* ------------------------------------------------------------------ *)
(** ** Lemmas on the handlers *)

Lemma wrap_caught (h : hresult * AddressBook) :
  (forall e, fst h = Raised (Raise e) -> exists msg, e = ValueError msg \/ e = KeyError msg) ->
  exists s, fst (wrap h) = Return s.
Proof.
  destruct h as [[s|[e|m]] b]; simpl; intros H; eauto.
  destruct (H e eq_refl) as [m [-> | ->]]; simpl; eauto.
Qed.

Ltac raised_value :=
  let e := fresh "e" in let H := fresh "H" in
  intros e H; simpl in H; inversion H; subst; solve [eauto].

Lemma add_contact_caught (args : list string) (book : AddressBook) :
  exists s, fst (wrap (Handlers.add_contact args book)) = Return s.
Proof.
  apply wrap_caught. unfold Handlers.add_contact.
  destruct args as [|name [|phone rest]]; [raised_value|raised_value|].
  destruct (find name book) as [r|];
  [ destruct (negb _); [|raised_value];
    destruct (add_phone phone r) as [res r'] eqn:E
  | destruct (negb _); [|raised_value];
    destruct (add_phone phone (Record_init name)) as [res r'] eqn:E ];
  (destruct res as [u|[m|m|m]]; [raised_value|raised_value|raised_value|]);
  intros e H; simpl in H; inversion H; subst;
  match type of E with add_phone ?n ?r = _ =>
    destruct (add_phone_err n r (OverflowError m)) as [? ?]; [rewrite E; reflexivity|discriminate]
  end.
Qed.

Lemma change_phone_caught (args : list string) (book : AddressBook) :
  exists s, fst (wrap (Handlers.change_phone args book)) = Return s.
Proof.
  apply wrap_caught. unfold Handlers.change_phone.
  destruct args as [|name [|old_phone [|new_phone [|x rest]]]];
    try (unfold unpack_exact; destruct (_ <? _)%nat; raised_value).
  destruct (find name book) as [r|]; [|raised_value].
  destruct (edit_phone old_phone new_phone r) as [res r'] eqn:E.
  destruct res as [u|e0]; [raised_value|].
  intros e H; simpl in H; inversion H; subst.
  destruct (edit_phone_err old_phone new_phone r e) as [m ->]; [rewrite E; reflexivity|eauto].
Qed.

Lemma add_birthday_caught (args : list string) (book : AddressBook) :
  exists s, fst (wrap (Handlers.add_birthday args book)) = Return s.
Proof.
  apply wrap_caught. unfold Handlers.add_birthday.
  destruct args as [|name [|date_str [|x rest]]];
    try (unfold unpack_exact; destruct (_ <? _)%nat; raised_value).
  destruct (find name book) as [r|]; [|raised_value].
  destruct (add_birthday date_str r) as [res r'] eqn:E.
  destruct res as [u|e0]; [raised_value|].
  intros e H; simpl in H; inversion H; subst.
  destruct (add_birthday_err date_str r e) as [m ->]; [rewrite E; reflexivity|eauto].
Qed.

Lemma show_phones_caught (args : list string) (book : AddressBook) :
  exists s, fst (wrap (Handlers.show_phones args book)) = Return s.
Proof.
  apply wrap_caught. unfold Handlers.show_phones.
  destruct args as [|name rest]; [raised_value|].
  destruct (find name book); raised_value.
Qed.

Lemma show_all_caught (book : AddressBook) :
  exists s, fst (wrap (Handlers.show_all book)) = Return s.
Proof. apply wrap_caught. unfold Handlers.show_all. destruct book; raised_value. Qed.

Lemma show_birthday_caught (args : list string) (book : AddressBook) :
  exists s, fst (wrap (Handlers.show_birthday args book)) = Return s.
Proof.
  apply wrap_caught. unfold Handlers.show_birthday.
  destruct args as [|name rest]; [raised_value|].
  destruct (find name book) as [r|]; [|raised_value].
  destruct (birthday r) as [b|]; [|raised_value].
  destruct (strptime_dmy (birthday_value b)) as [d|e0] eqn:E; [raised_value|].
  intros e H; simpl in H; inversion H; subst.
  destruct (strptime_err _ _ E) as [m ->]. eauto.
Qed.

Lemma birthdays_caught (w : world) (args : list string) (book : AddressBook) :
  exists s, fst (wrap (Handlers.birthdays w args book)) = Return s.
Proof.
  apply wrap_caught. unfold Handlers.birthdays, get_upcoming_birthdays.
  destruct (scan (clock_today w) (map snd book)) as [[|x t]|e0] eqn:E; try raised_value.
  intros e H; simpl in H; inversion H; subst.
  destruct (scan_err _ _ _ E) as [m ->]. eauto.
Qed.

Lemma main_step_inl (w : world) (user_input : string) (book : AddressBook) :
  exists out book' brk, main_step w user_input book = inl (out, book', brk).
Proof.
  unfold main_step. destruct (parse_input user_input) as [command args]. cbv zeta.
  repeat match goal with
  | |- context [if ?b then _ else _] => destruct b
  end; eauto;
  match goal with
  | |- context [wrap ?h] =>
      let Hs := fresh "Hs" in
      lazymatch h with
      | Handlers.add_contact ?a ?b => destruct (add_contact_caught a b) as [s Hs]
      | Handlers.change_phone ?a ?b => destruct (change_phone_caught a b) as [s Hs]
      | Handlers.show_phones ?a ?b => destruct (show_phones_caught a b) as [s Hs]
      | Handlers.show_all ?b => destruct (show_all_caught b) as [s Hs]
      | Handlers.add_birthday ?a ?b => destruct (add_birthday_caught a b) as [s Hs]
      | Handlers.show_birthday ?a ?b => destruct (show_birthday_caught a b) as [s Hs]
      | Handlers.birthdays ?w ?a ?b => destruct (birthdays_caught w a b) as [s Hs]
      end;
      destruct (wrap h) as [[s'|r] b]; simpl in Hs; [eauto|discriminate]
  end.
Qed.

Lemma main_loop_ends (inputs : list (world * string)) (book : AddressBook) :
  snd (fst (main_loop inputs book)) = Exited \/ snd (fst (main_loop inputs book)) = UncaughtEOFError.
Proof.
  revert book. induction inputs as [|[w line] rest IH]; intros book; simpl; [right; reflexivity|].
  destruct (main_step_inl w line book) as (out & book' & brk & ->).
  destruct brk; simpl; [left; reflexivity|].
  specialize (IH book'). destruct (main_loop rest book') as [[outs e] b'']. exact IH.
Qed.

(* ------------------------------------------------------------------ *)
(** ** Lemmas on the invariant of the book *)

Lemma NoDup_app_single (l : list string) (k : string) :
  List.NoDup l -> ~ In k l -> List.NoDup (l ++ [k]).
Proof.
  induction l as [|x t IH]; simpl; intros Hd Hk.
  - constructor; [intros []|constructor].
  - inversion Hd; subst. constructor.
    + rewrite in_app_iff. intros [H|[H|[]]]; [contradiction|subst; tauto].
    + apply IH; tauto.
Qed.

Lemma in_setitem (k : string) (v : record) (d : AddressBook) kv :
  In kv (dict_setitem k v d) -> kv = (k, v) \/ In kv d.
Proof.
  induction d as [|[k0 v0] t IH]; simpl.
  - intros [H|[]]; left; congruence.
  - destruct (String.eqb k0 k); simpl.
    + intros [H|H]; [left; congruence|right; right; exact H].
    + intros [H|H]; [right; left; exact H|]. destruct (IH H); tauto.
Qed.

Lemma setitem_inv (k : string) (v : record) (ab : AddressBook) :
  cli_inv ab -> name v = k -> record_ok v -> cli_inv (dict_setitem k v ab).
Proof.
  intros [[Hnd Hnames] Hok] Hk Hv. split; [split|].
  - apply NoDup_ListNoDup. rewrite setitem_keys.
    apply NoDup_ListNoDup in Hnd.
    destruct (existsb (String.eqb k) (map fst ab)) eqn:E; [exact Hnd|].
    apply NoDup_app_single; [exact Hnd|]. intros Hin.
    apply existsb_eqb_in in Hin. congruence.
  - apply List.Forall_forall. intros kv Hin. destruct (in_setitem _ _ _ _ Hin) as [->|Hin'].
    + simpl. congruence.
    + exact (proj1 (List.Forall_forall _ _) Hnames kv Hin').
  - apply List.Forall_forall. intros kv Hin. destruct (in_setitem _ _ _ _ Hin) as [->|Hin'].
    + exact Hv.
    + exact (proj1 (List.Forall_forall _ _) Hok kv Hin').
Qed.

Lemma find_inv (n : string) (r : record) (ab : AddressBook) :
  cli_inv ab -> find n ab = Some r -> name r = n /\ record_ok r.
Proof.
  intros [[_ Hnames] Hok] Hf. apply find_in in Hf. split.
  - exact (eq_sym (proj1 (List.Forall_forall _ _) Hnames _ Hf)).
  - exact (proj1 (List.Forall_forall _ _) Hok _ Hf).
Qed.

Lemma record_init_ok (n : string) : record_ok (Record_init n).
Proof. split; [constructor|discriminate]. Qed.

Lemma phone_init_ok (number : string) (p : Phone) : Phone_init number = Ok p -> phone_ok p.
Proof.
  intros H. apply phone_init_validate in H. unfold phone_ok.
  pose proof (validate_number_ok _ _ H) as E. rewrite E in H |- *. exact H.
Qed.

Lemma add_phone_ok (number : string) (r : record) :
  record_ok r -> record_ok (snd (add_phone number r)) /\ name (snd (add_phone number r)) = name r.
Proof.
  intros [Hp Hb]. unfold add_phone. destruct (existsb _ _); simpl; [split; [split|]; auto|].
  destruct (Phone_init number) as [p|e] eqn:E; simpl; [|split; [split|]; auto].
  split; [split|reflexivity].
  - apply Forall_app; split; [exact Hp|constructor; [exact (phone_init_ok _ _ E)|constructor]].
  - exact Hb.
Qed.

Lemma edit_phone_ok (old_phone new_phone : string) (r : record) :
  record_ok r -> record_ok (snd (edit_phone old_phone new_phone r))
                 /\ name (snd (edit_phone old_phone new_phone r)) = name r.
Proof.
  intros [Hp Hb]. unfold edit_phone. destruct (find_index _ _); simpl; [|split; [split|]; auto].
  destruct (Phone_init new_phone) as [p|e] eqn:E; simpl; [|split; [split|]; auto].
  split; [split|reflexivity].
  - apply Forall_insert; [exact Hp|exact (phone_init_ok _ _ E)].
  - exact Hb.
Qed.

Lemma add_birthday_ok (date_str : string) (r : record) :
  record_ok r -> record_ok (snd (add_birthday date_str r))
                 /\ name (snd (add_birthday date_str r)) = name r.
Proof.
  intros [Hp Hb]. unfold add_birthday. destruct (Birthday_init date_str) as [b|e] eqn:E; simpl;
    [|split; [split|]; auto].
  split; [split|reflexivity]; [exact Hp|].
  intros b' H; inversion H; subst. destruct (birthday_init_parses _ _ E) as [-> Hd]. exact Hd.
Qed.

Lemma add_contact_inv (args : list string) (book : AddressBook) :
  cli_inv book -> cli_inv (snd (Handlers.add_contact args book)).
Proof.
  intros Hinv. unfold Handlers.add_contact.
  destruct args as [|name [|phone rest]]; [exact Hinv|exact Hinv|].
  destruct (find name book) as [r|] eqn:Ef.
  - destruct (find_inv _ _ _ Hinv Ef) as [Hn Hok].
    destruct (negb _); [|exact Hinv].
    destruct (add_phone_ok phone r Hok) as [Hok' Hn'].
    destruct (add_phone phone r) as [res r'] eqn:E. simpl in Hok', Hn'.
    assert (cli_inv (dict_setitem name r' book)) by (apply setitem_inv; auto; congruence).
    destruct res as [u|[m|m|m]]; assumption.
  - assert (Hinv1 : cli_inv (add_record (Record_init name) book))
      by (apply setitem_inv; [exact Hinv|reflexivity|apply record_init_ok]).
    destruct (negb _); [|exact Hinv1].
    destruct (add_phone_ok phone (Record_init name) (record_init_ok name)) as [Hok' Hn'].
    destruct (add_phone phone (Record_init name)) as [res r'] eqn:E. simpl in Hok', Hn'.
    assert (cli_inv (dict_setitem name r' (add_record (Record_init name) book)))
      by (apply setitem_inv; auto).
    destruct res as [u|[m|m|m]]; assumption.
Qed.

Lemma change_phone_inv (args : list string) (book : AddressBook) :
  cli_inv book -> cli_inv (snd (Handlers.change_phone args book)).
Proof.
  intros Hinv. unfold Handlers.change_phone.
  destruct args as [|name [|old_phone [|new_phone [|x rest]]]]; try exact Hinv.
  destruct (find name book) as [r|] eqn:Ef; [|exact Hinv].
  destruct (find_inv _ _ _ Hinv Ef) as [Hn Hok].
  destruct (edit_phone_ok old_phone new_phone r Hok) as [Hok' Hn'].
  destruct (edit_phone old_phone new_phone r) as [res r'] eqn:E. simpl in Hok', Hn' |- *.
  apply setitem_inv; auto; congruence.
Qed.

Lemma add_birthday_inv (args : list string) (book : AddressBook) :
  cli_inv book -> cli_inv (snd (Handlers.add_birthday args book)).
Proof.
  intros Hinv. unfold Handlers.add_birthday.
  destruct args as [|name [|date_str [|x rest]]]; try exact Hinv.
  destruct (find name book) as [r|] eqn:Ef; [|exact Hinv].
  destruct (find_inv _ _ _ Hinv Ef) as [Hn Hok].
  destruct (add_birthday_ok date_str r Hok) as [Hok' Hn'].
  destruct (add_birthday date_str r) as [res r'] eqn:E. simpl in Hok', Hn' |- *.
  apply setitem_inv; auto; congruence.
Qed.

Lemma show_phones_book (args : list string) (book : AddressBook) :
  snd (Handlers.show_phones args book) = book.
Proof. unfold Handlers.show_phones. destruct args; [|destruct (find _ _)]; reflexivity. Qed.

Lemma show_all_book (book : AddressBook) : snd (Handlers.show_all book) = book.
Proof. unfold Handlers.show_all. destruct book; reflexivity. Qed.

Lemma show_birthday_book (args : list string) (book : AddressBook) :
  snd (Handlers.show_birthday args book) = book.
Proof.
  unfold Handlers.show_birthday. destruct args as [|name rest]; [reflexivity|].
  destruct (find name book) as [r|]; [|reflexivity].
  destruct (birthday r) as [b|]; [|reflexivity].
  destruct (strptime_dmy _); reflexivity.
Qed.

Lemma birthdays_book (w : world) (args : list string) (book : AddressBook) :
  snd (Handlers.birthdays w args book) = book.
Proof.
  unfold Handlers.birthdays. destruct (get_upcoming_birthdays w book) as [[|x t]|e]; reflexivity.
Qed.

Lemma main_step_inv (w : world) (user_input : string) (book book' : AddressBook)
  (out : string) (brk : bool) :
  cli_inv book -> main_step w user_input book = inl (out, book', brk) -> cli_inv book'.
Proof.
  intros Hinv. unfold main_step. destruct (parse_input user_input) as [command args]. cbv zeta.
  repeat match goal with
  | |- context [if ?b then _ else _] => destruct b
  end;
  try (intros H; inversion H; subst; exact Hinv);
  match goal with
  | |- context [wrap ?h] =>
      let Hl := fresh "Hl" in
      lazymatch h with
      | Handlers.add_contact ?a ?b => pose proof (add_contact_inv a b Hinv) as Hl
      | Handlers.change_phone ?a ?b => pose proof (change_phone_inv a b Hinv) as Hl
      | Handlers.show_phones ?a ?b => pose proof (show_phones_book a b) as Hl
      | Handlers.show_all ?b => pose proof (show_all_book b) as Hl
      | Handlers.add_birthday ?a ?b => pose proof (add_birthday_inv a b Hinv) as Hl
      | Handlers.show_birthday ?a ?b => pose proof (show_birthday_book a b) as Hl
      | Handlers.birthdays ?w ?a ?b => pose proof (birthdays_book w a b) as Hl
      end;
      unfold wrap; destruct h as [[s|[[m|m|m]|m]] b0]; simpl in Hl |- *;
      intros H; inversion H; subst; first [exact Hl | exact Hinv]
  end.
Qed.

Lemma main_loop_inv (inputs : list (world * string)) (book : AddressBook) :
  cli_inv book -> cli_inv (snd (main_loop inputs book)).
Proof.
  revert book. induction inputs as [|[w line] rest IH]; intros book Hinv; simpl; [exact Hinv|].
  destruct (main_step_inl w line book) as (out & book' & brk & E). rewrite E.
  pose proof (main_step_inv _ _ _ _ _ _ Hinv E) as Hinv'.
  destruct brk; simpl; [exact Hinv'|].
  specialize (IH book' Hinv'). destruct (main_loop rest book') as [[outs e] b'']. exact IH.
Qed.

(* ------------------------------------------------------------------ *)
(** ** Properties of the command loop *)

(** The loop ends in one of two ways only: on [close] or [exit]
    ([Exited]), or when the input runs out, where [input()] raises an
    [EOFError] that nothing catches and the program stops with a traceback
    ([UncaughtEOFError]). No exception raised by a command ([ValueError],
    [KeyError], [IndexError]) escapes the loop: [input_error] turns each
    into a message, and the weekend shift never overflows. *)
Theorem main_ends_by_exit_or_eof :
  forall inputs : list (world * string),
    snd (main inputs) = Exited \/ snd (main inputs) = UncaughtEOFError.
Proof.
  intros inputs. unfold main.
  pose proof (main_loop_ends inputs []) as H.
  destruct (main_loop inputs []) as [[outs e] b]. exact H.
Qed.

(** Whatever the commands, the book the loop builds keeps its shape: each
    contact is stored under its own name, names are unique, every stored
    phone passes [validate_number] (ten characters, [isdigit]), and every
    stored birthday string parses with [strptime]. *)
Theorem main_loop_book_invariant :
  forall inputs : list (world * string), cli_inv (snd (main_loop inputs [])).
Proof.
  intros inputs. apply main_loop_inv. split; [split|]; constructor.
Qed.

(* ------------------------------------------------------------------ *)
(** ** Properties of the command handlers *)

(** [add NAME PHONE] for a new name with an invalid phone still creates the
    contact (with no phone) and prints the validation message instead of
    ["Contact added."]. *)
Theorem add_contact_new_invalid_phone :
  forall (name phone : string) (rest : list string) (book : AddressBook) (msg : string),
    find name book = None -> phone <> "" ->
    validate_number phone = Err (ValueError msg) ->
    wrap (Handlers.add_contact (name :: phone :: rest) book)
    = (Return msg, add_record (Record_init name) book).
Proof.
  intros name phone rest book msg Hf Hne Hv. unfold Handlers.add_contact. rewrite Hf.
  apply String.eqb_neq in Hne. rewrite Hne. simpl negb. cbv iota beta.
  assert (add_phone phone (Record_init name) = (Err (ValueError msg), Record_init name)) as ->.
  { unfold add_phone, Phone_init. simpl. rewrite Hv. reflexivity. }
  unfold wrap. simpl fst. simpl snd.
  rewrite setitem_found; [reflexivity|].
  unfold add_record. rewrite find_setitem. simpl. rewrite String.eqb_refl. reflexivity.
Qed.

Lemma add_contact_new_invalid_phone_witness :
  find "Ann" [] = None /\ "12345" <> "" /\
  validate_number "12345" = Err (ValueError "Phone number must contain 10 digits") /\
  wrap (Handlers.add_contact ["Ann"; "12345"] [])
  = (Return "Phone number must contain 10 digits", add_record (Record_init "Ann") []).
Proof.
  assert (H1 : find "Ann" [] = None) by reflexivity.
  assert (H2 : "12345" <> "") by discriminate.
  assert (H3 : validate_number "12345" = Err (ValueError "Phone number must contain 10 digits"))
    by reflexivity.
  split; [exact H1|]. split; [exact H2|]. split; [exact H3|].
  exact (add_contact_new_invalid_phone "Ann" "12345" [] [] _ H1 H2 H3).
Defined.

(** A command with the wrong number of arguments prints Python's
    unpacking or indexing message and leaves the book unchanged; in
    particular [add NAME] without a phone creates no contact. *)
Theorem handlers_wrong_arity :
  forall (args : list string) (book : AddressBook),
    ((length args < 2)%nat ->
       wrap (Handlers.add_contact args book)
       = (Return ("not enough values to unpack (expected at least 2, got "
                  ++ small_nat_str (length args) ++ ")"), book))
    /\ (length args <> 3%nat ->
       wrap (Handlers.change_phone args book)
       = (Return (if (length args <? 3)%nat
                  then "not enough values to unpack (expected 3, got "
                       ++ small_nat_str (length args) ++ ")"
                  else "too many values to unpack (expected 3)"), book))
    /\ (length args <> 2%nat ->
       wrap (Handlers.add_birthday args book)
       = (Return (if (length args <? 2)%nat
                  then "not enough values to unpack (expected 2, got "
                       ++ small_nat_str (length args) ++ ")"
                  else "too many values to unpack (expected 2)"), book))
    /\ (args = [] ->
       wrap (Handlers.show_phones args book) = (Return "list index out of range", book)
       /\ wrap (Handlers.show_birthday args book) = (Return "list index out of range", book)).
Proof.
  intros args book. split; [|split; [|split]].
  - intros H. destruct args as [|a [|b t]]; simpl in H; [reflexivity|reflexivity|lia].
  - intros H. unfold Handlers.change_phone.
    destruct args as [|a [|b [|c [|d t]]]]; simpl in H; try reflexivity; lia.
  - intros H. unfold Handlers.add_birthday.
    destruct args as [|a [|b [|c t]]]; simpl in H; try reflexivity; lia.
  - intros ->. split; reflexivity.
Qed.

Lemma handlers_wrong_arity_witness :
  wrap (Handlers.add_contact ["Ann"] [])
    = (Return "not enough values to unpack (expected at least 2, got 1)", [])
  /\ wrap (Handlers.change_phone ["Ann"; "1"; "2"; "3"] [])
    = (Return "too many values to unpack (expected 3)", [])
  /\ wrap (Handlers.add_birthday ["Ann"] [])
    = (Return "not enough values to unpack (expected 2, got 1)", [])
  /\ wrap (Handlers.show_phones [] []) = (Return "list index out of range", [])
  /\ wrap (Handlers.show_birthday [] []) = (Return "list index out of range", []).
Proof.
  split; [rewrite (proj1 (handlers_wrong_arity ["Ann"] []) ltac:(simpl; lia)); reflexivity|].
  split; [rewrite (proj1 (proj2 (handlers_wrong_arity ["Ann"; "1"; "2"; "3"] []))
                     ltac:(simpl; lia)); reflexivity|].
  split; [rewrite (proj1 (proj2 (proj2 (handlers_wrong_arity ["Ann"] [])))
                     ltac:(simpl; lia)); reflexivity|].
  exact (proj2 (proj2 (proj2 (handlers_wrong_arity [] []))) eq_refl).
Defined.

(** A name that is not in the book: [change], [phone] and [add-birthday]
    print [str(KeyError("Contact not found."))], which is the message in
    single quotes, while [show-birthday] prints ["Birthday not found."];
    the book is unchanged. *)
Theorem missing_contact_messages :
  forall (name old_phone new_phone date_str : string) (rest : list string) (book : AddressBook),
    find name book = None ->
    wrap (Handlers.change_phone [name; old_phone; new_phone] book)
      = (Return "'Contact not found.'", book)
    /\ wrap (Handlers.show_phones (name :: rest) book) = (Return "'Contact not found.'", book)
    /\ wrap (Handlers.add_birthday [name; date_str] book) = (Return "'Contact not found.'", book)
    /\ wrap (Handlers.show_birthday (name :: rest) book) = (Return "Birthday not found.", book).
Proof.
  intros name old_phone new_phone date_str rest book Hf.
  unfold Handlers.change_phone, Handlers.show_phones, Handlers.add_birthday,
    Handlers.show_birthday.
  rewrite Hf. repeat split.
Qed.

Lemma missing_contact_messages_witness :
  wrap (Handlers.change_phone ["Bob"; "1234567890"; "0987654321"] [])
    = (Return "'Contact not found.'", [])
  /\ wrap (Handlers.show_phones ["Bob"] []) = (Return "'Contact not found.'", [])
  /\ wrap (Handlers.add_birthday ["Bob"; "01.01.2000"] []) = (Return "'Contact not found.'", [])
  /\ wrap (Handlers.show_birthday ["Bob"] []) = (Return "Birthday not found.", []).
Proof.
  exact (missing_contact_messages "Bob" "1234567890" "0987654321" "01.01.2000" [] []
           eq_refl).
Defined.

(** [change] and [add-birthday] that raise leave the book as it was
    (the record is only replaced once the new [Phone] or [Birthday] is
    built), unlike [add] on a new name. *)
Theorem failed_edit_keeps_book :
  forall (args : list string) (book : AddressBook) (r : raised),
    (fst (Handlers.change_phone args book) = Raised r -> snd (Handlers.change_phone args book) = book)
    /\ (fst (Handlers.add_birthday args book) = Raised r ->
        snd (Handlers.add_birthday args book) = book).
Proof.
  intros args book r. split.
  - unfold Handlers.change_phone.
    destruct args as [|name [|old_phone [|new_phone [|x rest]]]]; try reflexivity.
    destruct (find name book) as [rc|] eqn:Ef; [|reflexivity].
    unfold edit_phone. destruct (find_index _ _); [destruct (Phone_init new_phone)|];
      simpl; try discriminate; intros _; apply setitem_found, Ef.
  - unfold Handlers.add_birthday.
    destruct args as [|name [|date_str [|x rest]]]; try reflexivity.
    destruct (find name book) as [rc|] eqn:Ef; [|reflexivity].
    unfold add_birthday. destruct (Birthday_init date_str); simpl; try discriminate.
    intros _; apply setitem_found, Ef.
Qed.

Lemma failed_edit_keeps_book_witness :
  fst (Handlers.change_phone ["Ann"; "1"; "2"] [("Ann", Record_init "Ann")])
    = Raised (Raise (ValueError "Phone '1' not found for contact 'Ann'."))
  /\ snd (Handlers.change_phone ["Ann"; "1"; "2"] [("Ann", Record_init "Ann")])
    = [("Ann", Record_init "Ann")]
  /\ fst (Handlers.add_birthday ["Ann"; "31.02.2000"] [("Ann", Record_init "Ann")])
    = Raised (Raise (ValueError "Invalid date format. Use DD.MM.YYYY"))
  /\ snd (Handlers.add_birthday ["Ann"; "31.02.2000"] [("Ann", Record_init "Ann")])
    = [("Ann", Record_init "Ann")].
Proof.
  assert (H1 : fst (Handlers.change_phone ["Ann"; "1"; "2"] [("Ann", Record_init "Ann")])
               = Raised (Raise (ValueError "Phone '1' not found for contact 'Ann'.")))
    by (vm_compute; reflexivity).
  assert (H2 : fst (Handlers.add_birthday ["Ann"; "31.02.2000"] [("Ann", Record_init "Ann")])
               = Raised (Raise (ValueError "Invalid date format. Use DD.MM.YYYY")))
    by (vm_compute; reflexivity).
  split; [exact H1|]. split.
  - exact (proj1 (failed_edit_keeps_book ["Ann"; "1"; "2"] [("Ann", Record_init "Ann")] _) H1).
  - split; [exact H2|].
    exact (proj2 (failed_edit_keeps_book ["Ann"; "31.02.2000"] [("Ann", Record_init "Ann")] _) H2).
Defined.

(* ------------------------------------------------------------------ *)
(** ** Lemmas on [strftime] *)

Lemma code_digit_char (k : Z) : 0 <= k <= 9 -> code (digit_char k) = 48 + k.
Proof.
  intros Hk.
  assert (k = 0 \/ k = 1 \/ k = 2 \/ k = 3 \/ k = 4 \/ k = 5 \/ k = 6 \/ k = 7 \/ k = 8 \/ k = 9)
    as Hc by lia.
  repeat destruct Hc as [->|Hc]; try reflexivity. subst. reflexivity.
Qed.

Lemma is_digit_digit_char (k : Z) : 0 <= k <= 9 -> is_ascii_digit (digit_char k) = true.
Proof.
  intros Hk. unfold is_ascii_digit. rewrite code_digit_char by exact Hk.
  apply andb_true_iff; split; apply Z.leb_le; lia.
Qed.

Lemma digit_char_code_b (c : ascii) :
  implb (is_ascii_digit c) (Ascii.eqb (digit_char (code c - 48)) c) = true.
Proof. revert c. apply all_ascii_1. vm_compute. reflexivity. Qed.

Lemma digit_char_code (c : ascii) : is_ascii_digit c = true -> digit_char (code c - 48) = c.
Proof. intros H. apply Ascii.eqb_eq, (implb_mp _ _ (digit_char_code_b c) H). Qed.

Lemma digit_code_range (c : ascii) : is_ascii_digit c = true -> 48 <= code c <= 57.
Proof. unfold is_ascii_digit. intros H. apply andb_true_iff in H as [H1 H2]. lia. Qed.

Lemma py_int_pad2 (z : Z) : 0 <= z <= 99 -> py_int (pad2 z) = z.
Proof.
  intros Hz. unfold py_int, pad2. simpl.
  assert (0 <= (z / 10) mod 10 <= 9) by (pose proof (Z.mod_pos_bound (z / 10) 10); lia).
  assert (0 <= z mod 10 <= 9) by (pose proof (Z.mod_pos_bound z 10); lia).
  rewrite !is_digit_digit_char by lia. unfold digit_value.
  rewrite !code_digit_char by lia.
  Z.div_mod_to_equations. lia.
Qed.

Lemma day_form_pad2 (z : Z) : 0 <= z <= 99 -> day_form (pad2 z) = true /\ month_form (pad2 z) = true.
Proof.
  intros Hz. unfold pad2, day_form, month_form.
  assert (0 <= (z / 10) mod 10 <= 9) by (pose proof (Z.mod_pos_bound (z / 10) 10); lia).
  assert (0 <= z mod 10 <= 9) by (pose proof (Z.mod_pos_bound z 10); lia).
  rewrite !is_digit_digit_char by lia. split; reflexivity.
Qed.

Lemma no_dot_digits (s : string) :
  forallb is_ascii_digit (list_ascii_of_string s) = true -> no_dot s = true.
Proof.
  unfold no_dot. induction s as [|c s IH]; simpl; [reflexivity|].
  intros H. apply andb_true_iff in H as [Hc Hs]. rewrite (IH Hs), andb_true_r.
  apply digit_code_range in Hc. unfold ch_is. apply negb_true_iff, Z.eqb_neq. lia.
Qed.

Lemma pad2_digits (z : Z) : 0 <= z -> forallb is_ascii_digit (list_ascii_of_string (pad2 z)) = true.
Proof.
  intros Hz. unfold pad2. simpl.
  assert (0 <= (z / 10) mod 10 <= 9) by (pose proof (Z.mod_pos_bound (z / 10) 10); lia).
  assert (0 <= z mod 10 <= 9) by (pose proof (Z.mod_pos_bound z 10); lia).
  rewrite !is_digit_digit_char by lia. reflexivity.
Qed.

Lemma year_str_4 (y : Z) :
  1000 <= y <= 9999 -> Y_tok (year_str y) = true /\ py_int (year_str y) = y.
Proof.
  intros Hy. unfold year_str.
  rewrite (proj2 (Z.ltb_ge y 10)), (proj2 (Z.ltb_ge y 100)), (proj2 (Z.ltb_ge y 1000)) by lia.
  unfold pad2, Y_tok, py_int. simpl.
  assert (0 <= (y / 1000) mod 10 <= 9) by (pose proof (Z.mod_pos_bound (y / 1000) 10); lia).
  assert (0 <= (y / 100) mod 10 <= 9) by (pose proof (Z.mod_pos_bound (y / 100) 10); lia).
  assert (0 <= (y / 10) mod 10 <= 9) by (pose proof (Z.mod_pos_bound (y / 10) 10); lia).
  assert (0 <= y mod 10 <= 9) by (pose proof (Z.mod_pos_bound y 10); lia).
  rewrite !is_digit_digit_char by lia. split; [reflexivity|].
  unfold digit_value. rewrite !code_digit_char by lia.
  Z.div_mod_to_equations. lia.
Qed.

Lemma year_str_short (y : Z) : 0 <= y < 1000 -> (String.length (year_str y) <= 3)%nat.
Proof.
  intros Hy. unfold year_str.
  destruct (y <? 10); [simpl; lia|]. destruct (y <? 100); [simpl; lia|].
  rewrite (proj2 (Z.ltb_lt y 1000)) by lia. simpl. lia.
Qed.

Lemma strftime_shape (d : date) :
  strftime_dmy d = (pad2 (day d) ++ String "." (pad2 (month d) ++ String "." (year_str (year d) ++ "")))%string.
Proof. unfold strftime_dmy. rewrite str_app_nil. reflexivity. Qed.

(** Parsing the text of a date with 1000 <= year gives the date back. *)
Lemma strptime_strftime (d : date) :
  valid_date d -> 1000 <= year d -> strptime_dmy (strftime_dmy d) = Ok d.
Proof.
  destruct d as [y m dd]. unfold valid_date, MINYEAR, MAXYEAR; simpl. intros (Hy & Hm & Hd) H1000.
  pose proof (days_in_month_le_31 y m Hm) as H31.
  destruct (year_str_4 y ltac:(lia)) as [HY Hpy].
  apply strptime_ok_iff. exists (pad2 dd), (pad2 m), (year_str y). split.
  - apply dmy_matches_spec. split; [apply strftime_shape|]. split; [|split; [|exact HY]].
    + apply form_d_tok; [apply day_form_pad2; lia|rewrite py_int_pad2; lia].
    + apply form_m_tok; [apply day_form_pad2; lia|rewrite py_int_pad2; lia].
  - rewrite Hpy, !py_int_pad2 by lia. apply mk_date_intro.
    unfold valid_date, MINYEAR, MAXYEAR; simpl. lia.
Qed.

(** The text of a date with year below 1000 has fewer than four year
    digits, which [%Y] of [strptime] refuses. *)
Lemma strptime_strftime_short (d : date) :
  valid_date d -> year d < 1000 -> exists e, strptime_dmy (strftime_dmy d) = Err e.
Proof.
  destruct d as [y m dd]. unfold valid_date, MINYEAR, MAXYEAR; simpl. intros (Hy & Hm & Hd) H1000.
  destruct (strptime_dmy _) as [x|e] eqn:E; [exfalso|eauto].
  apply strptime_ok_iff in E as (d' & m' & y' & Hin & _).
  apply dmy_matches_spec in Hin as (Hs & Hd' & Hm' & Hy').
  rewrite strftime_shape in Hs. simpl in Hs.
  destruct (no_dot_split _ _ _ _ (no_dot_digits _ (pad2_digits dd ltac:(lia))) (d_tok_no_dot _ Hd') Hs)
    as [_ Hs2].
  destruct (no_dot_split _ _ _ _ (no_dot_digits _ (pad2_digits m ltac:(lia))) (m_tok_no_dot _ Hm') Hs2)
    as [_ Hs3].
  rewrite !str_app_nil in Hs3. subst y'.
  pose proof (Y_tok_length _ Hy'). pose proof (year_str_short y ltac:(lia)). lia.
Qed.

(* ------------------------------------------------------------------ *)
(** ** Properties of dates as text *)

(** [strftime("%d.%m.%Y")] followed by [strptime(..., "%d.%m.%Y")] gives
    the date back for the years 1000..9999; for a year below 1000 the
    printed year has fewer than four digits and [strptime] rejects the
    text. *)
Theorem strftime_then_strptime :
  forall d : date,
    valid_date d ->
    (1000 <= year d -> strptime_dmy (strftime_dmy d) = Ok d)
    /\ (year d < 1000 -> exists e, strptime_dmy (strftime_dmy d) = Err e).
Proof.
  intros d Hv. split; [apply strptime_strftime; exact Hv|apply strptime_strftime_short; exact Hv].
Qed.

Lemma strftime_then_strptime_witness :
  strptime_dmy (strftime_dmy (mkdate 2000 2 29)) = Ok (mkdate 2000 2 29)
  /\ exists e, strptime_dmy (strftime_dmy (mkdate 999 1 1)) = Err e.
Proof.
  assert (Hv : valid_date (mkdate 2000 2 29))
    by (unfold valid_date, MINYEAR, MAXYEAR; simpl;
        replace (_days_in_month 2000 2) with 29 by reflexivity; lia).
  assert (Hv' : valid_date (mkdate 999 1 1))
    by (unfold valid_date, MINYEAR, MAXYEAR; simpl;
        replace (_days_in_month 999 1) with 31 by reflexivity; lia).
  split.
  - apply (proj1 (strftime_then_strptime (mkdate 2000 2 29) Hv)). simpl. lia.
  - apply (proj2 (strftime_then_strptime (mkdate 999 1 1) Hv')). simpl. lia.
Defined.

Lemma ch_is_dot_b (c : ascii) : implb (ch_is 46 c) (Ascii.eqb c "."%char) = true.
Proof. revert c. apply all_ascii_1. vm_compute. reflexivity. Qed.

Lemma ch_is_dot (c : ascii) : ch_is 46 c = true -> c = "."%char.
Proof. intros H. apply Ascii.eqb_eq, (implb_mp _ _ (ch_is_dot_b c) H). Qed.

Lemma pad2_py_int (a b : ascii) :
  is_ascii_digit a = true -> is_ascii_digit b = true ->
  pad2 (py_int (String a (String b EmptyString))) = String a (String b EmptyString).
Proof.
  intros Ha Hb. pose proof (digit_code_range a Ha). pose proof (digit_code_range b Hb).
  unfold py_int. simpl. rewrite Ha, Hb. unfold pad2, digit_value.
  assert (((0 * 10 + (code a - 48)) * 10 + (code b - 48)) / 10 mod 10 = code a - 48) as ->
    by (Z.div_mod_to_equations; lia).
  assert (((0 * 10 + (code a - 48)) * 10 + (code b - 48)) mod 10 = code b - 48) as ->
    by (Z.div_mod_to_equations; lia).
  rewrite !digit_char_code by assumption. reflexivity.
Qed.

Lemma year_str_py_int (a b c d : ascii) :
  is_ascii_digit a = true -> is_ascii_digit b = true ->
  is_ascii_digit c = true -> is_ascii_digit d = true ->
  1000 <= py_int (String a (String b (String c (String d EmptyString)))) ->
  year_str (py_int (String a (String b (String c (String d EmptyString)))))
  = String a (String b (String c (String d EmptyString))).
Proof.
  intros Ha Hb Hc Hd. pose proof (digit_code_range a Ha). pose proof (digit_code_range b Hb).
  pose proof (digit_code_range c Hc). pose proof (digit_code_range d Hd).
  unfold py_int. simpl. rewrite Ha, Hb, Hc, Hd. unfold digit_value. intros H1000.
  set (y := ((((0 * 10 + (code a - 48)) * 10 + (code b - 48)) * 10 + (code c - 48)) * 10
             + (code d - 48))) in *.
  unfold year_str.
  rewrite (proj2 (Z.ltb_ge y 10)), (proj2 (Z.ltb_ge y 100)), (proj2 (Z.ltb_ge y 1000)) by lia.
  unfold pad2.
  assert ((y / 1000) mod 10 = code a - 48) as -> by (subst y; Z.div_mod_to_equations; lia).
  assert ((y / 100) mod 10 = code b - 48) as -> by (subst y; Z.div_mod_to_equations; lia).
  assert ((y / 10) mod 10 = code c - 48) as -> by (subst y; Z.div_mod_to_equations; lia).
  assert (y mod 10 = code d - 48) as -> by (subst y; Z.div_mod_to_equations; lia).
  rewrite !digit_char_code by assumption. reflexivity.
Qed.

Lemma strict_digits2 (a b : ascii) :
  is_ascii_digit a = true -> is_ascii_digit b = true -> no_dot (String a (String b EmptyString)) = true.
Proof. intros Ha Hb. apply no_dot_digits. simpl. rewrite Ha, Hb. reflexivity. Qed.

(** A strict [DD.MM.YYYY] text with year from 1000 is printed back as
    itself by [strftime] once parsed. *)
Lemma strftime_strict (s : string) (x : date) :
  strict_dmy_layout s = true -> strptime_dmy s = Ok x -> 1000 <= year x -> strftime_dmy x = s.
Proof.
  destruct s as [|c1 [|c2 [|c3 [|c4 [|c5 [|c6 [|c7 [|c8 [|c9 [|c10 [|c11 t]]]]]]]]]]];
    unfold strict_dmy_layout; simpl; intros Hl; try discriminate.
  repeat match goal with H : _ && _ = true |- _ => apply andb_true_iff in H as [? ?] end.
  repeat match goal with H : ch_is 46 ?c = true |- _ => apply ch_is_dot in H; subst c end.
  intros Hx Hy. apply strptime_ok_iff in Hx as (d' & m' & y' & Hin & Hmk).
  apply dmy_matches_spec in Hin as (Hs & Hd' & Hm' & Hy').
  destruct (no_dot_split (String c1 (String c2 EmptyString)) d' _ _
              (strict_digits2 c1 c2 ltac:(assumption) ltac:(assumption)) (d_tok_no_dot _ Hd') Hs)
    as [<- Hs2].
  destruct (no_dot_split (String c4 (String c5 EmptyString)) m' _ _
              (strict_digits2 c4 c5 ltac:(assumption) ltac:(assumption)) (m_tok_no_dot _ Hm') Hs2)
    as [<- Hs3].
  rewrite str_app_nil in Hs3. subst y'.
  destruct (mk_date_ok _ _ _ _ Hmk) as [-> _]. simpl in Hy.
  unfold strftime_dmy. simpl year. simpl month. simpl day.
  rewrite !pad2_py_int by assumption. rewrite year_str_py_int by assumption.
  reflexivity.
Qed.

(* ------------------------------------------------------------------ *)
(** ** Property of [add-birthday] and [show-birthday] *)

(** After [add-birthday NAME s] printed ["Birthday added."],
    [show-birthday NAME] prints ["Birthday: "] and the parsed date as
    [strftime("%d.%m.%Y")] writes it: zero-padded day and month, so ["1.1.2000"]
    comes back as ["01.01.2000"]; a strict [DD.MM.YYYY] text with year from
    1000 comes back unchanged. *)
Theorem add_then_show_birthday :
  forall (name s : string) (book book' : AddressBook),
    Handlers.add_birthday [name; s] book = (Return "Birthday added.", book') ->
    exists d, strptime_dmy s = Ok d
      /\ Handlers.show_birthday [name] book' = (Return ("Birthday: " ++ strftime_dmy d)%string, book')
      /\ (strict_dmy_layout s = true -> 1000 <= year d -> strftime_dmy d = s).
Proof.
  intros name s book book' H. unfold Handlers.add_birthday in H.
  destruct (find name book) as [r|] eqn:Ef; [|discriminate].
  destruct (add_birthday s r) as [res r'] eqn:E.
  destruct res as [u|e]; simpl in H; [|discriminate]. inversion H; subst book'.
  unfold add_birthday in E. destruct (Birthday_init s) as [b|e] eqn:Eb; [|discriminate].
  inversion E; subst r'.
  destruct (birthday_init_parses _ _ Eb) as [Hv [d Hd]].
  exists d. split; [exact Hd|]. split.
  - unfold Handlers.show_birthday. rewrite find_setitem, String.eqb_refl. simpl.
    rewrite Hv, Hd. reflexivity.
  - intros Hl Hy. exact (strftime_strict s d Hl Hd Hy).
Qed.

Lemma add_then_show_birthday_witness :
  Handlers.show_birthday ["Ann"] (snd (Handlers.add_birthday ["Ann"; "01.01.2000"]
                                         [("Ann", Record_init "Ann")]))
    = (Return "Birthday: 01.01.2000",
       snd (Handlers.add_birthday ["Ann"; "01.01.2000"] [("Ann", Record_init "Ann")]))
  /\ Handlers.show_birthday ["Ann"] (snd (Handlers.add_birthday ["Ann"; "1.1.2000"]
                                           [("Ann", Record_init "Ann")]))
    = (Return "Birthday: 01.01.2000",
       snd (Handlers.add_birthday ["Ann"; "1.1.2000"] [("Ann", Record_init "Ann")])).
Proof.
  split.
  - destruct (add_then_show_birthday "Ann" "01.01.2000" [("Ann", Record_init "Ann")]
                (snd (Handlers.add_birthday ["Ann"; "01.01.2000"] [("Ann", Record_init "Ann")]))
                ltac:(vm_compute; reflexivity)) as (d & Hd & Hs & Hstrict).
    assert (d = mkdate 2000 1 1) as -> by (vm_compute in Hd; congruence).
    rewrite Hs, (Hstrict ltac:(vm_compute; reflexivity) ltac:(simpl; lia)). reflexivity.
  - destruct (add_then_show_birthday "Ann" "1.1.2000" [("Ann", Record_init "Ann")]
                (snd (Handlers.add_birthday ["Ann"; "1.1.2000"] [("Ann", Record_init "Ann")]))
                ltac:(vm_compute; reflexivity)) as (d & Hd & Hs & _).
    assert (d = mkdate 2000 1 1) as -> by (vm_compute in Hd; congruence).
    rewrite Hs. vm_compute. reflexivity.
Defined.

(* ------------------------------------------------------------------ *)
(** ** Lemmas on [parse_input] *)

Lemma str_app_assoc (a b c : string) : ((a ++ b) ++ c)%string = (a ++ (b ++ c))%string.
Proof. induction a as [|x a IH]; simpl; [reflexivity|rewrite IH; reflexivity]. Qed.

Lemma list_ascii_app (a b : string) :
  list_ascii_of_string (a ++ b) = (list_ascii_of_string a ++ list_ascii_of_string b)%list.
Proof. induction a as [|x a IH]; simpl; [reflexivity|rewrite IH; reflexivity]. Qed.

Lemma split_run_word (w s cur : string) :
  no_space w = true -> split_run (w ++ s) cur = split_run s (cur ++ w).
Proof.
  unfold no_space. revert cur. induction w as [|c w IH]; intros cur Hw; simpl.
  - rewrite str_app_nil. reflexivity.
  - simpl in Hw. apply andb_true_iff in Hw as [Hc Hw]. apply negb_true_iff in Hc.
    rewrite Hc, IH by exact Hw. rewrite str_app_assoc. reflexivity.
Qed.

Lemma word_nonempty_eqb (w : string) : w <> "" -> String.eqb w "" = false.
Proof. intros H. apply String.eqb_neq, H. Qed.

Lemma split_run_space (s cur : string) :
  cur <> "" -> split_run (String " " s) cur = cur :: split_run s "".
Proof. intros H. simpl. rewrite word_nonempty_eqb by exact H. reflexivity. Qed.

Lemma split_concat (ws : list string) (w : string) :
  Forall (fun x => x <> "" /\ no_space x = true) (w :: ws) ->
  split_run (String.concat " " (w :: ws)) "" = w :: ws.
Proof.
  revert w. induction ws as [|w' ws IH]; intros w Hall;
    inversion Hall as [|x l [Hne Hns] Hrest]; subst.
  - simpl. rewrite <- (str_app_nil w) at 1. rewrite split_run_word by exact Hns.
    simpl. rewrite word_nonempty_eqb by exact Hne. reflexivity.
  - change (String.concat " " (w :: w' :: ws))
      with (w ++ String " " (String.concat " " (w' :: ws)))%string.
    rewrite split_run_word by exact Hns. rewrite split_run_space by exact Hne.
    rewrite IH by exact Hrest. reflexivity.
Qed.

Lemma no_space_last (w : string) :
  w <> "" -> no_space w = true ->
  exists l c, list_ascii_of_string w = (l ++ [c])%list /\ py_isspace c = false.
Proof.
  intros Hne Hns. destruct (list_ascii_of_string w) as [|a l] eqn:E.
  - destruct w; [contradiction|discriminate].
  - destruct (exists_last (l := a :: l) ltac:(discriminate)) as (l' & c & Hl).
    exists l', c. split; [exact Hl|].
    unfold no_space in Hns. rewrite E, Hl in Hns. apply forallb_forall with (x := c) in Hns.
    + apply negb_true_iff, Hns.
    + apply in_app_iff. right. left. reflexivity.
Qed.

Lemma concat_last (ws : list string) (w : string) :
  Forall (fun x => x <> "" /\ no_space x = true) (w :: ws) ->
  exists l c, list_ascii_of_string (String.concat " " (w :: ws)) = (l ++ [c])%list
              /\ py_isspace c = false.
Proof.
  revert w. induction ws as [|w' ws IH]; intros w Hall;
    inversion Hall as [|x l [Hne Hns] Hrest]; subst.
  - simpl. apply no_space_last; assumption.
  - change (String.concat " " (w :: w' :: ws))
      with (w ++ String " " (String.concat " " (w' :: ws)))%string.
    destruct (IH w' Hrest) as (l & c & Hl & Hc).
    exists (list_ascii_of_string w ++ " "%char :: l)%list, c. split; [|exact Hc].
    rewrite list_ascii_app. cbn [list_ascii_of_string]. rewrite Hl. rewrite <- app_assoc. reflexivity.
Qed.

Lemma py_strip_id (s : string) (c : ascii) (r : string) (l : list ascii) (c' : ascii) :
  s = String c r -> py_isspace c = false ->
  list_ascii_of_string s = (l ++ [c'])%list -> py_isspace c' = false ->
  py_strip s = s.
Proof.
  intros Hs Hc Hl Hc'. unfold py_strip.
  assert (lstrip s = s) as -> by (subst s; simpl; rewrite Hc; reflexivity).
  rewrite Hl, rev_unit. simpl. rewrite Hc'.
  simpl. rewrite list_ascii_of_string_of_list_ascii, rev_involutive, <- Hl.
  apply string_of_list_ascii_of_string.
Qed.

Lemma split_run_spaces (s cur : string) :
  forallb py_isspace (list_ascii_of_string s) = true ->
  split_run s cur = if String.eqb cur "" then [] else [cur].
Proof.
  revert cur. induction s as [|c s IH]; intros cur H; simpl; [reflexivity|].
  simpl in H. apply andb_true_iff in H as [Hc H]. rewrite Hc.
  destruct (String.eqb cur "") eqn:E; rewrite IH by exact H; reflexivity.
Qed.

Lemma lstrip_spaces (s : string) :
  forallb py_isspace (list_ascii_of_string s) = true -> lstrip s = "".
Proof.
  induction s as [|c s IH]; simpl; [reflexivity|].
  intros H. apply andb_true_iff in H as [Hc H]. rewrite Hc. apply IH, H.
Qed.

(* ------------------------------------------------------------------ *)
(** ** Properties of [parse_input] and the loop *)

(** [parse_input] splits a line into its words: for words without
    whitespace joined by single spaces it gives the first word in lower
    case and the others unchanged; a line of whitespace only gives
    [("", [])]. *)
Theorem parse_input_words :
  (forall (w : string) (ws : list string),
      Forall (fun x => x <> "" /\ no_space x = true) (w :: ws) ->
      parse_input (String.concat " " (w :: ws)) = (py_lower w, ws))
  /\ (forall s : string,
      forallb py_isspace (list_ascii_of_string s) = true -> parse_input s = ("", [])).
Proof.
  split.
  - intros w ws Hall. unfold parse_input, py_split.
    inversion Hall as [|x l [Hne Hns] Hrest]; subst.
    destruct w as [|c r]; [contradiction|].
    destruct (concat_last ws (String c r) Hall) as (l & c' & Hl & Hc').
    assert (Hc : py_isspace c = false)
      by (unfold no_space in Hns; simpl in Hns; apply andb_true_iff in Hns as [Hc _];
          apply negb_true_iff, Hc).
    rewrite (py_strip_id (String.concat " " (String c r :: ws)) c
               (match ws with [] => r | _ => r ++ String " " (String.concat " " ws) end)%string
               l c').
    + rewrite split_concat by exact Hall. reflexivity.
    + destruct ws; reflexivity.
    + exact Hc.
    + exact Hl.
    + exact Hc'.
  - intros s H. unfold parse_input, py_split, py_strip.
    rewrite (lstrip_spaces s H). reflexivity.
Qed.

Lemma parse_input_words_witness :
  (Forall (fun x => x <> "" /\ no_space x = true) ["Add"; "Ann"; "1234567890"] ->
   parse_input (String.concat " " ["Add"; "Ann"; "1234567890"]) = (py_lower "Add", ["Ann"; "1234567890"]))
  /\ (forallb py_isspace (list_ascii_of_string "   ") = true -> parse_input "   " = ("", [])).
Proof.
  split.
  - exact (proj1 parse_input_words "Add" ["Ann"; "1234567890"]).
  - exact (proj2 parse_input_words "   ").
Defined.

(** [close] or [exit], in any letter case, stops the loop at once: it
    prints ["Good bye!"], keeps the book, and reads no further input. *)
Theorem main_loop_exit :
  forall (wd : world) (line w : string) (args : list string)
         (more : list (world * string)) (book : AddressBook),
    py_split (py_strip line) = w :: args ->
    py_lower w = "exit" \/ py_lower w = "close" ->
    main_loop ((wd, line) :: more) book = (["Good bye!"], Exited, book).
Proof.
  intros wd line w args more book Hs Hl. simpl. unfold main_step, parse_input. rewrite Hs.
  destruct Hl as [-> | ->]; reflexivity.
Qed.

Lemma main_loop_exit_witness :
  py_split (py_strip " ExIt now") = "ExIt" :: ["now"] /\
  (py_lower "ExIt" = "exit" \/ py_lower "ExIt" = "close") /\
  main_loop ((at_date 2024 6 10, " ExIt now") :: [(at_date 2024 6 10, "hello")]) []
  = (["Good bye!"], Exited, []).
Proof.
  assert (H1 : py_split (py_strip " ExIt now") = "ExIt" :: ["now"]) by reflexivity.
  assert (H2 : py_lower "ExIt" = "exit" \/ py_lower "ExIt" = "close") by (left; reflexivity).
  split; [exact H1|]. split; [exact H2|].
  exact (main_loop_exit (at_date 2024 6 10) " ExIt now" "ExIt" ["now"]
           [(at_date 2024 6 10, "hello")] [] H1 H2).
Defined.

(** A line of whitespace only prints ["Please enter a command."] and the
    loop goes on with the book unchanged. *)
Theorem main_loop_blank_line :
  forall (wd : world) (line : string) (more : list (world * string)) (book : AddressBook),
    forallb py_isspace (list_ascii_of_string line) = true ->
    main_loop ((wd, line) :: more) book
    = let '(outs, e, b) := main_loop more book in ("Please enter a command." :: outs, e, b).
Proof.
  intros wd line more book H. simpl. unfold main_step, parse_input, py_split, py_strip.
  rewrite (lstrip_spaces line H). reflexivity.
Qed.

Lemma main_loop_blank_line_witness :
  forallb py_isspace (list_ascii_of_string " ") = true /\
  main_loop ((at_date 2024 6 10, " ") :: []) []
  = let '(outs, e, b) := main_loop [] [] in ("Please enter a command." :: outs, e, b).
Proof.
  assert (H : forallb py_isspace (list_ascii_of_string " ") = true) by reflexivity.
  split; [exact H|]. exact (main_loop_blank_line (at_date 2024 6 10) " " [] [] H).
Defined.

(* ------------------------------------------------------------------ *)
(** ** More properties of the commands *)

Lemma existsb_phone_in (number : string) (ps : list Phone) :
  existsb (fun p => String.eqb (phone_value p) number) ps = true <-> In number (map phone_value ps).
Proof.
  rewrite existsb_exists, in_map_iff. split.
  - intros (p & Hp & E). apply String.eqb_eq in E. exists p. auto.
  - intros (p & E & Hp). exists p. split; [exact Hp|]. apply String.eqb_eq, E.
Qed.

(** [add NAME PHONE] for a name already in the book: a phone the contact
    already has prints ["Phone already exists."] and changes nothing; a new
    valid phone is appended and ["Contact updated."] is printed. Words after
    the phone are ignored. *)
Theorem add_contact_existing :
  forall (name phone : string) (rest : list string) (book : AddressBook) (r : record),
    find name book = Some r -> phone <> "" ->
    (In phone (phone_values r) ->
       wrap (Handlers.add_contact (name :: phone :: rest) book)
       = (Return "Phone already exists.", book))
    /\ (~ In phone (phone_values r) -> validate_number phone = Ok phone ->
       wrap (Handlers.add_contact (name :: phone :: rest) book)
       = (Return "Contact updated.", dict_setitem name (set_phones r (phones r ++ [mkPhone phone])) book)).
Proof.
  intros name phone rest book r Hf Hne.
  unfold Handlers.add_contact. rewrite Hf.
  apply String.eqb_neq in Hne. rewrite Hne. simpl negb. cbv iota beta.
  unfold add_phone. split.
  - intros Hin. apply existsb_phone_in in Hin. rewrite Hin. simpl.
    rewrite setitem_found by exact Hf. reflexivity.
  - intros Hnin Hv.
    destruct (existsb _ (phones r)) eqn:Ex; [apply existsb_phone_in in Ex; contradiction|].
    unfold Phone_init. rewrite Hv. reflexivity.
Qed.

Lemma add_contact_existing_witness :
  wrap (Handlers.add_contact ["Ann"; "1234567890"]
          [("Ann", snd (add_phone "1234567890" (Record_init "Ann")))])
    = (Return "Phone already exists.", [("Ann", snd (add_phone "1234567890" (Record_init "Ann")))])
  /\ wrap (Handlers.add_contact ["Ann"; "0987654321"]
          [("Ann", snd (add_phone "1234567890" (Record_init "Ann")))])
    = (Return "Contact updated.",
       [("Ann", mkrecord "Ann" [mkPhone "1234567890"; mkPhone "0987654321"] None)]).
Proof.
  split.
  - apply (proj1 (add_contact_existing "Ann" "1234567890" []
                    [("Ann", snd (add_phone "1234567890" (Record_init "Ann")))]
                    (snd (add_phone "1234567890" (Record_init "Ann"))) eq_refl ltac:(discriminate))).
    vm_compute. left. reflexivity.
  - rewrite (proj2 (add_contact_existing "Ann" "0987654321" []
                    [("Ann", snd (add_phone "1234567890" (Record_init "Ann")))]
                    (snd (add_phone "1234567890" (Record_init "Ann"))) eq_refl ltac:(discriminate))
               ltac:(vm_compute; intros [H|H]; [discriminate|exact H])
               ltac:(vm_compute; reflexivity)).
    vm_compute. reflexivity.
Defined.

(** Every command read before the loop stops makes exactly one [print]
    call (whose text may span several lines: [all] and [birthdays] print
    one string joined with newlines): when the input runs out there is one
    print per input line, and [close]/[exit] makes the last print,
    ["Good bye!"]. *)
Theorem main_loop_one_print_per_command :
  forall (inputs : list (world * string)) (book : AddressBook),
    let '(outs, e, _) := main_loop inputs book in
    (e = UncaughtEOFError -> length outs = length inputs)
    /\ (e = Exited -> (1 <= length outs <= length inputs)%nat /\ List.last outs "" = "Good bye!").
Proof.
  induction inputs as [|[w line] rest IH]; intros book; simpl.
  - split; [reflexivity|discriminate].
  - destruct (main_step w line book) as [[[out book'] brk]|r] eqn:E.
    + assert (Hbye : brk = true -> out = "Good bye!").
      { intros ->. unfold main_step in E. destruct (parse_input line) as [command args].
        cbv zeta in E.
        repeat match type of E with
        | context [if ?b then _ else _] => destruct b
        end;
        try (inversion E; reflexivity);
        match type of E with
        | context [wrap ?h] => destruct (wrap h) as [[s|r] b0]; inversion E
        end. }
      destruct brk.
      * split; [discriminate|]. intros _. split; [simpl; lia|]. simpl. apply Hbye; reflexivity.
      * specialize (IH book'). destruct (main_loop rest book') as [[outs e] b''].
        destruct IH as [IH1 IH2]. split.
        -- intros He. simpl. rewrite (IH1 He). reflexivity.
        -- intros He. destruct (IH2 He) as [Hl Hlast]. split; [simpl; lia|].
           destruct outs as [|o os]; [simpl in Hl; lia|]. exact Hlast.
    + split; discriminate.
Qed.

Lemma main_loop_one_print_per_command_witness :
  (1 <= length (fst (fst (main_loop [(at_date 2024 6 10, "hello"); (at_date 2024 6 10, "exit")] []))) <= 2)%nat
  /\ List.last (fst (fst (main_loop [(at_date 2024 6 10, "hello"); (at_date 2024 6 10, "exit")] []))) ""
     = "Good bye!"
  /\ length (fst (fst (main_loop [(at_date 2024 6 10, "add Ann 1234567890");
                                   (at_date 2024 6 10, "add Bob 0987654321");
                                   (at_date 2024 6 10, "all")] []))) = 3%nat.
Proof.
  pose proof (main_loop_one_print_per_command
                [(at_date 2024 6 10, "hello"); (at_date 2024 6 10, "exit")] []) as H.
  pose proof (main_loop_one_print_per_command
                [(at_date 2024 6 10, "add Ann 1234567890"); (at_date 2024 6 10, "add Bob 0987654321");
                 (at_date 2024 6 10, "all")] []) as H'.
  vm_compute in H. vm_compute in H'. vm_compute.
  destruct (proj2 H eq_refl) as [Hl Hlast].
  split; [exact Hl|]. split; [exact Hlast|]. exact (proj1 H' eq_refl).
Defined.

Lemma upcoming_names_nodup (today : date) (rs : list record) (res : list (string * string)) :
  List.NoDup (map name rs) -> scan today rs = Ok res ->
  List.NoDup (map fst res)
  /\ forall x, In x res -> exists r, In r rs /\ fst x = name r /\ birthday r <> None.
Proof.
  revert res. induction rs as [|r t IH]; simpl; intros res Hnd Hs.
  - inversion Hs; subst. split; [constructor|intros x []].
  - inversion Hnd as [|a l Hr Ht]; subst.
    destruct (upcoming_entries today r) as [e|ex] eqn:E; simpl in Hs; [|discriminate].
    destruct (scan today t) as [rest|ex] eqn:Et; simpl in Hs; [|discriminate].
    inversion Hs; subst.
    destruct (IH rest Ht eq_refl) as [IHnd IHin].
    assert (He : e = [] \/ (exists s, e = [(name r, s)] /\ birthday r <> None)).
    { unfold upcoming_entries in E. destruct (birthday r) as [b|] eqn:Eb.
      - destruct (strptime_dmy _) as [bd|ex]; simpl in E; [|discriminate].
        destruct (resolve today bd) as [rd|ex]; simpl in E; [|discriminate].
        destruct (_ && _).
        + destruct (greet_of rd) as [g|ex]; simpl in E; [|discriminate].
          inversion E; subst. right. eexists. split; [reflexivity|discriminate].
        + inversion E; subst. left; reflexivity.
      - inversion E; subst. left; reflexivity. }
    split.
    + destruct He as [->|(s & -> & _)]; simpl; [exact IHnd|].
      constructor; [|exact IHnd]. intros Hin. apply in_map_iff in Hin as (x & Hx & Hin).
      destruct (IHin x Hin) as (r' & Hr' & Hn & _). apply Hr. rewrite <- Hx, Hn.
      apply in_map. exact Hr'.
    + intros x Hx. apply in_app_or in Hx as [Hx|Hx].
      * destruct He as [->|(s & -> & Hb)]; [destruct Hx|].
        destruct Hx as [<-|[]]. exists r. auto.
      * destruct (IHin x Hx) as (r' & Hr' & Hn & Hb). exists r'. auto.
Qed.

(** [get_upcoming_birthdays] on a well-formed book names each contact at
    most once, and only contacts that have a birthday. *)
Theorem upcoming_names_distinct :
  forall (w : world) (ab : AddressBook) (res : list (string * string)),
    book_wf ab -> get_upcoming_birthdays w ab = Ok res ->
    List.NoDup (map fst res)
    /\ forall x, In x res -> exists r, find (fst x) ab = Some r /\ birthday r <> None.
Proof.
  intros w ab res Hwf Hs. unfold get_upcoming_birthdays in Hs.
  destruct (upcoming_names_nodup _ _ _ (book_wf_names ab Hwf) Hs) as [Hnd Hin].
  split; [exact Hnd|]. intros x Hx. destruct (Hin x Hx) as (r & Hr & Hn & Hb).
  exists r. split; [|exact Hb]. rewrite Hn.
  apply in_map_iff in Hr as ([k r'] & Hr' & Hkv). simpl in Hr'. subst r'.
  destruct Hwf as [Hnd' Hall].
  assert (k = name r) as <- by (rewrite List.Forall_forall in Hall; exact (Hall _ Hkv)).
  clear -Hnd' Hkv. apply NoDup_ListNoDup in Hnd'. induction ab as [|[k' v'] t IH]; [destruct Hkv|].
  simpl in *. inversion Hnd' as [|a l Hk' Ht]; subst.
  destruct Hkv as [Heq|Hkv].
  - inversion Heq; subst. rewrite String.eqb_refl. reflexivity.
  - destruct (String.eqb k' k) eqn:E.
    + apply String.eqb_eq in E; subst. exfalso. apply Hk'. apply in_map_iff. exists (k, r). auto.
    + apply IH; assumption.
Qed.

Lemma upcoming_names_distinct_witness :
  book_wf (book_of [rec_bday "A" "10.06.1990"; rec_bday "B" "11.06.1990"]) /\
  get_upcoming_birthdays (at_date 2024 6 10) (book_of [rec_bday "A" "10.06.1990"; rec_bday "B" "11.06.1990"])
    = Ok [("A", "10.06.2024"); ("B", "11.06.2024")] /\
  (List.NoDup (map fst [("A", "10.06.2024"); ("B", "11.06.2024")])
   /\ forall x, In x [("A", "10.06.2024"); ("B", "11.06.2024")] ->
       exists r, find (fst x) (book_of [rec_bday "A" "10.06.1990"; rec_bday "B" "11.06.1990"]) = Some r
                 /\ birthday r <> None).
Proof.
  assert (Hwf : book_wf (book_of [rec_bday "A" "10.06.1990"; rec_bday "B" "11.06.1990"])).
  { split; vm_compute.
    - apply NoDup_ListNoDup. constructor; [intros [H|[]]; discriminate|constructor; [intros []|constructor]].
    - repeat constructor. }
  assert (Hs : get_upcoming_birthdays (at_date 2024 6 10)
                 (book_of [rec_bday "A" "10.06.1990"; rec_bday "B" "11.06.1990"])
               = Ok [("A", "10.06.2024"); ("B", "11.06.2024")]) by (vm_compute; reflexivity).
  split; [exact Hwf|]. split; [exact Hs|].
  exact (upcoming_names_distinct _ _ _ Hwf Hs).
Defined.
